(** * skytemple-ssb-debugger: a shallow embedding of the debugger controller,
    the dungeon state controller with its map classification, and the
    ground-state display helper.

  Source files embedded here:
  - [skytemple_ssb_debugger/model/ground_state/__init__.py]
  - [skytemple_ssb_debugger/controller/debugger.py]
  - [skytemple_ssb_debugger/dungeon/controller/dungeon_state_controller.py] *)

From Stdlib Require Import ZArith Lia String Ascii List SpecFloat QArith.
From Stdlib Require Import DecimalString HexadecimalString.
From stdpp Require Import base option list gmap strings.
Import ListNotations.

Local Open Scope Z_scope.

(** ** Python runtime: exceptions and fallible computations *)

Inductive PyExc : Type :=
| AttributeError
| KeyError
| IndexError
| OverflowError
| ZeroDivisionError.

Inductive result (A : Type) : Type :=
| Ok (a : A)
| Raise (e : PyExc).
Arguments Ok {A} a.
Arguments Raise {A} e.

Definition rbind {A B : Type} (r : result A) (k : A -> result B) : result B :=
match r with
| Ok a => k a
| Raise e => Raise e
end.

Notation "x <-! r ;; k" := (rbind r (fun x => k))
(at level 100, r at next level, right associativity).

(** ** Python floats: IEEE 754 binary64, as specified by [SpecFloat] *)

Module PyFloat.

Definition prec : Z := 53.
Definition emax : Z := 1024.

Definition float : Type := spec_float.

(** [float(n)] for a Python int: rounded to nearest-even, and
    [OverflowError] when the rounded value is not finite. *)
Definition of_int (n : Z) : result float :=
  match binary_normalize prec emax n 0 false with
  | S754_infinity _ => Raise OverflowError
  | f => Ok f
  end.

(** The literal [255.0]. *)
Definition lit_255 : float := binary_normalize prec emax 255 0 false.

Definition exact_of_int (n : Z) : float :=
  match n with
  | Z0 => S754_zero false
  | Zpos p => S754_finite false p 0
  | Zneg p => S754_finite true p 0
  end.

(** [a / b] on two Python ints (true division): the quotient of the two
    integers rounded once to nearest-even. *)
Definition int_truediv (a b : Z) : result float :=
  if Z.eqb b 0 then Raise ZeroDivisionError
  else
    match SFdiv prec emax (exact_of_int a) (exact_of_int b) with
    | S754_infinity _ => Raise OverflowError
    | f => Ok f
    end.

(** [x / y] on two floats, for a non-zero divisor. *)
Definition div (x y : float) : result float :=
  match y with
  | S754_zero _ => Raise ZeroDivisionError
  | _ => Ok (SFdiv prec emax x y)
  end.

Definition add (x y : float) : float := SFadd prec emax x y.

(** [n + y] with [n] an int and [y] a float: [n] is converted first. *)
Definition int_add (n : Z) (y : float) : result float :=
  x <-! of_int n ;; Ok (add x y).

(** The rational value of a finite float. *)
Definition to_Q (f : float) : option Q :=
  match f with
  | S754_zero _ => Some 0%Q
  | S754_finite s m e =>
      let v := if (0 <=? e)%Z
               then inject_Z (Z.pos m * 2 ^ e)
               else Qmake (Z.pos m) (Z.to_pos (2 ^ (- e))) in
      Some (if s then Qopp v else v)
  | _ => None
  end.

End PyFloat.

(** ** model/ground_state/__init__.py *)

Module GroundState.

(** [pos_for_display_camera(pos, camera_pos)] *)
Definition pos_for_display_camera (pos camera_pos : Z) : result PyFloat.float :=
  let pos_abs := Z.shiftr pos 8 - camera_pos in
  pos_sub <-! PyFloat.int_truediv (Z.land pos 255) 255 ;;
  PyFloat.int_add pos_abs pos_sub.

(** The formula as the specification words it:
    [((pos >> 8) - cameraPos) + (pos & 0xFF) / 255.0]. *)
Definition posForDisplayCamera_spec (pos cameraPos : Z) : result PyFloat.float :=
  num <-! PyFloat.of_int (Z.land pos 255) ;;
  frac <-! PyFloat.div num PyFloat.lit_255 ;;
  PyFloat.int_add (Z.shiftr pos 8 - cameraPos) frac.

End GroundState.

(** ** Python strings *)

Module PyStr.

Definition newline : ascii := ascii_of_nat 10.
Definition percent : ascii := ascii_of_nat 37.

(** [str(n)] and [format(n, "0x")] for a Python int. *)
Definition of_int (n : Z) : string :=
  DecimalString.NilZero.string_of_int (Z.to_int n).
Definition hex_of_int (n : Z) : string :=
  HexadecimalString.NilZero.string_of_int (Z.to_hex_int n).

(** [s.replace('%p', '%x')]: left to right, without overlap. *)
Fixpoint replace_pct_p (s : string) : string :=
  match s with
  | EmptyString => EmptyString
  | String c rest =>
      match rest with
      | String d rest' =>
          if Ascii.eqb c percent && Ascii.eqb d "p"
          then String percent (String "x" (replace_pct_p rest'))
          else String c (replace_pct_p rest)
      | EmptyString => String c EmptyString
      end
  end.

(** [s.rstrip('\n')] *)
Fixpoint rstrip_newline (s : string) : string :=
  match s with
  | EmptyString => EmptyString
  | String c rest =>
      match rstrip_newline rest with
      | EmptyString => if Ascii.eqb c newline then EmptyString else String c EmptyString
      | r => String c r
      end
  end.

(** [s.count('%')] *)
Fixpoint count_percent (s : string) : nat :=
  match s with
  | EmptyString => O
  | String c rest =>
      if Ascii.eqb c percent then S (count_percent rest) else count_percent rest
  end.

(** [s.endswith('\n')] *)
Fixpoint ends_with_newline (s : string) : bool :=
  match s with
  | EmptyString => false
  | String c EmptyString => Ascii.eqb c newline
  | String _ rest => ends_with_newline rest
  end.

(** ['\n' * k] *)
Fixpoint newlines (k : nat) : string :=
  match k with
  | O => EmptyString
  | S k' => String newline (newlines k')
  end.

End PyStr.

(** ** controller/debugger.py *)

Module Debugger.

(** *** The emulator thread, as far as the controller uses it *)

(** The callbacks [enable] hands to [register_exec]. *)
Inductive Hook : Type :=
| cb_hook__breaking_point
| cb_hook__log_printfs (register_offset : nat)
| cb_hook__log_debug_print
| cb_hook__debug_mode.

Record EmulatorThread : Type := mkEmulatorThread {
  memory_bytes : Z -> Z;          (* emu.memory, one byte per address *)
  memory_strings : Z -> string;   (* emu.memory.read_string(pnt) *)
  register_arm9 : nat -> Z;       (* emu.memory.register_arm9[i]; r0 .. r15 *)
  exec_hooks : gmap Z Hook;       (* what emu.memory.register_exec has installed *)
  current_frame_id : Z
}.

(** [emu.memory.unsigned.read_short(addr)]: two bytes, little endian. *)
Definition read_short (emu : EmulatorThread) (addr : Z) : Z :=
  memory_bytes emu addr mod 256 + 256 * (memory_bytes emu (addr + 1) mod 256).

(** *** Static ROM configuration (skytemple_files, external) *)

Record Pmd2ScriptOpCode : Type := mkOpCode {
  op_name : string;
  params : Z
}.

Record Pmd2Binary : Type := mkBinary {
  functions : gmap string Z       (* function name -> begin_absolute *)
}.

Record Pmd2Data : Type := mkPmd2Data {
  binaries : gmap string Pmd2Binary;
  op_codes__by_id : gmap Z Pmd2ScriptOpCode   (* script_data.op_codes__by_id *)
}.

(** *** Objects of the repository that are not part of the given sources *)

(** Modelled from the spec: the Script Runtime Struct
    (model/script_runtime_struct.py is missing), a view of the script engine's
    memory; only the attributes [debugger.py] reads are kept. *)
Record ScriptRuntimeStruct : Type := mkSrs {
  target_type_name : string;      (* srs.target_type.name *)
  target_id : Z;
  current_opcode_name : string;   (* srs.current_opcode.name *)
  current_opcode_addr : Z;
  current_opcode_addr_relative : Z;
  hanger_ssb : nat;
  is_in_unionall : bool;
  script_target_type : Z;
  script_target_slot_id : Z;
  has_call_stack : bool;
  call_stack__current_opcode_addr_relative : Z;
  start_addr_str_table : Z
}.

Record SsbLoadedFile : Type := mkSsb { file_name : string }.

(** Modelled from the spec: the Ground Engine State aggregate
    (model/ground_engine_state.py is missing). *)
Record GroundEngineState : Type := mkGes {
  logging_enabled : bool;
  unionall_load_addr : Z;
  loaded_ssb_files : list (option SsbLoadedFile)
}.

(** A temporary breakpoint, with the keyword arguments of [add_temporary]
    ([None] when the keyword is not passed). *)
Record TemporaryBreakpoint : Type := mkTemp {
  tb_target_type : Z;
  tb_slot_id : Z;
  tb_is_in_unionall : option bool;
  tb_opcode_addr : option Z
}.

(** Modelled from the spec: the breakpoint manager
    (model/breakpoint_manager.py is missing): persistent breakpoints per
    script file, and the temporary breakpoints that [reset_temporary] clears
    and [add_temporary] registers. *)
Record BreakpointManager : Type := mkBm {
  bm_persistent : list (string * Z);
  bm_temporary : list TemporaryBreakpoint
}.

Definition reset_temporary (bm : BreakpointManager) : BreakpointManager :=
  mkBm (bm_persistent bm) [].

Definition add_temporary (ty slot : Z) (is_in_unionall : option bool)
    (opcode_addr : option Z) (bm : BreakpointManager) : BreakpointManager :=
  mkBm (bm_persistent bm)
       (bm_temporary bm ++ [mkTemp ty slot is_in_unionall opcode_addr]).

(** [BreakpointStateType] of model/breakpoint_state.py. *)
Inductive BreakpointStateType : Type :=
| STOPPED | FAIL_HARD | RESUME | STEP_NEXT | STEP_INTO | STEP_OVER | STEP_OUT.

(** One turn of [state.wait(0.0005)] as the emulator thread sees it: either
    the wait was signalled (and [state.state] is then read after the loop), or
    it timed out and [state.state] is read by the loop condition. *)
Inductive Poll : Type :=
| Signaled (final : BreakpointStateType)
| Unsignaled (seen : BreakpointStateType).

(** [NdsStrPnt]: an int that prints as the string it points to. *)
Record NdsStrPnt : Type := mkNdsStrPnt { pnt : Z }.

(** Which object a call passes in a positional slot. *)
Inductive CallArg : Type := arg_memory | arg_rom_data | arg_emu_thread.

(** The functions of the missing modules and of Python that the hooks call. *)
Class External : Type := {
  ScriptRuntimeStruct_new :
    CallArg -> EmulatorThread -> option Pmd2Data -> Z -> Z -> ScriptRuntimeStruct;
  BreakpointManager_has :
    BreakpointManager -> string -> Z -> bool -> Z -> Z -> bool;
  GameVariable_read :
    CallArg -> CallArg -> EmulatorThread -> Z -> Z -> ScriptRuntimeStruct -> string * Z;
  read_ssb_str_mem : EmulatorThread -> Z -> Z -> string;
  (** [fmt % args], the arguments being [NdsStrPnt]s *)
  str_percent : EmulatorThread -> string -> list NdsStrPnt -> result string
}.

(** *** The controller object *)

Record DebuggerController : Type := mkController {
  is_active : bool;
  rom_data : option Pmd2Data;
  ground_engine_state : option GroundEngineState;
  breakpoint_manager : option BreakpointManager;
  _breakpoints_disabled : bool;
  _breakpoints_disabled_for_tick : Z;
  _breakpoint_force : bool;
  _log_operations : bool;
  _log_debug_print : bool;
  _log_printfs : bool;
  _debug_mode : bool;
  _log_ground_engine_state : bool
}.

Definition set_is_active (v : bool) (c : DebuggerController) :=
  mkController v (rom_data c) (ground_engine_state c) (breakpoint_manager c)
    (_breakpoints_disabled c) (_breakpoints_disabled_for_tick c) (_breakpoint_force c)
    (_log_operations c) (_log_debug_print c) (_log_printfs c) (_debug_mode c)
    (_log_ground_engine_state c).

Definition set_rom_data (v : option Pmd2Data) (c : DebuggerController) :=
  mkController (is_active c) v (ground_engine_state c) (breakpoint_manager c)
    (_breakpoints_disabled c) (_breakpoints_disabled_for_tick c) (_breakpoint_force c)
    (_log_operations c) (_log_debug_print c) (_log_printfs c) (_debug_mode c)
    (_log_ground_engine_state c).

Definition set_ground_engine_state (v : option GroundEngineState) (c : DebuggerController) :=
  mkController (is_active c) (rom_data c) v (breakpoint_manager c)
    (_breakpoints_disabled c) (_breakpoints_disabled_for_tick c) (_breakpoint_force c)
    (_log_operations c) (_log_debug_print c) (_log_printfs c) (_debug_mode c)
    (_log_ground_engine_state c).

Definition set_breakpoint_manager (v : option BreakpointManager) (c : DebuggerController) :=
  mkController (is_active c) (rom_data c) (ground_engine_state c) v
    (_breakpoints_disabled c) (_breakpoints_disabled_for_tick c) (_breakpoint_force c)
    (_log_operations c) (_log_debug_print c) (_log_printfs c) (_debug_mode c)
    (_log_ground_engine_state c).

Definition set_breakpoints_disabled (v : bool) (c : DebuggerController) :=
  mkController (is_active c) (rom_data c) (ground_engine_state c) (breakpoint_manager c)
    v (_breakpoints_disabled_for_tick c) (_breakpoint_force c)
    (_log_operations c) (_log_debug_print c) (_log_printfs c) (_debug_mode c)
    (_log_ground_engine_state c).

Definition set_breakpoints_disabled_for_tick (v : Z) (c : DebuggerController) :=
  mkController (is_active c) (rom_data c) (ground_engine_state c) (breakpoint_manager c)
    (_breakpoints_disabled c) v (_breakpoint_force c)
    (_log_operations c) (_log_debug_print c) (_log_printfs c) (_debug_mode c)
    (_log_ground_engine_state c).

Definition set_breakpoint_force (v : bool) (c : DebuggerController) :=
  mkController (is_active c) (rom_data c) (ground_engine_state c) (breakpoint_manager c)
    (_breakpoints_disabled c) (_breakpoints_disabled_for_tick c) v
    (_log_operations c) (_log_debug_print c) (_log_printfs c) (_debug_mode c)
    (_log_ground_engine_state c).

Definition set_log_operations (v : bool) (c : DebuggerController) :=
  mkController (is_active c) (rom_data c) (ground_engine_state c) (breakpoint_manager c)
    (_breakpoints_disabled c) (_breakpoints_disabled_for_tick c) (_breakpoint_force c)
    v (_log_debug_print c) (_log_printfs c) (_debug_mode c)
    (_log_ground_engine_state c).

Definition set_log_debug_print (v : bool) (c : DebuggerController) :=
  mkController (is_active c) (rom_data c) (ground_engine_state c) (breakpoint_manager c)
    (_breakpoints_disabled c) (_breakpoints_disabled_for_tick c) (_breakpoint_force c)
    (_log_operations c) v (_log_printfs c) (_debug_mode c)
    (_log_ground_engine_state c).

Definition set_log_printfs (v : bool) (c : DebuggerController) :=
  mkController (is_active c) (rom_data c) (ground_engine_state c) (breakpoint_manager c)
    (_breakpoints_disabled c) (_breakpoints_disabled_for_tick c) (_breakpoint_force c)
    (_log_operations c) (_log_debug_print c) v (_debug_mode c)
    (_log_ground_engine_state c).

Definition set_debug_mode (v : bool) (c : DebuggerController) :=
  mkController (is_active c) (rom_data c) (ground_engine_state c) (breakpoint_manager c)
    (_breakpoints_disabled c) (_breakpoints_disabled_for_tick c) (_breakpoint_force c)
    (_log_operations c) (_log_debug_print c) (_log_printfs c) v
    (_log_ground_engine_state c).

Definition set_log_ground_engine_state (v : bool) (c : DebuggerController) :=
  mkController (is_active c) (rom_data c) (ground_engine_state c) (breakpoint_manager c)
    (_breakpoints_disabled c) (_breakpoints_disabled_for_tick c) (_breakpoint_force c)
    (_log_operations c) (_log_debug_print c) (_log_printfs c) (_debug_mode c) v.

(** *** What a call does to the outside, in the order it does it *)

Inductive Event : Type :=
| EvLockAcquire                    (* debugger_state_lock.acquire() *)
| EvLockRelease                    (* debugger_state_lock.release() *)
| EvPrint (text : string)          (* the print callback, dispatched to the UI thread *)
| EvBreakpointStateNew (hanger : nat)   (* BreakpointState(srs.hanger_ssb) *)
| EvStateAcquire                   (* state.acquire() *)
| EvBreakPulled (hanger : nat) (srs : ScriptRuntimeStruct)
                                   (* parent.break_pulled(state, srs), to the UI thread *)
| EvStateWait                      (* state.wait(0.0005) *)
| EvRunOnePendingTask              (* emu_thread.run_one_pending_task() *)
| EvStateRelease                   (* state.release() *)
| EvGameVariableRead (a1 a2 : CallArg) (var_id sub : Z)
| EvReadSsbStr (table index : Z)
| EvWatch                          (* ground_engine_state.watch() *)
| EvRemoveWatches.                 (* ground_engine_state.remove_watches() *)

Record World : Type := mkWorld {
  self : DebuggerController;
  emu_thread : EmulatorThread;
  trace : list Event
}.

(** How a call ends: it returns, it raises, or it is still inside the wait
    loop of the breaking-point hook when the observed polls are used up. *)
Inductive outcome (A : Type) : Type :=
| Done (a : A)
| Raised (e : PyExc)
| Blocked.
Arguments Done {A} a.
Arguments Raised {A} e.
Arguments Blocked {A}.

Definition M (A : Type) : Type := World -> outcome A * World.

Definition ret {A : Type} (a : A) : M A := fun w => (Done a, w).

Definition bind {A B : Type} (m : M A) (k : A -> M B) : M B :=
  fun w =>
    match m w with
    | (Done a, w') => k a w'
    | (Raised e, w') => (Raised e, w')
    | (Blocked, w') => (Blocked, w')
    end.

Notation "x <- m ;; k" := (bind m (fun x => k))
  (at level 100, m at next level, right associativity).
Notation "m ;;; k" := (bind m (fun _ => k))
  (at level 100, right associativity).

Definition raise {A : Type} (e : PyExc) : M A := fun w => (Raised e, w).
Definition blocked {A : Type} : M A := fun w => (Blocked, w).
Definition get_self : M DebuggerController := fun w => (Done (self w), w).
Definition get_emu : M EmulatorThread := fun w => (Done (emu_thread w), w).
Definition modify_self (f : DebuggerController -> DebuggerController) : M unit :=
  fun w => (Done tt, mkWorld (f (self w)) (emu_thread w) (trace w)).
Definition modify_emu (f : EmulatorThread -> EmulatorThread) : M unit :=
  fun w => (Done tt, mkWorld (self w) (f (emu_thread w)) (trace w)).
Definition emit (ev : Event) : M unit :=
  fun w => (Done tt, mkWorld (self w) (emu_thread w) (trace w ++ [ev])).

(** [o.attr] on an optional object: [AttributeError] on [None]. *)
Definition attr_of {A : Type} (o : option A) : M A :=
  match o with Some a => ret a | None => raise AttributeError end.

(** [d[k]] on a dict: [KeyError] when the key is missing. *)
Definition dict_get {K A : Type} `{Countable K} (d : gmap K A) (k : K) : M A :=
  match d !! k with Some a => ret a | None => raise KeyError end.

(** [l[i]] on a list: [IndexError] out of range. *)
Definition list_get {A : Type} (l : list A) (i : nat) : M A :=
  match l !! i with Some a => ret a | None => raise IndexError end.

Definition lift {A : Type} (r : result A) : M A :=
  match r with Ok a => ret a | Raise e => raise e end.

(** [@synchronized(debugger_state_lock)]: the lock is held for the call and
    released however the call ends. *)
Definition synchronized {A : Type} (body : M A) : M A :=
  fun w =>
    match emit EvLockAcquire w with
    | (_, w1) =>
        match body w1 with
        | (o, w2) => (o, snd (emit EvLockRelease w2))
        end
    end.

(** *** [DebuggerController] *)

(** [__init__] *)
Definition __init__ : DebuggerController :=
  {| is_active := false;
     rom_data := None;
     ground_engine_state := None;
     breakpoint_manager := None;
     _breakpoints_disabled := false;
     _breakpoints_disabled_for_tick := -1;
     _breakpoint_force := false;
     _log_operations := false;
     _log_debug_print := false;
     _log_printfs := false;
     _debug_mode := false;
     _log_ground_engine_state := false |}.

(** The [breakpoints_disabled] property setter. *)
Definition breakpoints_disabled_set (val : bool) : M unit :=
  modify_self (set_breakpoints_disabled val).

(** [register_exec(pnt, cb)]; [cb = None] removes the hook. *)
Definition register_exec (pnt : Z) (cb : option Hook) : M unit :=
  modify_emu (fun emu =>
    mkEmulatorThread (memory_bytes emu) (memory_strings emu) (register_arm9 emu)
      (match cb with
       | Some h => <[pnt := h]> (exec_hooks emu)
       | None => delete pnt (exec_hooks emu)
       end)
      (current_frame_id emu)).

(** [print_callback(text)] *)
Definition print_callback (text : string) : M unit := emit (EvPrint text).

(** [enable(rom_data, ssb_file_manager, breakpoint_manager, cb)];
    [new_ges] is the object the [GroundEngineState] constructor returns. *)
Definition enable (rom : Pmd2Data) (bm : option BreakpointManager)
    (new_ges : GroundEngineState) : M unit :=
  modify_self (set_rom_data (Some rom)) ;;;
  modify_self (set_breakpoint_manager bm) ;;;
  arm9 <- dict_get (binaries rom) "arm9.bin"%string ;;
  ov11 <- dict_get (binaries rom) "overlay/overlay_0011.bin"%string ;;
  a1 <- dict_get (functions ov11) "FuncThatCallsCommandParsing"%string ;;
  register_exec (a1 + 0x58) (Some cb_hook__breaking_point) ;;;
  a2 <- dict_get (functions arm9) "DebugPrint"%string ;;
  register_exec a2 (Some (cb_hook__log_printfs 1)) ;;;
  a3 <- dict_get (functions arm9) "DebugPrint2"%string ;;
  register_exec a3 (Some (cb_hook__log_printfs 0)) ;;;
  a4 <- dict_get (functions ov11) "ScriptCommandParsing"%string ;;
  register_exec (a4 + 0x3C40) (Some cb_hook__log_debug_print) ;;;
  a5 <- dict_get (functions ov11) "ScriptCommandParsing"%string ;;
  register_exec (a5 + 0x15C8) (Some cb_hook__debug_mode) ;;;
  modify_self (set_ground_engine_state (Some new_ges)) ;;;
  modify_self (fun c =>
    set_ground_engine_state
      (Some (mkGes (_log_ground_engine_state c) (unionall_load_addr new_ges)
                   (loaded_ssb_files new_ges))) c) ;;;
  emit EvWatch.

(** [disable()] *)
Definition disable : M unit :=
  c <- get_self ;;
  rom <- attr_of (rom_data c) ;;
  arm9 <- dict_get (binaries rom) "arm9.bin"%string ;;
  ov11 <- dict_get (binaries rom) "overlay/overlay_0011.bin"%string ;;
  a1 <- dict_get (functions ov11) "FuncThatCallsCommandParsing"%string ;;
  register_exec (a1 + 0x58) None ;;;
  a2 <- dict_get (functions arm9) "DebugPrint"%string ;;
  register_exec a2 None ;;;
  a3 <- dict_get (functions arm9) "DebugPrint2"%string ;;
  register_exec a3 None ;;;
  a4 <- dict_get (functions ov11) "ScriptCommandParsing"%string ;;
  register_exec (a4 + 0x3C40) None ;;;
  a5 <- dict_get (functions ov11) "ScriptCommandParsing"%string ;;
  register_exec (a5 + 0x15C8) None ;;;
  modify_self (set_is_active false) ;;;
  modify_self (set_rom_data None) ;;;
  c <- get_self ;;
  _ges <- attr_of (ground_engine_state c) ;;
  emit EvRemoveWatches ;;;
  modify_self (set_ground_engine_state None).

Definition log_operations (value : bool) : M unit :=
  synchronized (modify_self (set_log_operations value)).

Definition log_debug_print (value : bool) : M unit :=
  synchronized (modify_self (set_log_debug_print value)).

Definition log_printfs (value : bool) : M unit :=
  synchronized (modify_self (set_log_printfs value)).

Definition log_ground_engine_state (value : bool) : M unit :=
  synchronized (
    modify_self (set_log_ground_engine_state value) ;;;
    modify_self (fun c =>
      match ground_engine_state c with
      | Some ges =>
          set_ground_engine_state
            (Some (mkGes value (unionall_load_addr ges) (loaded_ssb_files ges))) c
      | None => c
      end)).

Definition debug_mode (value : bool) : M unit :=
  synchronized (modify_self (set_debug_mode value)).

(** *** The callbacks that run in the emulator thread *)

Section Hooks.
Context `{External}.

(** [self.breakpoint_manager.reset_temporary()] and [.add_temporary(...)]. *)
Definition with_breakpoint_manager (f : BreakpointManager -> BreakpointManager) : M unit :=
  c <- get_self ;;
  bm <- attr_of (breakpoint_manager c) ;;
  modify_self (set_breakpoint_manager (Some (f bm))).

(** The line [hook__breaking_point] logs for an operation. *)
Definition operation_line (srs : ScriptRuntimeStruct) : string :=
  "> " +:+ target_type_name srs +:+ "(" +:+ PyStr.of_int (target_id srs) +:+ "): "
  +:+ current_opcode_name srs +:+ " @" +:+ PyStr.hex_of_int (current_opcode_addr srs).

(** [while not state.wait(0.0005) and state.state == STOPPED:
       self.emu_thread.run_one_pending_task()],
    returning the [state.state] the code then branches on. *)
Fixpoint wait_loop (polls : list Poll) : M BreakpointStateType :=
  match polls with
  | [] => blocked
  | p :: rest =>
      emit EvStateWait ;;;
      match p with
      | Signaled final => ret final
      | Unsignaled STOPPED => emit EvRunOnePendingTask ;;; wait_loop rest
      | Unsignaled seen => ret seen
      end
  end.

(** The body of the innermost [if] of [hook__breaking_point]: the break is
    taken. *)
Definition break_at (srs : ScriptRuntimeStruct) (polls : list Poll) : M unit :=
  with_breakpoint_manager reset_temporary ;;;
  modify_self (set_breakpoint_force false) ;;;
  emit (EvBreakpointStateNew (hanger_ssb srs)) ;;;
  emit EvStateAcquire ;;;
  emit (EvBreakPulled (hanger_ssb srs) srs) ;;;
  state <- wait_loop polls ;;
  emit EvStateRelease ;;;
  match state with
  | FAIL_HARD =>
      emu <- get_emu ;;
      modify_self (set_breakpoints_disabled_for_tick (current_frame_id emu))
  | RESUME => ret tt
  | STEP_NEXT => modify_self (set_breakpoint_force true)
  | STEP_INTO =>
      with_breakpoint_manager
        (add_temporary (script_target_type srs) (script_target_slot_id srs) None None)
  | STEP_OVER =>
      with_breakpoint_manager
        (add_temporary (script_target_type srs) (script_target_slot_id srs)
           (Some (is_in_unionall srs)) None) ;;;
      if has_call_stack srs then
        with_breakpoint_manager
          (add_temporary (script_target_type srs) (script_target_slot_id srs)
             None (Some (call_stack__current_opcode_addr_relative srs)))
      else ret tt
  | STEP_OUT =>
      if has_call_stack srs then
        with_breakpoint_manager
          (add_temporary (script_target_type srs) (script_target_slot_id srs)
             None (Some (call_stack__current_opcode_addr_relative srs)))
      else ret tt
  | STOPPED => ret tt
  end.

(** [hook__breaking_point(address, size)] *)
Definition hook__breaking_point (polls : list Poll) : M unit :=
  emit EvLockAcquire ;;;
  c <- get_self ;;
  emu <- get_emu ;;
  ges <- attr_of (ground_engine_state c) ;;
  let srs := ScriptRuntimeStruct_new arg_memory emu (rom_data c)
               (register_arm9 emu 6) (unionall_load_addr ges) in
  (if _log_operations c then print_callback (operation_line srs) else ret tt) ;;;
  match breakpoint_manager c with
  | Some bm =>
      if negb (_breakpoints_disabled c)
         && negb (_breakpoints_disabled_for_tick c =? current_frame_id emu)
      then
        emit EvLockRelease ;;;
        modify_self (set_breakpoints_disabled_for_tick (-1)) ;;;
        ssb <- list_get (loaded_ssb_files ges) (hanger_ssb srs) ;;
        match ssb with
        | Some ssb =>
            if _breakpoint_force c
               || BreakpointManager_has bm (file_name ssb)
                    (current_opcode_addr_relative srs) (is_in_unionall srs)
                    (script_target_type srs) (script_target_slot_id srs)
            then break_at srs polls
            else ret tt
        | None => ret tt
        end
      else emit EvLockRelease
  | None => emit EvLockRelease
  end.

(** [NdsStrPnt(emu, emu.memory.register_arm9[i])] *)
Definition reg_pnt (emu : EmulatorThread) (i : nat) : NdsStrPnt :=
  mkNdsStrPnt (register_arm9 emu i).

(** The argument tuple [hook__log_printfs] builds for [args_count] from 1
    to 9, branch by branch; [None] when no branch applies. *)
Definition printf_args (emu : EmulatorThread) (register_offset args_count : nat)
    : option (list NdsStrPnt) :=
  let r := reg_pnt emu in
  let o := register_offset in
  match args_count with
  | 1 => Some [r (o + 1)]
  | 2 => Some [r (o + 1); r (o + 2)]
  | 3 => Some [r (o + 1); r (o + 2); r (o + 3)]
  | 4 => Some [r (o + 1); r (o + 2); r (o + 3); r (o + 4)]
  | 5 => Some [r (o + 1); r (o + 2); r (o + 3); r (o + 4); r (o + 5)]
  | 6 => Some [r (o + 1); r (o + 2); r (o + 3); r (o + 4); r (o + 5); r (o + 6)]
  | 7 => Some [r (o + 1); r (o + 2); r (o + 3); r (o + 4); r (o + 5); r (o + 6);
               r 8]
  | 8 => Some [r (o + 1); r (o + 2); r (o + 3); r (o + 4); r (o + 5); r (o + 6);
               r (o + 7); r (o + 8)]
  | 9 => Some [r (o + 1); r (o + 2); r (o + 3); r (o + 4); r (o + 5); r (o + 6);
               r (o + 7); r (o + 8); r (o + 9)]
  | _ => None
  end%nat.

(** The format string of a printf hook after
    [.replace('%p', '%x').rstrip('\n')]. *)
Definition printf_format (emu : EmulatorThread) (register_offset : nat) : string :=
  PyStr.rstrip_newline
    (PyStr.replace_pct_p (memory_strings emu (register_arm9 emu register_offset))).

(** [hook__log_printfs(register_offset, address, size)] *)
Definition hook__log_printfs (register_offset : nat) : M unit :=
  synchronized (
    c <- get_self ;;
    if negb (_log_printfs c) then ret tt
    else
      emu <- get_emu ;;
      let dbg_string := printf_format emu register_offset in
      let args_count := PyStr.count_percent dbg_string in
      match args_count with
      | O => print_callback dbg_string
      | _ =>
          match printf_args emu register_offset args_count with
          | Some args =>
              text <- lift (str_percent emu dbg_string args) ;;
              print_callback text
          | None => ret tt
          end
      end).

(** [hook__log_debug_print(address, size)] *)
Definition hook__log_debug_print : M unit :=
  synchronized (
    c <- get_self ;;
    if negb (_log_debug_print c) then ret tt
    else
      emu <- get_emu ;;
      ges <- attr_of (ground_engine_state c) ;;
      let srs := ScriptRuntimeStruct_new arg_emu_thread emu (rom_data c)
                   (register_arm9 emu 4) (unionall_load_addr ges) in
      let ssb_str_table_pointer := start_addr_str_table srs in
      let current_op_pnt := register_arm9 emu 5 in
      let current_op := register_arm9 emu 6 in
      if current_op =? 0x6B then
        let idx := read_short emu (current_op_pnt + 2) in
        emit (EvReadSsbStr ssb_str_table_pointer idx) ;;;
        let const_string := read_ssb_str_mem emu ssb_str_table_pointer idx in
        print_callback ("debug_Print: " +:+ const_string)
      else if current_op =? 0x6C then
        let var_id := read_short emu (current_op_pnt + 2) in
        emit (EvGameVariableRead arg_memory arg_rom_data var_id 0) ;;;
        let '(game_var_name, game_var_value) :=
          GameVariable_read arg_memory arg_rom_data emu var_id 0 srs in
        let idx := read_short emu (current_op_pnt + 4) in
        emit (EvReadSsbStr ssb_str_table_pointer idx) ;;;
        let const_string := read_ssb_str_mem emu ssb_str_table_pointer idx in
        print_callback ("debug_PrintFlag: " +:+ const_string +:+ " - " +:+ game_var_name
                        +:+ " = " +:+ PyStr.of_int game_var_value)
      else if current_op =? 0x6D then
        let var_id := read_short emu (current_op_pnt + 2) in
        emit (EvGameVariableRead arg_rom_data arg_memory var_id 0) ;;;
        let '(game_var_name, game_var_value) :=
          GameVariable_read arg_rom_data arg_memory emu var_id 0 srs in
        emit (EvGameVariableRead arg_memory arg_rom_data var_id 1) ;;;
        let '(_, level_value) :=
          GameVariable_read arg_memory arg_rom_data emu var_id 1 srs in
        let idx := read_short emu (current_op_pnt + 4) in
        emit (EvReadSsbStr ssb_str_table_pointer idx) ;;;
        let const_string := read_ssb_str_mem emu ssb_str_table_pointer idx in
        print_callback ("debug_PrintScenario: " +:+ const_string +:+ " - " +:+ game_var_name
                        +:+ " = " +:+ "scenario:" +:+ PyStr.of_int game_var_value
                        +:+ ", level:" +:+ PyStr.of_int game_var_value)
      else ret tt).

(** [hook__debug_mode(address, size)] *)
Definition hook__debug_mode : M unit :=
  synchronized (
    c <- get_self ;;
    if _debug_mode c then
      modify_emu (fun emu =>
        mkEmulatorThread (memory_bytes emu) (memory_strings emu)
          (fun i => match i with
                    | O => if register_arm9 emu 0 =? 0 then 1 else 0
                    | _ => register_arm9 emu i
                    end)
          (exec_hooks emu) (current_frame_id emu))
    else ret tt).

(** [_get_next_opcode_addr(current_opcode_addr, current_opcode_addr_relative)] *)
Definition _get_next_opcode_addr
    (current_opcode_addr current_opcode_addr_relative : Z) : M Z :=
  c <- get_self ;;
  emu <- get_emu ;;
  rom <- attr_of (rom_data c) ;;
  current_opcode <- dict_get (op_codes__by_id rom) (read_short emu current_opcode_addr) ;;
  let len := 2 in
  let len :=
    if params current_opcode =? -1
    then len + (2 + read_short emu (current_opcode_addr + 0x02))
    else len + 2 * params current_opcode in
  ret (current_opcode_addr_relative + len).

(** *** The life of a controller: every call that can be made on it *)

Inductive Op : Type :=
| op_enable (rom : Pmd2Data) (bm : option BreakpointManager) (new_ges : GroundEngineState)
| op_disable
| op_breakpoints_disabled (val : bool)
| op_register_exec (pnt : Z) (cb : option Hook)
| op_log_operations (value : bool)
| op_log_debug_print (value : bool)
| op_log_printfs (value : bool)
| op_log_ground_engine_state (value : bool)
| op_debug_mode (value : bool)
| op_hook__breaking_point (polls : list Poll)
| op_hook__log_printfs (register_offset : nat)
| op_hook__log_debug_print
| op_hook__debug_mode
| op_print_callback (text : string)
| op_get_next_opcode_addr (current_opcode_addr current_opcode_addr_relative : Z).

Definition run_op (op : Op) : M unit :=
  match op with
  | op_enable rom bm new_ges => enable rom bm new_ges
  | op_disable => disable
  | op_breakpoints_disabled val => breakpoints_disabled_set val
  | op_register_exec p cb => register_exec p cb
  | op_log_operations v => log_operations v
  | op_log_debug_print v => log_debug_print v
  | op_log_printfs v => log_printfs v
  | op_log_ground_engine_state v => log_ground_engine_state v
  | op_debug_mode v => debug_mode v
  | op_hook__breaking_point polls => hook__breaking_point polls
  | op_hook__log_printfs o => hook__log_printfs o
  | op_hook__log_debug_print => hook__log_debug_print
  | op_hook__debug_mode => hook__debug_mode
  | op_print_callback text => print_callback text
  | op_get_next_opcode_addr a r => _ <- _get_next_opcode_addr a r ;; ret tt
  end.

(** The states a controller goes through: it is constructed, methods are
    called on it (whether they return, raise or block), and in between the
    emulator runs and the ground engine state follows the game. *)
Inductive reachable : World -> Prop :=
| reach_init (emu : EmulatorThread) :
    reachable (mkWorld __init__ emu [])
| reach_call (w : World) (op : Op) :
    reachable w -> reachable (snd (run_op op w))
| reach_emulator (w : World) (emu' : EmulatorThread) :
    reachable w -> reachable (mkWorld (self w) emu' (trace w))
| reach_ground_engine (w : World) (ges' : GroundEngineState) :
    reachable w ->
    is_Some (ground_engine_state (self w)) ->
    reachable (mkWorld (set_ground_engine_state (Some ges') (self w))
                       (emu_thread w) (trace w)).

End Hooks.

(** *** Vocabulary for statements about runs *)

(** The world after some more events. *)
Definition logged (w : World) (evs : list Event) : World :=
  mkWorld (self w) (emu_thread w) (trace w ++ evs).

(** What a poll resolves the wait loop to, if it ends it. *)
Definition resolution (p : Poll) : option BreakpointStateType :=
  match p with
  | Signaled final => Some final
  | Unsignaled STOPPED => None
  | Unsignaled seen => Some seen
  end.

(** The events of a wait loop that times out [k] times before it ends. *)
Definition waiting_events (k : nat) : list Event :=
  concat (replicate k [EvStateWait; EvRunOnePendingTask]) ++ [EvStateWait].

(** The temporary breakpoints left by a step-over. *)
Definition step_over_temporaries (srs : ScriptRuntimeStruct) : list TemporaryBreakpoint :=
  mkTemp (script_target_type srs) (script_target_slot_id srs)
         (Some (is_in_unionall srs)) None
  :: (if has_call_stack srs
      then [mkTemp (script_target_type srs) (script_target_slot_id srs)
                   None (Some (call_stack__current_opcode_addr_relative srs))]
      else []).

(** The registrations [enable] makes, in the order it makes them, when the
    ROM configuration has every binary and function it looks up. *)
Definition hook_points (rom : Pmd2Data) : option (list (Z * Hook)) :=
  arm9 ← binaries rom !! "arm9.bin"%string;
  ov11 ← binaries rom !! "overlay/overlay_0011.bin"%string;
  a1 ← functions ov11 !! "FuncThatCallsCommandParsing"%string;
  a2 ← functions arm9 !! "DebugPrint"%string;
  a3 ← functions arm9 !! "DebugPrint2"%string;
  a4 ← functions ov11 !! "ScriptCommandParsing"%string;
  Some [(a1 + 0x58, cb_hook__breaking_point);
        (a2, cb_hook__log_printfs 1);
        (a3, cb_hook__log_printfs 0);
        (a4 + 0x3C40, cb_hook__log_debug_print);
        (a4 + 0x15C8, cb_hook__debug_mode)].

(** A hook table after a list of registrations, and after their removal. *)
Definition install (pts : list (Z * Hook)) (hooks : gmap Z Hook) : gmap Z Hook :=
  fold_left (fun m ah => <[fst ah := snd ah]> m) pts hooks.

Definition uninstall (pts : list (Z * Hook)) (hooks : gmap Z Hook) : gmap Z Hook :=
  fold_left (fun m ah => delete (fst ah) m) pts hooks.

(** The emulator thread with another hook table. *)
Definition with_exec_hooks (hooks : gmap Z Hook) (emu : EmulatorThread) : EmulatorThread :=
  mkEmulatorThread (memory_bytes emu) (memory_strings emu) (register_arm9 emu)
    hooks (current_frame_id emu).

(** The temporary breakpoints registered for each answer to a break. *)
Definition temporaries_after (state : BreakpointStateType) (srs : ScriptRuntimeStruct)
    : list TemporaryBreakpoint :=
  match state with
  | STEP_INTO =>
      [mkTemp (script_target_type srs) (script_target_slot_id srs) None None]
  | STEP_OVER => step_over_temporaries srs
  | STEP_OUT =>
      if has_call_stack srs
      then [mkTemp (script_target_type srs) (script_target_slot_id srs)
                   None (Some (call_stack__current_opcode_addr_relative srs))]
      else []
  | STOPPED | FAIL_HARD | RESUME | STEP_NEXT => []
  end.

(** The events of a break that is taken and answered after [k] timed-out
    waits. *)
Definition break_events (srs : ScriptRuntimeStruct) (k : nat) : list Event :=
  [EvBreakpointStateNew (hanger_ssb srs); EvStateAcquire;
   EvBreakPulled (hanger_ssb srs) srs]
  ++ waiting_events k ++ [EvStateRelease].

(** The events a firing of the breaking-point hook starts with: the lock is
    taken and, with operation logging on, the operation line is printed. *)
Definition hook_preamble (c : DebuggerController) (srs : ScriptRuntimeStruct) : list Event :=
  EvLockAcquire :: (if _log_operations c then [EvPrint (operation_line srs)] else []).

Definition is_lock_event (ev : Event) : bool :=
  match ev with
  | EvLockAcquire | EvLockRelease => true
  | _ => false
  end.

(** All that a call adds to the trace satisfies [P]. *)
Definition emits_only {A : Type} (P : Event -> Prop) (m : M A) : Prop :=
  forall w : World, exists evs, trace (snd (m w)) = trace w ++ evs /\ Forall P evs.

(** A call keeps an inactive controller inactive, however it ends. *)
Definition keeps_inactive {A : Type} (m : M A) : Prop :=
  forall w : World, is_active (self w) = false -> is_active (self (snd (m w))) = false.

End Debugger.

(** ** dungeon/controller/dungeon_state_controller.py *)

Module DungeonStateController.

(** Modelled from the spec: [PixbufProviderTerrainType] (dungeon/pixbuf is
    missing). [BASE_TERRAIN v] is the member [PixbufProviderTerrainType(v)]
    that the controller builds from the value of the field's own terrain
    type. *)
Inductive PixbufProviderTerrainType : Type :=
| BASE_TERRAIN (value : Z)
| IMPASSABLE_WALL
| JUNCTION
| MONSTER_HOUSE
| KECLEON_SHOP.

Inductive PixbufProviderFloorType : Type :=
| FLOOR_NONE | ITEM | WONDER_TILE | OTHER_TRAP | STAIRS.

Inductive PixbufProviderMonsterType : Type :=
| MONSTER_NONE | ENEMY | ALLY_ENEMY | TEAM_LEADER | ALLY.

Inductive DungeonEntityType : Type := ENTITY_ITEM | ENTITY_OTHER.

Inductive DungeonFieldStairType : Type := STAIR_NONE | STAIR_OTHER (value : Z).

(** An entity lying on the floor, with the trap id of its extended data. *)
Record FloorEntity : Type := mkFloorEntity {
  entity_type : DungeonEntityType;
  trap_id : Z
}.

(** [EntityExtMonster]: the flags as the integers read from memory. *)
Record EntityExtMonster : Type := mkMonster {
  enemy_flag : Z;
  ally_flag : Z;
  teamleader_flag : Z
}.

Record DungeonField : Type := mkField {
  terrain_type_value : Z;          (* map_field.terrain_type.value *)
  is_impassable_wall : bool;
  is_natural_junction : bool;
  is_in_monster_house : bool;
  is_in_kecleon_shop : bool;
  entity_on_floor : option FloorEntity;
  stair_type : DungeonFieldStairType;
  monster_on_tile : option EntityExtMonster;   (* with load_extended_data() *)
  texture_index : Z
}.

(** Truth value of a Python int. *)
Definition truthy (z : Z) : bool := negb (z =? 0).

Section UpdateMaps.
(** [MAP_WIDTH], [MAP_HEIGHT] and [MappaTrapType.WONDER_TILE.value]. *)
Variables (MAP_WIDTH MAP_HEIGHT : nat) (WONDER_TILE_value : Z).

Definition terrain_type_of (map_field : DungeonField) : PixbufProviderTerrainType :=
  let terrain_type := BASE_TERRAIN (terrain_type_value map_field) in
  if is_impassable_wall map_field then IMPASSABLE_WALL
  else if is_natural_junction map_field then JUNCTION
  else if is_in_monster_house map_field then MONSTER_HOUSE
  else if is_in_kecleon_shop map_field then KECLEON_SHOP
  else terrain_type.

Definition floor_type_of (map_field : DungeonField) : PixbufProviderFloorType :=
  match entity_on_floor map_field with
  | Some entity =>
      match entity_type entity with
      | ENTITY_ITEM => ITEM
      | ENTITY_OTHER =>
          if trap_id entity =? WONDER_TILE_value then WONDER_TILE else OTHER_TRAP
      end
  | None =>
      match stair_type map_field with
      | STAIR_NONE => FLOOR_NONE
      | STAIR_OTHER _ => STAIRS
      end
  end.

Definition monster_type_of (map_field : DungeonField) : PixbufProviderMonsterType :=
  match monster_on_tile map_field with
  | Some monster_data =>
      if truthy (enemy_flag monster_data) then ENEMY
      else if ally_flag monster_data =? 1 then ALLY_ENEMY
      else if truthy (teamleader_flag monster_data) then TEAM_LEADER
      else ALLY
  | None => MONSTER_NONE
  end.

(** The key of the small-map icon of a field. *)
Definition small_map_icon (map_field : DungeonField)
    : PixbufProviderTerrainType * PixbufProviderFloorType * PixbufProviderMonsterType :=
  (terrain_type_of map_field, floor_type_of map_field, monster_type_of map_field).

(** [_update_maps]: the rows appended to the small map model, for [y] in
    [range(0, MAP_HEIGHT)] and [x] in [range(0, MAP_WIDTH)]. *)
Definition _update_maps (is_loaded valid : bool) (map : nat -> nat -> DungeonField)
    : list (PixbufProviderTerrainType * PixbufProviderFloorType * PixbufProviderMonsterType) :=
  if is_loaded && valid then
    flat_map (fun y => List.map (fun x => small_map_icon (map x y)) (seq 0 MAP_WIDTH))
             (seq 0 MAP_HEIGHT)
  else [].

(** The priority rules as the specification words them: the first rule whose
    condition holds wins, else the default. *)
Definition first_match {A : Type} (rules : list (bool * A)) (default : A) : A :=
  match List.find fst rules with
  | Some (_, a) => a
  | None => default
  end.

Definition terrain_classification_spec (f : DungeonField) : PixbufProviderTerrainType :=
  first_match [(is_impassable_wall f, IMPASSABLE_WALL);
               (is_natural_junction f, JUNCTION);
               (is_in_monster_house f, MONSTER_HOUSE);
               (is_in_kecleon_shop f, KECLEON_SHOP)]
              (BASE_TERRAIN (terrain_type_value f)).

Definition monster_classification_spec (f : DungeonField) : PixbufProviderMonsterType :=
  match monster_on_tile f with
  | None => MONSTER_NONE
  | Some m =>
      first_match [(truthy (enemy_flag m), ENEMY);
                   (ally_flag m =? 1, ALLY_ENEMY);
                   (truthy (teamleader_flag m), TEAM_LEADER)]
                  ALLY
  end.

End UpdateMaps.

End DungeonStateController.

(** ** dungeon/controller/dungeon_state_controller.py: the controller object *)

Module DungeonRefresh.
Import DungeonStateController.

(** *** What the controller is given *)

(** Static ROM configuration, as far as this controller reads it: the data
    blocks and pointers of a binary by name, each with its
    [begin_absolute]. *)
Record Pmd2Binary : Type := mkBinary {
  blocks : gmap string Z;
  pointers : gmap string Z
}.

Record Pmd2Data : Type := mkPmd2Data {
  binaries : gmap string Pmd2Binary
}.

(** Modelled from the spec: the Dungeon State reader
    (dungeon/model/dungeon_state.py is missing), bound to the two addresses
    it is constructed with. *)
Record DungeonState : Type := mkDungeonState {
  ds_pnt_dungeon_data : Z;
  ds_addr_current_dungeon_id : Z
}.

(** Modelled from the spec: what the Dungeon State reader finds in the
    emulator's memory during one refresh tick, namely the value of its
    [valid] property and the outcome of its [load_map()]. The memory changes
    between ticks, so a tick is given what it reads. *)
Record Snapshot : Type := mkSnapshot {
  valid : bool;
  load_map : result (nat -> nat -> DungeonField)
}.

(** Modelled from the spec: the two pixbuf providers (dungeon/pixbuf is
    missing), together with the GTK, PIL and skytemple_files objects the
    controller passes around: their types and the calls the controller makes
    on them, each of which may raise. *)
Class Toolkit : Type := {
  Pixbuf : Type;                  (* GdkPixbuf.Pixbuf *)
  DungeonBinPack : Type;
  DungeonBinFile : Type;          (* a Dpc, Dpci or Dpl model *)
  BinPack : Type;
  Md : Type;
  Image : Type;                   (* PIL image *)
  FullMapPixbufProvider : Type;
  (** [dungeon_bin.get(name)] *)
  DungeonBinPack_get : DungeonBinPack -> string -> result DungeonBinFile;
  (** [dpc.chunks_to_pil(dpci, dpl.palettes, 1)] *)
  chunks_to_pil : DungeonBinFile -> DungeonBinFile -> DungeonBinFile -> result Image;
  (** [FullMapPixbufProvider(pil_to_cairo_surface(image.convert('RGBA')),
       monster_bin, monster_md)] *)
  FullMapPixbufProvider_new :
    Image -> option BinPack -> option Md -> result FullMapPixbufProvider;
  (** [SmallMapPixbufProvider.get(terrain_type, floor_type, monster_type)] *)
  SmallMapPixbufProvider_get :
    PixbufProviderTerrainType -> PixbufProviderFloorType -> PixbufProviderMonsterType
    -> result Pixbuf;
  (** [provider.get(texture_index, floor_type, monster_type, entity_on_floor,
       monster_on_tile)] *)
  FullMapPixbufProvider_get :
    FullMapPixbufProvider -> Z -> PixbufProviderFloorType -> PixbufProviderMonsterType
    -> option FloorEntity -> option EntityExtMonster -> result Pixbuf
}.

Section Controller.
Context `{Toolkit}.
(** [MAP_WIDTH], [MAP_HEIGHT] and [MappaTrapType.WONDER_TILE.value]. *)
Variables (MAP_WIDTH MAP_HEIGHT : nat) (WONDER_TILE_value : Z).

(** The context's three asset getters, as they answer when [enable] calls
    them. *)
Record ControlContext : Type := mkContext {
  get_dungeon_bin : result DungeonBinPack;
  get_monster_bin : result BinPack;
  get_monster_md : result Md
}.

(** The controller object. The two list stores are [None] only until
    [_init_maps], which [__init__] calls; they are modelled from there on, as
    the rows they hold. *)
Record Controller : Type := mkController {
  is_loaded : bool;
  _rom_data : option Pmd2Data;
  addr_current_dungeon_id : option Z;   (* begin_absolute of the block *)
  pnt_dungeon_data : option Z;   (* begin_absolute of the pointer *)
  _dungeon_state : option DungeonState;
  small_map_model : list Pixbuf;   (* rows of the Gtk.ListStore *)
  full_map_model : list Pixbuf;
  _current_cached_tilemap_id : option Z;
  _current_cached_full_map_provider : option FullMapPixbufProvider;
  _dungeon_bin : option DungeonBinPack;
  _monster_bin : option BinPack;
  _monster_md : option Md
}.

Definition set_is_loaded (v : bool) (c : Controller) : Controller :=
  mkController v (_rom_data c) (addr_current_dungeon_id c) (pnt_dungeon_data c)
    (_dungeon_state c) (small_map_model c) (full_map_model c)
    (_current_cached_tilemap_id c) (_current_cached_full_map_provider c)
    (_dungeon_bin c) (_monster_bin c) (_monster_md c).

Definition set_rom_data (v : option Pmd2Data) (c : Controller) : Controller :=
  mkController (is_loaded c) v (addr_current_dungeon_id c) (pnt_dungeon_data c)
    (_dungeon_state c) (small_map_model c) (full_map_model c)
    (_current_cached_tilemap_id c) (_current_cached_full_map_provider c)
    (_dungeon_bin c) (_monster_bin c) (_monster_md c).

Definition set_addr_current_dungeon_id (v : option Z) (c : Controller) : Controller :=
  mkController (is_loaded c) (_rom_data c) v (pnt_dungeon_data c) (_dungeon_state c)
    (small_map_model c) (full_map_model c) (_current_cached_tilemap_id c)
    (_current_cached_full_map_provider c) (_dungeon_bin c) (_monster_bin c)
    (_monster_md c).

Definition set_pnt_dungeon_data (v : option Z) (c : Controller) : Controller :=
  mkController (is_loaded c) (_rom_data c) (addr_current_dungeon_id c) v
    (_dungeon_state c) (small_map_model c) (full_map_model c)
    (_current_cached_tilemap_id c) (_current_cached_full_map_provider c)
    (_dungeon_bin c) (_monster_bin c) (_monster_md c).

Definition set_dungeon_state (v : option DungeonState) (c : Controller) : Controller :=
  mkController (is_loaded c) (_rom_data c) (addr_current_dungeon_id c)
    (pnt_dungeon_data c) v (small_map_model c) (full_map_model c)
    (_current_cached_tilemap_id c) (_current_cached_full_map_provider c)
    (_dungeon_bin c) (_monster_bin c) (_monster_md c).

Definition set_small_map_model (v : list Pixbuf) (c : Controller) : Controller :=
  mkController (is_loaded c) (_rom_data c) (addr_current_dungeon_id c)
    (pnt_dungeon_data c) (_dungeon_state c) v (full_map_model c)
    (_current_cached_tilemap_id c) (_current_cached_full_map_provider c)
    (_dungeon_bin c) (_monster_bin c) (_monster_md c).

Definition set_full_map_model (v : list Pixbuf) (c : Controller) : Controller :=
  mkController (is_loaded c) (_rom_data c) (addr_current_dungeon_id c)
    (pnt_dungeon_data c) (_dungeon_state c) (small_map_model c) v
    (_current_cached_tilemap_id c) (_current_cached_full_map_provider c)
    (_dungeon_bin c) (_monster_bin c) (_monster_md c).

Definition set_current_cached_tilemap_id (v : option Z) (c : Controller) : Controller :=
  mkController (is_loaded c) (_rom_data c) (addr_current_dungeon_id c)
    (pnt_dungeon_data c) (_dungeon_state c) (small_map_model c) (full_map_model c) v
    (_current_cached_full_map_provider c) (_dungeon_bin c) (_monster_bin c)
    (_monster_md c).

Definition set_current_cached_full_map_provider (v : option FullMapPixbufProvider) (c : Controller) : Controller :=
  mkController (is_loaded c) (_rom_data c) (addr_current_dungeon_id c)
    (pnt_dungeon_data c) (_dungeon_state c) (small_map_model c) (full_map_model c)
    (_current_cached_tilemap_id c) v (_dungeon_bin c) (_monster_bin c) (_monster_md c).

Definition set_dungeon_bin (v : option DungeonBinPack) (c : Controller) : Controller :=
  mkController (is_loaded c) (_rom_data c) (addr_current_dungeon_id c)
    (pnt_dungeon_data c) (_dungeon_state c) (small_map_model c) (full_map_model c)
    (_current_cached_tilemap_id c) (_current_cached_full_map_provider c) v
    (_monster_bin c) (_monster_md c).

Definition set_monster_bin (v : option BinPack) (c : Controller) : Controller :=
  mkController (is_loaded c) (_rom_data c) (addr_current_dungeon_id c)
    (pnt_dungeon_data c) (_dungeon_state c) (small_map_model c) (full_map_model c)
    (_current_cached_tilemap_id c) (_current_cached_full_map_provider c)
    (_dungeon_bin c) v (_monster_md c).

Definition set_monster_md (v : option Md) (c : Controller) : Controller :=
  mkController (is_loaded c) (_rom_data c) (addr_current_dungeon_id c)
    (pnt_dungeon_data c) (_dungeon_state c) (small_map_model c) (full_map_model c)
    (_current_cached_tilemap_id c) (_current_cached_full_map_provider c)
    (_dungeon_bin c) (_monster_bin c) v.

(** *** What a call does to the outside *)

Inductive Event : Type :=
| EvLockAcquire                 (* dungeon_data_lock.acquire() *)
| EvLockRelease                 (* dungeon_data_lock.release() *)
| EvWarning (ex : PyExc)        (* logger.warning(..., exc_info=ex) *)
| EvTimeoutAdd.                 (* GLib.timeout_add_seconds(2, self._update_maps) *)

Record World : Type := mkWorld {
  self : Controller;
  trace : list Event
}.

Definition M (A : Type) : Type := World -> result A * World.

Definition ret {A : Type} (a : A) : M A := fun w => (Ok a, w).

Definition bind {A B : Type} (m : M A) (k : A -> M B) : M B :=
  fun w =>
    match m w with
    | (Ok a, w') => k a w'
    | (Raise e, w') => (Raise e, w')
    end.

Notation "x <- m ;; k" := (bind m (fun x => k))
  (at level 100, m at next level, right associativity).
Notation "m ;;; k" := (bind m (fun _ => k))
  (at level 100, right associativity).

Definition raise {A : Type} (e : PyExc) : M A := fun w => (Raise e, w).
Definition get_self : M Controller := fun w => (Ok (self w), w).
Definition modify_self (f : Controller -> Controller) : M unit :=
  fun w => (Ok tt, mkWorld (f (self w)) (trace w)).
Definition emit (ev : Event) : M unit :=
  fun w => (Ok tt, mkWorld (self w) (trace w ++ [ev])).

Definition attr_of {A : Type} (o : option A) : M A :=
  match o with Some a => ret a | None => raise AttributeError end.

Definition dict_get {A : Type} (d : gmap string A) (k : string) : M A :=
  match d !! k with Some a => ret a | None => raise KeyError end.

Definition lift {A : Type} (r : result A) : M A :=
  match r with Ok a => ret a | Raise e => raise e end.

(** [@synchronized(dungeon_data_lock)] *)
Definition synchronized {A : Type} (body : M A) : M A :=
  fun w =>
    match emit EvLockAcquire w with
    | (_, w1) =>
        match body w1 with
        | (o, w2) => (o, snd (emit EvLockRelease w2))
        end
    end.

(** [try: body except BaseException as ex: handler(ex)] *)
Definition try_except_BaseException (body : M unit) (handler : PyExc -> M unit) : M unit :=
  fun w =>
    match body w with
    | (Ok a, w') => (Ok a, w')
    | (Raise ex, w') => handler ex w'
    end.

(** [for a in l: body(a)] *)
Fixpoint for_each {A : Type} (l : list A) (body : A -> M unit) : M unit :=
  match l with
  | [] => ret tt
  | a :: rest => body a ;;; for_each rest body
  end.

(** *** [DungeonStateController] *)

(** The properties [rom_data] and [dungeon_state]. *)
Definition rom_data_get : M (option Pmd2Data) :=
  synchronized (c <- get_self ;; ret (_rom_data c)).

Definition rom_data_set (value : option Pmd2Data) : M unit :=
  synchronized (modify_self (set_rom_data value)).

Definition dungeon_state_get : M (option DungeonState) :=
  synchronized (c <- get_self ;; ret (_dungeon_state c)).

Definition dungeon_state_set (value : option DungeonState) : M unit :=
  synchronized (modify_self (set_dungeon_state value)).

(** [_init_maps()]: two fresh list stores, bound to the two icon views. *)
Definition _init_maps : M unit :=
  modify_self (set_small_map_model []) ;;;
  modify_self (set_full_map_model []).

(** [__init__(context, emu_thread, builder)] *)
Definition __init__ : World :=
  snd ((_init_maps ;;; emit EvTimeoutAdd)
         (mkWorld (mkController false None None None None [] [] None None None None None)
                  [])).

(** [enable(rom_data)] *)
Definition enable (rom_data : Pmd2Data) (context : ControlContext) : M unit :=
  modify_self (set_is_loaded true) ;;;
  modify_self (set_rom_data (Some rom_data)) ;;;
  arm9 <- dict_get (binaries rom_data) "arm9.bin"%string ;;
  block <- dict_get (blocks arm9) "DungeonCurrentId"%string ;;
  modify_self (set_addr_current_dungeon_id (Some block)) ;;;
  arm9 <- dict_get (binaries rom_data) "arm9.bin"%string ;;
  pointer <- dict_get (pointers arm9) "DungeonData"%string ;;
  modify_self (set_pnt_dungeon_data (Some pointer)) ;;;
  dungeon_state_set (Some (mkDungeonState pointer block)) ;;;
  dungeon_bin <- lift (get_dungeon_bin context) ;;
  modify_self (set_dungeon_bin (Some dungeon_bin)) ;;;
  monster_bin <- lift (get_monster_bin context) ;;
  modify_self (set_monster_bin (Some monster_bin)) ;;;
  monster_md <- lift (get_monster_md context) ;;
  modify_self (set_monster_md (Some monster_md)).

(** [disable()] *)
Definition disable : M unit :=
  modify_self (set_is_loaded false) ;;;
  rom_data_set None.

(** [_get_dpc(idx)], [_get_dpci(idx)] and [_get_dpl(idx)] *)
Definition _get_dpc (idx : Z) : M DungeonBinFile :=
  c <- get_self ;;
  dungeon_bin <- attr_of (_dungeon_bin c) ;;
  lift (DungeonBinPack_get dungeon_bin ("dungeon" +:+ PyStr.of_int idx +:+ ".dpc")).

Definition _get_dpci (idx : Z) : M DungeonBinFile :=
  c <- get_self ;;
  dungeon_bin <- attr_of (_dungeon_bin c) ;;
  lift (DungeonBinPack_get dungeon_bin ("dungeon" +:+ PyStr.of_int idx +:+ ".dpci")).

Definition _get_dpl (idx : Z) : M DungeonBinFile :=
  c <- get_self ;;
  dungeon_bin <- attr_of (_dungeon_bin c) ;;
  lift (DungeonBinPack_get dungeon_bin ("dungeon" +:+ PyStr.of_int idx +:+ ".dpl")).

(** [_get_current_full_map_provider()] *)
Definition _get_current_full_map_provider : M FullMapPixbufProvider :=
  let tilemap_id := 1 in
  c <- get_self ;;
  match (if match _current_cached_tilemap_id c with
            | Some id => id =? tilemap_id
            | None => false
            end
         then _current_cached_full_map_provider c
         else None) with
  | Some provider => ret provider
  | None =>
      modify_self (set_current_cached_tilemap_id (Some tilemap_id)) ;;;
      dpc <- _get_dpc 1 ;;
      dpci <- _get_dpci 1 ;;
      dpl <- _get_dpl 1 ;;
      pil_image <- lift (chunks_to_pil dpc dpci dpl) ;;
      c <- get_self ;;
      provider <- lift (FullMapPixbufProvider_new pil_image (_monster_bin c) (_monster_md c)) ;;
      modify_self (set_current_cached_full_map_provider (Some provider)) ;;;
      ret provider
  end.

(** The body of the two loops of [_update_maps] for one field. *)
Definition render_field (full_pixbuf_provider : FullMapPixbufProvider)
    (map_field : DungeonField) : M unit :=
  let terrain_type := terrain_type_of map_field in
  let floor_type := floor_type_of WONDER_TILE_value map_field in
  let monster_type := monster_type_of map_field in
  pixbuf <- lift (SmallMapPixbufProvider_get terrain_type floor_type monster_type) ;;
  modify_self (fun c => set_small_map_model (small_map_model c ++ [pixbuf]) c) ;;;
  full_map_pixbuf <-
    lift (FullMapPixbufProvider_get full_pixbuf_provider (texture_index map_field)
            floor_type monster_type (entity_on_floor map_field)
            (monster_on_tile map_field)) ;;
  modify_self (fun c => set_full_map_model (full_map_model c ++ [full_map_pixbuf]) c).

(** [_update_maps()], the refresh tick; [seen] is what the dungeon state
    reader finds in memory during the tick. *)
Definition _update_maps (seen : Snapshot) : M unit :=
  modify_self (set_small_map_model []) ;;;
  modify_self (set_full_map_model []) ;;;
  c <- get_self ;;
  render <-
    (if is_loaded c
     then dungeon_state <- dungeon_state_get ;;
          _ <- attr_of dungeon_state ;;
          ret (valid seen)
     else ret false) ;;
  (if (render : bool) then
     try_except_BaseException
       (dungeon_state <- dungeon_state_get ;;
        _ <- attr_of dungeon_state ;;
        map <- lift (load_map seen) ;;
        full_pixbuf_provider <- _get_current_full_map_provider ;;
        for_each (seq 0 MAP_HEIGHT) (fun y =>
          for_each (seq 0 MAP_WIDTH) (fun x =>
            render_field full_pixbuf_provider (map x y))))
       (fun ex => emit (EvWarning ex))
   else ret tt) ;;;
  emit EvTimeoutAdd.

(** *** Vocabulary for statements about runs *)

(** The world after some more events. *)
Definition logged (w : World) (evs : list Event) : World :=
  mkWorld (self w) (trace w ++ evs).

(** The controller with other rows in its two list stores. *)
Definition with_models (small full : list Pixbuf) (c : Controller) : Controller :=
  set_full_map_model full (set_small_map_model small c).

(** The provider the cache answers with, if it does. *)
Definition cached_provider (c : Controller) : option FullMapPixbufProvider :=
  match _current_cached_tilemap_id c with
  | Some id => if id =? 1 then _current_cached_full_map_provider c else None
  | None => None
  end.

(** The provider built from the assets the controller holds, as
    [_get_current_full_map_provider] builds it when the cache does not
    answer. *)
Definition built_provider (c : Controller) : result FullMapPixbufProvider :=
  dungeon_bin <-! match _dungeon_bin c with
                  | Some dungeon_bin => Ok dungeon_bin
                  | None => Raise AttributeError
                  end ;;
  dpc <-! DungeonBinPack_get dungeon_bin "dungeon1.dpc" ;;
  dpci <-! DungeonBinPack_get dungeon_bin "dungeon1.dpci" ;;
  dpl <-! DungeonBinPack_get dungeon_bin "dungeon1.dpl" ;;
  pil_image <-! chunks_to_pil dpc dpci dpl ;;
  FullMapPixbufProvider_new pil_image (_monster_bin c) (_monster_md c).

(** The provider a tick works with. *)
Definition current_provider (c : Controller) : result FullMapPixbufProvider :=
  match cached_provider c with
  | Some provider => Ok provider
  | None => built_provider c
  end.

(** The controller after the provider was looked up. *)
Definition after_provider (c : Controller) : Controller :=
  match cached_provider c with
  | Some _ => c
  | None =>
      match built_provider c with
      | Ok provider =>
          set_current_cached_full_map_provider (Some provider)
            (set_current_cached_tilemap_id (Some 1) c)
      | Raise _ => set_current_cached_tilemap_id (Some 1) c
      end
  end.

(** The fields of the floor in the order the two loops of a tick visit
    them. *)
Definition floor_fields (map : nat -> nat -> DungeonField) : list DungeonField :=
  flat_map (fun y => List.map (fun x => map x y) (seq 0 MAP_WIDTH)) (seq 0 MAP_HEIGHT).

(** The addresses [enable] resolves, when the ROM configuration has them. *)
Definition dungeon_addresses (rom_data : Pmd2Data) : option (Z * Z) :=
  arm9 ← binaries rom_data !! "arm9.bin"%string;
  block ← blocks arm9 !! "DungeonCurrentId"%string;
  pointer ← pointers arm9 !! "DungeonData"%string;
  Some (block, pointer).

End Controller.

End DungeonRefresh.

(** ** Concrete inputs used to exercise the theorems *)

Module Samples.
Import Debugger.

(** An opcode table with a two-parameter opcode and a variable-length one. *)
Definition sample_rom : Pmd2Data :=
  mkPmd2Data
    {[ "arm9.bin"%string :=
         mkBinary {[ "DebugPrint"%string := 0x2000; "DebugPrint2"%string := 0x2100 ]};
       "overlay/overlay_0011.bin"%string :=
         mkBinary {[ "FuncThatCallsCommandParsing"%string := 0x3000;
                     "ScriptCommandParsing"%string := 0x4000 ]} ]}
    {[ 5 := mkOpCode "Wait" 2; 7 := mkOpCode "Switch" (-1) ]}.

(** Memory: opcode 5 at [0x1000]; opcode 7 with length field 6 at [0x1100];
    a debug_PrintScenario operand block at [0x1200]. *)
Definition sample_bytes (addr : Z) : Z :=
  if addr =? 0x1000 then 5
  else if addr =? 0x1100 then 7
  else if addr =? 0x1102 then 6
  else if addr =? 0x1202 then 9
  else if addr =? 0x1204 then 2
  else 0.

Definition fmt7 : string := "%x %x %x %x %x %x %x".
Definition fmt8 : string := "%x %x %x %x %x %x %x %x".

Definition sample_strings (p : Z) : string :=
  if p =? 100 then fmt7 else if p =? 101 then fmt8 else "".

(** Register [i] holds [100 + i]; r4, r5 and r6 are set for the debug-print
    opcode hook. *)
Definition sample_registers (i : nat) : Z :=
  match i with
  | 5%nat => 0x1200
  | 6%nat => 0x6D
  | _ => 100 + Z.of_nat i
  end.

Definition plain_registers (i : nat) : Z := 100 + Z.of_nat i.

Definition sample_emu : EmulatorThread :=
  mkEmulatorThread sample_bytes sample_strings sample_registers ∅ 12.

Definition printf_emu : EmulatorThread :=
  mkEmulatorThread sample_bytes sample_strings plain_registers ∅ 12.

Definition sample_srs : ScriptRuntimeStruct :=
  mkSrs "ACTOR" 3 "Wait" 0x22ab3c 100 0 true 2 5 true 40 0x5000.

Definition sample_srs_no_stack : ScriptRuntimeStruct :=
  mkSrs "ACTOR" 3 "Wait" 0x22ab3c 100 0 true 2 5 false 40 0x5000.

(** The missing functions, made concrete: [fmt % args] shows the pointers it
    was given, a game variable reads as its id plus its sub-index. *)
Definition sample_external (srs : ScriptRuntimeStruct) : External :=
  {| ScriptRuntimeStruct_new := fun _ _ _ _ _ => srs;
     BreakpointManager_has := fun bm _ addr _ _ _ =>
       existsb (fun b => snd b =? addr) (bm_persistent bm);
     GameVariable_read := fun _ _ _ var_id sub _ => ("SCENARIO_MAIN"%string, var_id + sub);
     read_ssb_str_mem := fun _ _ idx => "str"%string +:+ PyStr.of_int idx;
     str_percent := fun _ fmt args =>
       Ok (fold_left (fun acc a => acc +:+ " " +:+ PyStr.of_int (pnt a)) args fmt) |}.

Definition sample_ges : GroundEngineState :=
  mkGes false 0x8000 [Some (mkSsb "SCRIPT/D01P11A/enter.ssb")].

Definition sample_bm : BreakpointManager :=
  mkBm [("SCRIPT/D01P11A/enter.ssb"%string, 100)] [mkTemp 9 9 None None].

Definition sample_controller (bm : option BreakpointManager) : DebuggerController :=
  mkController false (Some sample_rom) (Some sample_ges) bm
    false (-1) false true true true false false.

Definition sample_world (bm : option BreakpointManager) : World :=
  mkWorld (sample_controller bm) sample_emu [].

Definition printf_world : World :=
  mkWorld (sample_controller None) printf_emu [].

(** The same ROM layout loaded at other addresses. *)
Definition sample_rom_eu : Pmd2Data :=
  mkPmd2Data
    {[ "arm9.bin"%string :=
         mkBinary {[ "DebugPrint"%string := 0x2400; "DebugPrint2"%string := 0x2500 ]};
       "overlay/overlay_0011.bin"%string :=
         mkBinary {[ "FuncThatCallsCommandParsing"%string := 0x3400;
                     "ScriptCommandParsing"%string := 0x4400 ]} ]}
    {[ 5 := mkOpCode "Wait" 2; 7 := mkOpCode "Switch" (-1) ]}.

(** A ROM configuration without the overlay. *)
Definition sample_rom_no_overlay : Pmd2Data :=
  mkPmd2Data
    {[ "arm9.bin"%string :=
         mkBinary {[ "DebugPrint"%string := 0x2000; "DebugPrint2"%string := 0x2100 ]} ]}
    ∅.

Definition sample_points : list (Z * Hook) :=
  [(0x3058, cb_hook__breaking_point); (0x2000, cb_hook__log_printfs 1);
   (0x2100, cb_hook__log_printfs 0); (0x7C40, cb_hook__log_debug_print);
   (0x55C8, cb_hook__debug_mode)].

Definition sample_points_eu : list (Z * Hook) :=
  [(0x3458, cb_hook__breaking_point); (0x2400, cb_hook__log_printfs 1);
   (0x2500, cb_hook__log_printfs 0); (0x8040, cb_hook__log_debug_print);
   (0x59C8, cb_hook__debug_mode)].

(** The sample world with breaks switched off, and one whose breakpoint
    manager has no breakpoint at all. *)
Definition muted_world : World :=
  mkWorld (set_breakpoints_disabled true (sample_controller (Some sample_bm)))
          sample_emu [].

Definition empty_bm : BreakpointManager := mkBm [] [].

(** A fresh controller, enabled on the sample ROM, and then disabled. *)
Definition fresh_world : World := mkWorld __init__ sample_emu [].

Definition enabled_world : World :=
  snd (@run_op (sample_external sample_srs)
         (op_enable sample_rom (Some sample_bm) sample_ges) fresh_world).

Definition disabled_world : World :=
  snd (@run_op (sample_external sample_srs) op_disable enabled_world).

(** Strings of a game that logs a plain line, a line with more specifiers
    than the hooks handle, and a two-argument message. *)
Definition fmt10 : string := "%d %d %d %d %d %d %d %d %d %d".

Definition plain_strings (p : Z) : string :=
  if p =? 100 then "MainLoop start" +:+ PyStr.newlines 1
  else if p =? 101 then fmt10
  else if p =? 102 then "%s at %p"
  else "".

Definition shifted_registers (i : nat) : Z := 102 + Z.of_nat i.

Definition plain_world : World :=
  mkWorld (sample_controller None)
          (mkEmulatorThread sample_bytes plain_strings plain_registers ∅ 12) [].

Definition shifted_world : World :=
  mkWorld (sample_controller None)
          (mkEmulatorThread sample_bytes plain_strings shifted_registers ∅ 12) [].

(** A controller straight after construction: every logging flag is off and
    nothing is attached. *)
Definition silent_world : World := mkWorld __init__ printf_emu [].

(** The sample world stopped at the debug opcode [op]. *)
Definition opcode_registers (op : Z) (i : nat) : Z :=
  match i with
  | 5%nat => 0x1200
  | 6%nat => op
  | _ => 100 + Z.of_nat i
  end.

Definition opcode_world (op : Z) : World :=
  mkWorld (sample_controller None)
          (mkEmulatorThread sample_bytes sample_strings (opcode_registers op) ∅ 12) [].

(** The sample world with debug mode switched on. *)
Definition debug_mode_world : World :=
  mkWorld (set_debug_mode true (sample_controller None)) sample_emu [].

(** A 2 x 2 floor: at [(1, 0)] a junction inside a monster house with an
    enemy that is also flagged team leader; at [(0, 1)] a hostile ally. *)
Definition sample_map (x y : nat) : DungeonStateController.DungeonField :=
  match x, y with
  | 1%nat, 0%nat =>
      DungeonStateController.mkField 1 false true true false None
        DungeonStateController.STAIR_NONE
        (Some (DungeonStateController.mkMonster 1 0 1)) 3
  | 0%nat, 1%nat =>
      DungeonStateController.mkField 1 false false false false None
        DungeonStateController.STAIR_NONE
        (Some (DungeonStateController.mkMonster 0 1 0)) 0
  | _, _ =>
      DungeonStateController.mkField 0 false false false false None
        DungeonStateController.STAIR_NONE None 0
  end.

(** A toolkit made concrete: a pixbuf shows what it was looked up with, the
    dungeon archive is a table of numbered files, the provider is the sum of
    the three files it was built from, and the full-map provider has no tile
    for a negative texture index. *)
Inductive SamplePixbuf : Type :=
| sample_icon (terrain : DungeonStateController.PixbufProviderTerrainType)
              (floor : DungeonStateController.PixbufProviderFloorType)
              (monster : DungeonStateController.PixbufProviderMonsterType)
| sample_tile (provider texture_index : Z).

Definition sample_toolkit : DungeonRefresh.Toolkit :=
  {| DungeonRefresh.Pixbuf := SamplePixbuf;
     DungeonRefresh.DungeonBinPack := gmap string Z;
     DungeonRefresh.DungeonBinFile := Z;
     DungeonRefresh.BinPack := unit;
     DungeonRefresh.Md := unit;
     DungeonRefresh.Image := Z;
     DungeonRefresh.FullMapPixbufProvider := Z;
     DungeonRefresh.DungeonBinPack_get := fun dungeon_bin name =>
       match dungeon_bin !! name with
       | Some file => Ok file
       | None => Raise KeyError
       end;
     DungeonRefresh.chunks_to_pil := fun dpc dpci dpl => Ok (dpc + dpci + dpl);
     DungeonRefresh.FullMapPixbufProvider_new := fun image _ _ => Ok image;
     DungeonRefresh.SmallMapPixbufProvider_get := fun terrain floor monster =>
       Ok (sample_icon terrain floor monster);
     DungeonRefresh.FullMapPixbufProvider_get :=
       fun provider texture_index _ _ _ _ =>
         if texture_index <? 0 then Raise KeyError
         else Ok (sample_tile provider texture_index) |}.

Definition dungeon_rom : DungeonRefresh.Pmd2Data :=
  DungeonRefresh.mkPmd2Data
    {[ "arm9.bin"%string :=
         DungeonRefresh.mkBinary {[ "DungeonCurrentId"%string := 0x22AB0 ]}
                                 {[ "DungeonData"%string := 0x2353538 ]} ]}.

(** A ROM configuration without the block of the current dungeon id. *)
Definition dungeon_rom_no_block : DungeonRefresh.Pmd2Data :=
  DungeonRefresh.mkPmd2Data
    {[ "arm9.bin"%string :=
         DungeonRefresh.mkBinary ∅ {[ "DungeonData"%string := 0x2353538 ]} ]}.

Definition dungeon_context : @DungeonRefresh.ControlContext sample_toolkit :=
  @DungeonRefresh.mkContext sample_toolkit
    (Ok {[ "dungeon1.dpc"%string := 1; "dungeon1.dpci"%string := 2;
           "dungeon1.dpl"%string := 4 ]})
    (Ok tt) (Ok tt).

(** The assets of another ROM, and a context whose dungeon archive lacks the
    palette file. *)
Definition other_context : @DungeonRefresh.ControlContext sample_toolkit :=
  @DungeonRefresh.mkContext sample_toolkit
    (Ok {[ "dungeon1.dpc"%string := 10; "dungeon1.dpci"%string := 20;
           "dungeon1.dpl"%string := 40 ]})
    (Ok tt) (Ok tt).

Definition broken_context : @DungeonRefresh.ControlContext sample_toolkit :=
  @DungeonRefresh.mkContext sample_toolkit
    (Ok {[ "dungeon1.dpc"%string := 1; "dungeon1.dpci"%string := 2 ]})
    (Ok tt) (Ok tt).

(** The dungeon controller after construction, and after [enable] on the
    sample ROM. *)
Definition dungeon_fresh : @DungeonRefresh.World sample_toolkit :=
  @DungeonRefresh.__init__ sample_toolkit.

Definition dungeon_enabled : @DungeonRefresh.World sample_toolkit :=
  snd (@DungeonRefresh.enable sample_toolkit dungeon_rom dungeon_context dungeon_fresh).

(** The sample floor as the dungeon state reader finds it, and the same floor
    with a texture the full-map provider has no tile for at [(1, 0)]. *)
Definition sample_snapshot : DungeonRefresh.Snapshot :=
  DungeonRefresh.mkSnapshot true (Ok sample_map).

Definition torn_map (x y : nat) : DungeonStateController.DungeonField :=
  match x, y with
  | 1%nat, 0%nat =>
      DungeonStateController.mkField 1 false true true false None
        DungeonStateController.STAIR_NONE None (-1)
  | _, _ => sample_map x y
  end.

Definition torn_snapshot : DungeonRefresh.Snapshot :=
  DungeonRefresh.mkSnapshot true (Ok torn_map).

(** The dungeon controller enabled with an archive that lacks the palette
    file. *)
Definition dungeon_broken : @DungeonRefresh.World sample_toolkit :=
  snd (@DungeonRefresh.enable sample_toolkit dungeon_rom broken_context dungeon_fresh).

(** A floor with things lying on it: at [(0, 0)] an item on a stairs tile,
    at [(1, 0)] a wonder tile (trap id 17), at [(0, 1)] another trap, at
    [(1, 1)] bare stairs. *)
Definition littered_map (x y : nat) : DungeonStateController.DungeonField :=
  let field := fun entity stairs =>
    DungeonStateController.mkField 0 false false false false entity stairs None 0 in
  match x, y with
  | 0%nat, 0%nat =>
      field (Some (DungeonStateController.mkFloorEntity
                     DungeonStateController.ENTITY_ITEM 0))
            (DungeonStateController.STAIR_OTHER 1)
  | 1%nat, 0%nat =>
      field (Some (DungeonStateController.mkFloorEntity
                     DungeonStateController.ENTITY_OTHER 17))
            DungeonStateController.STAIR_NONE
  | 0%nat, 1%nat =>
      field (Some (DungeonStateController.mkFloorEntity
                     DungeonStateController.ENTITY_OTHER 4))
            DungeonStateController.STAIR_NONE
  | _, _ => field None (DungeonStateController.STAIR_OTHER 1)
  end.

(** A ROM configuration whose arm9 binary lacks [DebugPrint2]: [enable]
    raises on it after it has installed the breaking-point hook and the
    first printf hook, and before it attaches a ground engine state. *)
Definition sample_rom_no_debugprint2 : Pmd2Data :=
  mkPmd2Data
    {[ "arm9.bin"%string := mkBinary {[ "DebugPrint"%string := 0x2000 ]};
       "overlay/overlay_0011.bin"%string :=
         mkBinary {[ "FuncThatCallsCommandParsing"%string := 0x3000;
                     "ScriptCommandParsing"%string := 0x4000 ]} ]}
    {[ 5 := mkOpCode "Wait" 2; 7 := mkOpCode "Switch" (-1) ]}.

(** A fresh controller after that failed [enable], without a breakpoint
    manager. *)
Definition half_enabled_world : World :=
  snd (enable sample_rom_no_debugprint2 None sample_ges fresh_world).

(** A fresh controller after [log_debug_print(True)], [enable] on the sample
    ROM, [enable] on the ROM loaded at other addresses and [disable]: the
    hooks of the first ROM are still installed and no ground engine state is
    attached. *)
Definition stale_hook_world : World :=
  snd (disable
         (snd (enable sample_rom_eu None sample_ges
                 (snd (enable sample_rom None sample_ges
                         (snd (log_debug_print true fresh_world))))))).

End Samples.

(** ** Theorems: ground state *)

Module GroundStateFacts.
Import GroundState.

Lemma land_255_range (pos : Z) : 0 <= Z.land pos 255 < 256.
Proof.
  split.
  - apply Z.land_nonneg. right. lia.
  - change 255 with (Z.ones 8). rewrite Z.land_ones by lia.
    apply Z.mod_pos_bound. lia.
Qed.

(** On the 256 possible sub-pixel values, the int/int true division of the
    source and the int/float division of the formula round to the same
    double. *)
Lemma subpixel_division_agrees (k : nat) :
  (k < 256)%nat ->
  PyFloat.int_truediv (Z.of_nat k) 255 =
  (num <-! PyFloat.of_int (Z.of_nat k) ;; PyFloat.div num PyFloat.lit_255).
Proof.
  intros Hk.
  do 256 (destruct k as [|k]; [vm_compute; reflexivity|]).
  lia.
Qed.

(** C9. For every pair of integers [pos] and [cameraPos], the source
    function [pos_for_display_camera] returns exactly what the formula
    [((pos >> 8) - cameraPos) + (pos & 0xFF) / 255.0] evaluates to in
    Python (binary64 arithmetic, including the overflow error for operands
    too large for a float); at [pos = 0x0305], [cameraPos = 1] this is the
    double [4547752564893736 * 2^-51], i.e. [2 + 5/255] rounded, which lies
    within [2^-51] of the rational [2 + 5/255]. *)
Theorem pos_for_display_camera_formula :
  (forall pos cameraPos : Z,
      pos_for_display_camera pos cameraPos = posForDisplayCamera_spec pos cameraPos)
  /\ pos_for_display_camera 0x0305 1 = Ok (S754_finite false 4547752564893736 (-51))
  /\ (exists q, PyFloat.to_Q (S754_finite false 4547752564893736 (-51)) = Some q
                /\ (q - (2 + (5 # 255)) <= 1 # (2 ^ 51))%Q
                /\ ((2 + (5 # 255)) - q <= 1 # (2 ^ 51))%Q).
Proof.
  split; [|split].
  - intros pos cameraPos.
    unfold pos_for_display_camera, posForDisplayCamera_spec.
    pose proof (land_255_range pos) as Hr.
    rewrite <- (Z2Nat.id (Z.land pos 255)) by lia.
    rewrite subpixel_division_agrees by lia.
    destruct (PyFloat.of_int (Z.of_nat (Z.to_nat (Z.land pos 255)))) as [num|e];
      [|reflexivity].
    cbn [rbind].
    destruct (PyFloat.div num PyFloat.lit_255); reflexivity.
  - vm_compute. reflexivity.
  - eexists. split; [reflexivity|].
    split; vm_compute; intros H; discriminate H.
Qed.

End GroundStateFacts.

(** ** Theorems: dungeon map classification *)

Module DungeonFacts.
Import DungeonStateController.
Import Samples.

Lemma nth_error_rows {A : Type} (g : nat -> nat -> A) (W : nat) :
  forall (H s x y : nat),
    (x < W)%nat -> (y < H)%nat ->
    nth_error (flat_map (fun y' => List.map (g y') (seq 0 W)) (seq s H)) (y * W + x)
    = Some (g (s + y)%nat x).
Proof.
  induction H as [|H IH]; intros s x y Hx Hy; [lia|].
  cbn [seq flat_map].
  destruct y as [|y].
  - rewrite nth_error_app1 by (rewrite length_map, length_seq; lia).
    cbn [Nat.mul Nat.add].
    rewrite nth_error_map, nth_error_seq.
    destruct (Nat.ltb_spec x W); [|lia].
    cbn. f_equal. f_equal. lia.
  - rewrite nth_error_app2 by (rewrite length_map, length_seq; lia).
    rewrite length_map, length_seq.
    replace (S y * W + x - W)%nat with (y * W + x)%nat by lia.
    rewrite IH by lia. f_equal. f_equal. lia.
Qed.

Lemma first_match_cons_true {A : Type} (a : A) (rules : list (bool * A)) (d : A) :
  first_match ((true, a) :: rules) d = a.
Proof. reflexivity. Qed.

Lemma first_match_cons_false {A : Type} (a : A) (rules : list (bool * A)) (d : A) :
  first_match ((false, a) :: rules) d = first_match rules d.
Proof. reflexivity. Qed.

Lemma terrain_type_of_spec (f : DungeonField) :
  terrain_type_of f = terrain_classification_spec f.
Proof.
  unfold terrain_type_of, terrain_classification_spec.
  destruct (is_impassable_wall f); [now rewrite first_match_cons_true|].
  rewrite first_match_cons_false.
  destruct (is_natural_junction f); [now rewrite first_match_cons_true|].
  rewrite first_match_cons_false.
  destruct (is_in_monster_house f); [now rewrite first_match_cons_true|].
  rewrite first_match_cons_false.
  destruct (is_in_kecleon_shop f); [now rewrite first_match_cons_true|].
  now rewrite first_match_cons_false.
Qed.

Lemma monster_type_of_spec (f : DungeonField) :
  monster_type_of f = monster_classification_spec f.
Proof.
  unfold monster_type_of, monster_classification_spec.
  destruct (monster_on_tile f) as [m|]; [|reflexivity].
  destruct (truthy (enemy_flag m)); [now rewrite first_match_cons_true|].
  rewrite first_match_cons_false.
  destruct (ally_flag m =? 1); [now rewrite first_match_cons_true|].
  rewrite first_match_cons_false.
  destruct (truthy (teamleader_flag m)); [now rewrite first_match_cons_true|].
  now rewrite first_match_cons_false.
Qed.

(** C7. In a refresh tick of a loaded controller with a valid dungeon state,
    the icon appended for the tile at [(x, y)] (position [y * MAP_WIDTH + x]
    of the small map model) carries the terrain classification given by the
    first match in the order impassable wall, natural junction, monster
    house, Kecleon shop, and the tile's base terrain type when no flag is
    set; a tile with the junction and monster-house flags (and no wall flag)
    is a junction. *)
Theorem terrain_classification_priority
    (MAP_WIDTH MAP_HEIGHT : nat) (wonder : Z) (map : nat -> nat -> DungeonField)
    (x y : nat) :
  (x < MAP_WIDTH)%nat -> (y < MAP_HEIGHT)%nat ->
  exists floor monster,
    nth_error (_update_maps MAP_WIDTH MAP_HEIGHT wonder true true map) (y * MAP_WIDTH + x)
    = Some (terrain_classification_spec (map x y), floor, monster)
    /\ terrain_classification_spec (map x y) =
       (if is_impassable_wall (map x y) then IMPASSABLE_WALL
        else if is_natural_junction (map x y) then JUNCTION
        else if is_in_monster_house (map x y) then MONSTER_HOUSE
        else if is_in_kecleon_shop (map x y) then KECLEON_SHOP
        else BASE_TERRAIN (terrain_type_value (map x y)))
    /\ (is_impassable_wall (map x y) = false ->
        is_natural_junction (map x y) = true ->
        is_in_monster_house (map x y) = true ->
        terrain_classification_spec (map x y) = JUNCTION).
Proof.
  intros Hx Hy.
  exists (floor_type_of wonder (map x y)), (monster_type_of (map x y)).
  split; [|split].
  - unfold _update_maps. cbn [andb].
    rewrite (nth_error_rows (fun y' x' => small_map_icon wonder (map x' y'))) by assumption.
    unfold small_map_icon. now rewrite terrain_type_of_spec.
  - now rewrite <- terrain_type_of_spec.
  - intros Hw Hj _. rewrite <- terrain_type_of_spec. unfold terrain_type_of.
    now rewrite Hw, Hj.
Qed.

Lemma terrain_classification_priority_witness :
  exists floor monster,
    nth_error (_update_maps 2 2 17 true true sample_map) 1
    = Some (terrain_classification_spec (sample_map 1 0), floor, monster)
    /\ terrain_classification_spec (sample_map 1 0) = JUNCTION.
Proof.
  destruct (terrain_classification_priority 2 2 17 sample_map 1 0
              ltac:(lia) ltac:(lia)) as (fl & mo & Hn & _ & Hj).
  exists fl, mo. split; [exact Hn|].
  apply Hj; reflexivity.
Defined.

(** C8. In a refresh tick of a loaded controller with a valid dungeon state,
    the icon appended for the tile at [(x, y)] carries the monster
    classification: none without a monster; else enemy if the enemy flag is
    set (whatever the team-leader flag), else ally-enemy if the ally flag
    equals 1, else team leader if the team-leader flag is set, else ally. *)
Theorem monster_classification_priority
    (MAP_WIDTH MAP_HEIGHT : nat) (wonder : Z) (map : nat -> nat -> DungeonField)
    (x y : nat) :
  (x < MAP_WIDTH)%nat -> (y < MAP_HEIGHT)%nat ->
  exists terrain floor,
    nth_error (_update_maps MAP_WIDTH MAP_HEIGHT wonder true true map) (y * MAP_WIDTH + x)
    = Some (terrain, floor, monster_classification_spec (map x y))
    /\ monster_classification_spec (map x y) =
       match monster_on_tile (map x y) with
       | None => MONSTER_NONE
       | Some m =>
           if negb (enemy_flag m =? 0) then ENEMY
           else if ally_flag m =? 1 then ALLY_ENEMY
           else if negb (teamleader_flag m =? 0) then TEAM_LEADER
           else ALLY
       end.
Proof.
  intros Hx Hy.
  exists (terrain_type_of (map x y)), (floor_type_of wonder (map x y)).
  split.
  - unfold _update_maps. cbn [andb].
    rewrite (nth_error_rows (fun y' x' => small_map_icon wonder (map x' y'))) by assumption.
    unfold small_map_icon. now rewrite monster_type_of_spec.
  - now rewrite <- monster_type_of_spec.
Qed.

Lemma monster_classification_priority_witness :
  (exists terrain floor,
      nth_error (_update_maps 2 2 17 true true sample_map) 1
      = Some (terrain, floor, ENEMY))
  /\ (exists terrain floor,
      nth_error (_update_maps 2 2 17 true true sample_map) 2
      = Some (terrain, floor, ALLY_ENEMY)).
Proof.
  split.
  - destruct (monster_classification_priority 2 2 17 sample_map 1 0
                ltac:(lia) ltac:(lia)) as (te & fl & Hn & _).
    exists te, fl. exact Hn.
  - destruct (monster_classification_priority 2 2 17 sample_map 0 1
                ltac:(lia) ltac:(lia)) as (te & fl & Hn & _).
    exists te, fl. exact Hn.
Defined.

End DungeonFacts.

(** ** Theorems: the debugger controller *)

Module DebuggerFacts.
Import Debugger.
Import Samples.

(** *** [_get_next_opcode_addr] *)

Lemma read_short_range (emu : EmulatorThread) (addr : Z) :
  0 <= read_short emu addr < 65536.
Proof.
  unfold read_short.
  pose proof (Z.mod_pos_bound (memory_bytes emu addr) 256 ltac:(lia)).
  pose proof (Z.mod_pos_bound (memory_bytes emu (addr + 1)) 256 ltac:(lia)).
  lia.
Qed.

(** What the function computes, for any opcode found in the table. *)
Lemma get_next_opcode_addr_eq (w : World) (rom : Pmd2Data) (op : Pmd2ScriptOpCode)
    (addr rel : Z) :
  rom_data (self w) = Some rom ->
  op_codes__by_id rom !! read_short (emu_thread w) addr = Some op ->
  _get_next_opcode_addr addr rel w =
  (Done (if params op =? -1
         then rel + (2 + (2 + read_short (emu_thread w) (addr + 2)))
         else rel + (2 + 2 * params op)), w).
Proof.
  intros Hrom Hop.
  unfold _get_next_opcode_addr, bind, get_self, get_emu, attr_of, dict_get, ret.
  rewrite Hrom. cbn. unfold ret. rewrite Hop.
  destruct (params op =? -1); reflexivity.
Qed.

(** C3 (as amended). For every call of [_get_next_opcode_addr] on an opcode
    of the table: with a declared parameter count [p <> -1] the result is
    [rel + 2 + 2 * p]; with a declared parameter count of [-1] it is
    [rel + 2 + 2 + runtimeLength], the unsigned 16-bit value read at
    [addr + 2] being added once. *)
Theorem get_next_opcode_addr_length (w : World) (rom : Pmd2Data)
    (op : Pmd2ScriptOpCode) (addr rel : Z) :
  rom_data (self w) = Some rom ->
  op_codes__by_id rom !! read_short (emu_thread w) addr = Some op ->
  let runtimeLength := read_short (emu_thread w) (addr + 2) in
  0 <= runtimeLength < 65536
  /\ (params op <> -1 ->
      _get_next_opcode_addr addr rel w = (Done (rel + 2 + 2 * params op), w))
  /\ (params op = -1 ->
      _get_next_opcode_addr addr rel w = (Done (rel + 2 + 2 + runtimeLength), w)).
Proof.
  intros Hrom Hop runtimeLength.
  split; [apply read_short_range|].
  rewrite (get_next_opcode_addr_eq w rom op addr rel Hrom Hop).
  split; intros Hp.
  - apply Z.eqb_neq in Hp. rewrite Hp. f_equal. f_equal. lia.
  - rewrite Hp. cbn [Z.eqb Pos.eqb]. f_equal. f_equal. subst runtimeLength. lia.
Qed.

Lemma get_next_opcode_addr_length_witness :
  _get_next_opcode_addr 0x1000 100 (sample_world None) = (Done 106, sample_world None)
  /\ _get_next_opcode_addr 0x1100 200 (sample_world None) = (Done 210, sample_world None).
Proof.
  split.
  - apply (get_next_opcode_addr_length (sample_world None) sample_rom
             (mkOpCode "Wait" 2) 0x1000 100); [reflexivity | reflexivity | ].
    cbn. lia.
  - apply (get_next_opcode_addr_length (sample_world None) sample_rom
             (mkOpCode "Switch" (-1)) 0x1100 200); reflexivity.
Defined.

(** C3 as the specification states it fails: on a variable-length opcode
    whose length field reads 6, at relative address 200, the code returns
    210 and not [200 + 2 + 2 + 2 * 6 = 216]. *)
Lemma get_next_opcode_addr_not_doubled :
  ~ (forall (w : World) (rom : Pmd2Data) (op : Pmd2ScriptOpCode) (addr rel : Z),
        rom_data (self w) = Some rom ->
        op_codes__by_id rom !! read_short (emu_thread w) addr = Some op ->
        params op = -1 ->
        fst (_get_next_opcode_addr addr rel w)
        = Done (rel + 2 + 2 + 2 * read_short (emu_thread w) (addr + 2))).
Proof.
  intros Hclaim.
  specialize (Hclaim (sample_world None) sample_rom (mkOpCode "Switch" (-1)) 0x1100 200
                eq_refl eq_refl eq_refl).
  vm_compute in Hclaim. discriminate Hclaim.
Qed.

(** C4. The two worked examples: a fixed-arity opcode with two declared
    parameters at relative address 100 gives 106; a variable-arity opcode at
    relative address 200 whose length field reads 6 gives 210. *)
Theorem get_next_opcode_addr_examples (w : World) (rom : Pmd2Data)
    (op : Pmd2ScriptOpCode) (addr : Z) :
  rom_data (self w) = Some rom ->
  op_codes__by_id rom !! read_short (emu_thread w) addr = Some op ->
  (params op = 2 -> _get_next_opcode_addr addr 100 w = (Done 106, w))
  /\ (params op = -1 -> read_short (emu_thread w) (addr + 2) = 6 ->
      _get_next_opcode_addr addr 200 w = (Done 210, w)).
Proof.
  intros Hrom Hop.
  rewrite !(get_next_opcode_addr_eq w rom op addr _ Hrom Hop).
  split.
  - intros ->. reflexivity.
  - intros -> ->. reflexivity.
Qed.

Lemma get_next_opcode_addr_examples_witness :
  _get_next_opcode_addr 0x1000 100 (sample_world None) = (Done 106, sample_world None)
  /\ _get_next_opcode_addr 0x1100 200 (sample_world None) = (Done 210, sample_world None).
Proof.
  split.
  - apply (get_next_opcode_addr_examples (sample_world None) sample_rom
             (mkOpCode "Wait" 2) 0x1000); reflexivity.
  - apply (get_next_opcode_addr_examples (sample_world None) sample_rom
             (mkOpCode "Switch" (-1)) 0x1100); reflexivity.
Defined.

(** *** The printf hooks *)

Section Printf.
Context `{External}.

(** What a printf hook does once an argument tuple is chosen. *)
Lemma hook__log_printfs_with_args (w : World) (o n : nat) (args : list NdsStrPnt) :
  _log_printfs (self w) = true ->
  PyStr.count_percent (printf_format (emu_thread w) o) = S n ->
  printf_args (emu_thread w) o (S n) = Some args ->
  hook__log_printfs o w =
  match str_percent (emu_thread w) (printf_format (emu_thread w) o) args with
  | Ok text => (Done tt, logged w [EvLockAcquire; EvPrint text; EvLockRelease])
  | Raise e => (Raised e, logged w [EvLockAcquire; EvLockRelease])
  end.
Proof.
  intros Hlog Hcount Hargs.
  unfold hook__log_printfs, synchronized, bind, get_self, get_emu, emit, logged.
  cbn. rewrite Hlog. cbn.
  rewrite Hcount, Hargs.
  destruct (str_percent _ _ args) as [text|e]; cbn.
  - now rewrite <- !app_assoc.
  - now rewrite <- !app_assoc.
Qed.

(** C5 (as amended). With printf logging enabled and any register offset: a
    format string with exactly 7 specifiers takes its arguments from
    registers [offset + 1 .. offset + 6] and then from the fixed register r8;
    one with exactly 8 specifiers takes them from registers
    [offset + 1 .. offset + 8], the last two being [offset + 7] and
    [offset + 8] (r7 and r8 only when the offset is 0). *)
Theorem printf_argument_registers (w : World) (o : nat) :
  _log_printfs (self w) = true ->
  let emu := emu_thread w in
  let fmt := printf_format emu o in
  let r := reg_pnt emu in
  (PyStr.count_percent fmt = 7%nat ->
   hook__log_printfs o w =
   match str_percent emu fmt
           [r (o + 1); r (o + 2); r (o + 3); r (o + 4); r (o + 5); r (o + 6); r 8]%nat with
   | Ok text => (Done tt, logged w [EvLockAcquire; EvPrint text; EvLockRelease])
   | Raise e => (Raised e, logged w [EvLockAcquire; EvLockRelease])
   end)
  /\ (PyStr.count_percent fmt = 8%nat ->
      hook__log_printfs o w =
      match str_percent emu fmt
              [r (o + 1); r (o + 2); r (o + 3); r (o + 4); r (o + 5); r (o + 6);
               r (o + 7); r (o + 8)]%nat with
      | Ok text => (Done tt, logged w [EvLockAcquire; EvPrint text; EvLockRelease])
      | Raise e => (Raised e, logged w [EvLockAcquire; EvLockRelease])
      end).
Proof.
  intros Hlog emu fmt r.
  split; intros Hcount.
  - apply (hook__log_printfs_with_args w o 6); [exact Hlog | exact Hcount | reflexivity].
  - apply (hook__log_printfs_with_args w o 7); [exact Hlog | exact Hcount | reflexivity].
Qed.

End Printf.

Lemma printf_argument_registers_witness :
  @hook__log_printfs (sample_external sample_srs) 0 printf_world =
  (Done tt, logged printf_world
     [EvLockAcquire;
      EvPrint "%x %x %x %x %x %x %x 101 102 103 104 105 106 108";
      EvLockRelease])
  /\ @hook__log_printfs (sample_external sample_srs) 1 printf_world =
     (Done tt, logged printf_world
        [EvLockAcquire;
         EvPrint "%x %x %x %x %x %x %x %x 102 103 104 105 106 107 108 109";
         EvLockRelease]).
Proof.
  pose proof (@printf_argument_registers (sample_external sample_srs)
                printf_world 0 eq_refl) as [H7 _].
  pose proof (@printf_argument_registers (sample_external sample_srs)
                printf_world 1 eq_refl) as [_ H8].
  split.
  - rewrite H7 by reflexivity. reflexivity.
  - rewrite H8 by reflexivity. reflexivity.
Defined.

(** C5 as the specification states it fails for 8 specifiers: the hook bound
    to register offset 1 takes its last two arguments from r8 and r9, not
    from the fixed registers r7 and r8. *)
Lemma printf_arity8_not_fixed_registers :
  ~ (forall (ext : External) (w : World) (o : nat),
        (o = 0 \/ o = 1)%nat ->
        _log_printfs (self w) = true ->
        PyStr.count_percent (printf_format (emu_thread w) o) = 8%nat ->
        let emu := emu_thread w in
        let r := reg_pnt emu in
        @hook__log_printfs ext o w =
        match @str_percent ext emu (printf_format emu o)
                [r (o + 1); r (o + 2); r (o + 3); r (o + 4); r (o + 5); r (o + 6);
                 r 7; r 8]%nat with
        | Ok text => (Done tt, logged w [EvLockAcquire; EvPrint text; EvLockRelease])
        | Raise e => (Raised e, logged w [EvLockAcquire; EvLockRelease])
        end).
Proof.
  intros Hclaim.
  specialize (Hclaim (sample_external sample_srs) printf_world 1%nat
                (or_intror eq_refl) eq_refl eq_refl).
  vm_compute in Hclaim. discriminate Hclaim.
Qed.

(** *** The debug-print opcode hook *)

Section DebugPrint.
Context `{External}.



End DebugPrint.


(** The hook of a ROM that was enabled before is still installed in
    [stale_hook_world], debug-print logging is on there and r6 holds
    [0x6D], but no ground engine state is attached. *)
Remark stale_hook_world_state :
  exec_hooks (emu_thread stale_hook_world) !! 0x7C40 = Some cb_hook__log_debug_print
  /\ _log_debug_print (self stale_hook_world) = true
  /\ register_arm9 (emu_thread stale_hook_world) 6 = 0x6D
  /\ ground_engine_state (self stale_hook_world) = None.
Proof. vm_compute. repeat split. Qed.


(** *** The breaking-point hook *)

Lemma logged_logged (w : World) (a b : list Event) :
  logged (logged w a) b = logged w (a ++ b).
Proof. unfold logged. cbn. now rewrite <- app_assoc. Qed.

Section BreakingPoint.
Context `{External}.

Lemma wait_loop_resolves (k : nat) (p : Poll) (rest : list Poll)
    (s : BreakpointStateType) (w : World) :
  resolution p = Some s ->
  wait_loop (replicate k (Unsignaled STOPPED) ++ p :: rest) w
  = (Done s, logged w (waiting_events k)).
Proof.
  intros Hp. revert w.
  induction k as [|k IH]; intros w.
  - cbn [replicate app wait_loop]. unfold bind, emit, waiting_events. cbn.
    destruct p as [final|seen]; cbn in Hp.
    + inversion Hp; subst. reflexivity.
    + destruct seen; inversion Hp; subst; reflexivity.
  - cbn [replicate app wait_loop]. unfold bind, emit. cbn.
    rewrite IH. unfold logged, waiting_events. cbn.
    rewrite <- !app_assoc. reflexivity.
Qed.

(** The wait loop does not end while the state is seen [STOPPED] and no
    signal arrives. *)
Lemma wait_loop_blocks (k : nat) (w : World) :
  fst (wait_loop (replicate k (Unsignaled STOPPED)) w) = Blocked.
Proof.
  revert w. induction k as [|k IH]; intros w; [reflexivity|].
  cbn [replicate wait_loop]. unfold bind, emit. cbn. apply IH.
Qed.



(** A break that the user resolves with STEP_OVER. *)
Lemma break_at_step_over (w : World) (bm : BreakpointManager)
    (srs : ScriptRuntimeStruct) (k : nat) (p : Poll) (rest : list Poll) :
  breakpoint_manager (self w) = Some bm ->
  resolution p = Some STEP_OVER ->
  exists w',
    break_at srs (replicate k (Unsignaled STOPPED) ++ p :: rest) w = (Done tt, w')
    /\ breakpoint_manager (self w')
       = Some (mkBm (bm_persistent bm) (step_over_temporaries srs))
    /\ _breakpoint_force (self w') = false
    /\ _breakpoints_disabled_for_tick (self w') = _breakpoints_disabled_for_tick (self w)
    /\ emu_thread w' = emu_thread w
    /\ trace w' = trace w ++ [EvBreakpointStateNew (hanger_ssb srs); EvStateAcquire;
                              EvBreakPulled (hanger_ssb srs) srs]
                  ++ waiting_events k ++ [EvStateRelease].
Proof.
  intros Hbm Hp.
  unfold break_at.
  unfold bind at 1. unfold with_breakpoint_manager at 1.
  unfold bind at 1. unfold get_self at 1. unfold bind at 1. rewrite Hbm.
  cbn [attr_of]. unfold ret at 1. unfold modify_self at 1.
  unfold bind at 1. unfold modify_self at 1.
  unfold bind at 1. unfold emit at 1.
  unfold bind at 1. unfold emit at 1.
  unfold bind at 1. unfold emit at 1.
  unfold bind at 1.
  rewrite (wait_loop_resolves k p rest STEP_OVER _ Hp).
  unfold bind, emit, with_breakpoint_manager, get_self, attr_of, modify_self, ret,
    logged, step_over_temporaries, add_temporary, reset_temporary.
  cbn.
  destruct (has_call_stack srs); cbn;
    (eexists; split; [reflexivity|]); cbn;
    repeat split; rewrite <- ?app_assoc; reflexivity.
Qed.

(** C2. When the hook fires with a breakpoint manager attached, breaks are
    enabled, a script is loaded in the hanger slot and the break is taken
    (forced, or matched by the manager), and the user resolves it with
    STEP_OVER after any number of timed-out waits, the hook returns and the
    manager's temporary breakpoints are exactly: one for the current script
    target (type and slot) restricted to the current unionall flag and to no
    address, followed, if and only if the runtime struct has a call stack, by
    one for the same target at the call stack's relative opcode address. *)
Theorem step_over_temporary_breakpoints (w : World) (ges : GroundEngineState)
    (bm : BreakpointManager) (ssb : SsbLoadedFile)
    (k : nat) (p : Poll) (rest : list Poll) :
  breakpoint_manager (self w) = Some bm ->
  ground_engine_state (self w) = Some ges ->
  _breakpoints_disabled (self w) = false ->
  _breakpoints_disabled_for_tick (self w) <> current_frame_id (emu_thread w) ->
  let emu := emu_thread w in
  let srs := ScriptRuntimeStruct_new arg_memory emu (rom_data (self w))
               (register_arm9 emu 6) (unionall_load_addr ges) in
  loaded_ssb_files ges !! hanger_ssb srs = Some (Some ssb) ->
  _breakpoint_force (self w)
  || BreakpointManager_has bm (file_name ssb) (current_opcode_addr_relative srs)
       (is_in_unionall srs) (script_target_type srs) (script_target_slot_id srs)
  = true ->
  resolution p = Some STEP_OVER ->
  exists w',
    hook__breaking_point (replicate k (Unsignaled STOPPED) ++ p :: rest) w = (Done tt, w')
    /\ breakpoint_manager (self w') =
       Some (mkBm (bm_persistent bm)
               (mkTemp (script_target_type srs) (script_target_slot_id srs)
                       (Some (is_in_unionall srs)) None
                :: (if has_call_stack srs
                    then [mkTemp (script_target_type srs) (script_target_slot_id srs)
                                 None
                                 (Some (call_stack__current_opcode_addr_relative srs))]
                    else []))).
Proof.
  intros Hbm Hges Hdis Htick emu srs Hssb Hhit Hp.
  subst emu.
  apply Z.eqb_neq in Htick.
  unfold hook__breaking_point.
  unfold bind at 1. unfold emit at 1.
  unfold bind at 1. unfold get_self at 1.
  unfold bind at 1. unfold get_emu at 1.
  unfold bind at 1. cbn [self emu_thread trace].
  rewrite Hges. cbn [attr_of]. unfold ret at 1.
  rewrite Hbm, Hdis, Htick. cbn [negb andb].
  fold srs.
  set (w0 := mkWorld (self w) (emu_thread w) (trace w ++ [EvLockAcquire])).
  assert (Hlogline : exists evs,
    (if _log_operations (self w) then print_callback (operation_line srs) else ret tt) w0
    = (Done tt, logged w0 evs)).
  { destruct (_log_operations (self w)).
    - exists [EvPrint (operation_line srs)]. reflexivity.
    - exists []. unfold ret, logged. cbn. now rewrite app_nil_r. }
  destruct Hlogline as (evs & Hline).
  unfold bind at 1. rewrite Hline.
  unfold bind at 1. unfold emit at 1.
  unfold bind at 1. unfold modify_self at 1.
  unfold bind at 1. unfold list_get at 1. rewrite Hssb. unfold ret at 1.
  rewrite Hhit.
  match goal with
  | |- exists w', break_at _ _ ?w1 = _ /\ _ =>
      destruct (break_at_step_over w1 bm srs k p rest Hbm Hp)
        as (w' & Hrun & Hbm' & _)
  end.
  exists w'. split; [exact Hrun | exact Hbm'].
Qed.

End BreakingPoint.


(** After the failed [enable], the breaking-point hook is installed in
    [half_enabled_world] although neither a breakpoint manager nor a ground
    engine state is attached. *)
Remark half_enabled_world_state :
  enable sample_rom_no_debugprint2 None sample_ges fresh_world
  = (Raised KeyError, half_enabled_world)
  /\ exec_hooks (emu_thread half_enabled_world) !! 0x3058 = Some cb_hook__breaking_point
  /\ breakpoint_manager (self half_enabled_world) = None
  /\ ground_engine_state (self half_enabled_world) = None.
Proof. vm_compute. repeat split. Qed.


Lemma step_over_temporary_breakpoints_witness :
  (exists w',
      @hook__breaking_point (sample_external sample_srs)
        [Unsignaled STOPPED; Unsignaled STOPPED; Signaled STEP_OVER]
        (sample_world (Some sample_bm)) = (Done tt, w')
      /\ breakpoint_manager (self w') =
         Some (mkBm [("SCRIPT/D01P11A/enter.ssb"%string, 100)]
                 [mkTemp 2 5 (Some true) None; mkTemp 2 5 None (Some 40)]))
  /\ (exists w',
      @hook__breaking_point (sample_external sample_srs_no_stack)
        [Unsignaled STEP_OVER] (sample_world (Some sample_bm)) = (Done tt, w')
      /\ breakpoint_manager (self w') =
         Some (mkBm [("SCRIPT/D01P11A/enter.ssb"%string, 100)]
                 [mkTemp 2 5 (Some true) None])).
Proof.
  split.
  - exact (@step_over_temporary_breakpoints (sample_external sample_srs)
             (sample_world (Some sample_bm)) sample_ges sample_bm
             (mkSsb "SCRIPT/D01P11A/enter.ssb") 2 (Signaled STEP_OVER) []
             eq_refl eq_refl eq_refl ltac:(discriminate) eq_refl eq_refl eq_refl).
  - exact (@step_over_temporary_breakpoints (sample_external sample_srs_no_stack)
             (sample_world (Some sample_bm)) sample_ges sample_bm
             (mkSsb "SCRIPT/D01P11A/enter.ssb") 0 (Unsignaled STEP_OVER) []
             eq_refl eq_refl eq_refl ltac:(discriminate) eq_refl eq_refl eq_refl).
Defined.

(** *** The [is_active] flag *)

Lemma keeps_ret {A : Type} (a : A) : keeps_inactive (ret a).
Proof. intros w Hw. exact Hw. Qed.

Lemma keeps_raise {A : Type} (e : PyExc) : keeps_inactive (@raise A e).
Proof. intros w Hw. exact Hw. Qed.

Lemma keeps_blocked {A : Type} : keeps_inactive (@blocked A).
Proof. intros w Hw. exact Hw. Qed.

Lemma keeps_get_self : keeps_inactive get_self.
Proof. intros w Hw. exact Hw. Qed.

Lemma keeps_get_emu : keeps_inactive get_emu.
Proof. intros w Hw. exact Hw. Qed.

Lemma keeps_emit (ev : Event) : keeps_inactive (emit ev).
Proof. intros w Hw. exact Hw. Qed.

Lemma keeps_modify_emu (f : EmulatorThread -> EmulatorThread) :
  keeps_inactive (modify_emu f).
Proof. intros w Hw. exact Hw. Qed.

Lemma keeps_modify_self (f : DebuggerController -> DebuggerController) :
  (forall c, is_active c = false -> is_active (f c) = false) ->
  keeps_inactive (modify_self f).
Proof. intros Hf w Hw. cbn. apply Hf, Hw. Qed.

Lemma keeps_bind {A B : Type} (m : M A) (k : A -> M B) :
  keeps_inactive m -> (forall a, keeps_inactive (k a)) -> keeps_inactive (bind m k).
Proof.
  intros Hm Hk w Hw. unfold bind.
  specialize (Hm w Hw).
  destruct (m w) as [[a|e|] w1]; cbn in *; [apply Hk|..]; exact Hm.
Qed.

Lemma keeps_synchronized {A : Type} (body : M A) :
  keeps_inactive body -> keeps_inactive (synchronized body).
Proof.
  intros Hb w Hw. unfold synchronized, emit. cbn.
  specialize (Hb (mkWorld (self w) (emu_thread w) (trace w ++ [EvLockAcquire])) Hw).
  destruct (body _) as [o w2]. exact Hb.
Qed.

Lemma keeps_attr_of {A : Type} (o : option A) : keeps_inactive (attr_of o).
Proof. destruct o; intros w Hw; exact Hw. Qed.

Lemma keeps_dict_get {K A : Type} `{Countable K} (d : gmap K A) (k : K) :
  keeps_inactive (dict_get d k).
Proof. unfold dict_get. destruct (d !! k); intros w Hw; exact Hw. Qed.

Lemma keeps_list_get {A : Type} (l : list A) (i : nat) : keeps_inactive (list_get l i).
Proof. unfold list_get. destruct (l !! i); intros w Hw; exact Hw. Qed.

Lemma keeps_lift {A : Type} (r : result A) : keeps_inactive (lift r).
Proof. destruct r; intros w Hw; exact Hw. Qed.

Ltac keeps_step :=
  first
    [ apply keeps_bind; [|intros ?]
    | apply keeps_synchronized
    | apply keeps_ret | apply keeps_raise | apply keeps_blocked
    | apply keeps_get_self | apply keeps_get_emu | apply keeps_emit
    | apply keeps_modify_emu | apply keeps_attr_of | apply keeps_dict_get
    | apply keeps_list_get | apply keeps_lift
    | apply keeps_modify_self;
      let c := fresh "c" in let Hc := fresh "Hc" in
      intros c Hc; try destruct (ground_engine_state c); solve [exact Hc | reflexivity]
    | match goal with
      | |- keeps_inactive (if ?b then _ else _) => destruct b
      | |- keeps_inactive (match ?x with _ => _ end) => destruct x
      end ].

Ltac keeps := repeat keeps_step.

Section IsActive.
Context `{External}.

Lemma keeps_with_breakpoint_manager (f : BreakpointManager -> BreakpointManager) :
  keeps_inactive (with_breakpoint_manager f).
Proof. unfold with_breakpoint_manager. keeps. Qed.

Lemma keeps_wait_loop (polls : list Poll) : keeps_inactive (wait_loop polls).
Proof.
  induction polls as [|p rest IH]; cbn [wait_loop]; [apply keeps_blocked|].
  apply keeps_bind; [apply keeps_emit|intros _].
  destruct p as [final|seen]; [apply keeps_ret|].
  destruct seen; try apply keeps_ret.
  apply keeps_bind; [apply keeps_emit|intros _; exact IH].
Qed.

Lemma keeps_break_at (srs : ScriptRuntimeStruct) (polls : list Poll) :
  keeps_inactive (break_at srs polls).
Proof.
  unfold break_at.
  repeat (apply keeps_bind;
          [first [apply keeps_with_breakpoint_manager | apply keeps_wait_loop | keeps]
          |intros ?]).
  destruct a; repeat first [apply keeps_with_breakpoint_manager | keeps_step].
Qed.

Lemma keeps_enable (rom : Pmd2Data) (bm : option BreakpointManager)
    (new_ges : GroundEngineState) :
  keeps_inactive (enable rom bm new_ges).
Proof. unfold enable, register_exec. keeps. Qed.

Lemma keeps_disable : keeps_inactive disable.
Proof. unfold disable, register_exec. keeps. Qed.

Lemma keeps_hook__breaking_point (polls : list Poll) :
  keeps_inactive (hook__breaking_point polls).
Proof.
  unfold hook__breaking_point, print_callback.
  repeat first [apply keeps_break_at | keeps_step].
Qed.

Lemma keeps_hook__log_printfs (o : nat) : keeps_inactive (hook__log_printfs o).
Proof. unfold hook__log_printfs, print_callback. keeps. Qed.

Lemma keeps_hook__log_debug_print : keeps_inactive hook__log_debug_print.
Proof.
  unfold hook__log_debug_print, print_callback.
  repeat first
    [ keeps_step
    | match goal with
      | |- keeps_inactive (let '(_, _) := ?x in _) => destruct x
      end ].
Qed.

Lemma keeps_run_op (op : Op) : keeps_inactive (run_op op).
Proof.
  destruct op; cbn [run_op].
  - apply keeps_enable.
  - apply keeps_disable.
  - unfold breakpoints_disabled_set. keeps.
  - unfold register_exec. keeps.
  - unfold log_operations. keeps.
  - unfold log_debug_print. keeps.
  - unfold log_printfs. keeps.
  - unfold log_ground_engine_state. keeps.
  - unfold debug_mode. keeps.
  - apply keeps_hook__breaking_point.
  - apply keeps_hook__log_printfs.
  - apply keeps_hook__log_debug_print.
  - unfold hook__debug_mode. keeps.
  - unfold print_callback. keeps.
  - unfold _get_next_opcode_addr. keeps.
Qed.

(** C10. [is_active] is [False] in every state a controller can reach: the
    constructor sets it to [False], a [disable()] that returns leaves it
    [False], an [enable()] leaves it as it was, and no call of any method
    turns it from [False] to [True]. *)
Theorem is_active_always_false :
  is_active __init__ = false
  /\ (forall w w', disable w = (Done tt, w') -> is_active (self w') = false)
  /\ (forall rom bm new_ges w,
         is_active (self (snd (enable rom bm new_ges w))) = is_active (self w))
  /\ (forall op w, is_active (self w) = false ->
                   is_active (self (snd (run_op op w))) = false)
  /\ (forall w, reachable w -> is_active (self w) = false).
Proof.
  split; [reflexivity|]. split; [|split; [|split]].
  - intros w w'. unfold disable, bind, get_self, attr_of, dict_get, register_exec,
      modify_emu, modify_self, emit, ret, raise.
    cbn.
    repeat match goal with
           | |- context [match ?x with _ => _ end] =>
               match x with
               | context [match _ with _ => _ end] => fail 1
               | _ => destruct x
               end
           end; cbn; intros Heq; inversion Heq; subst; reflexivity.
  - intros rom bm new_ges w.
    unfold enable, bind, get_self, attr_of, dict_get, register_exec,
      modify_emu, modify_self, emit, ret, raise.
    cbn.
    repeat match goal with
           | |- context [match ?x with _ => _ end] =>
               match x with
               | context [match _ with _ => _ end] => fail 1
               | _ => destruct x
               end
           end; reflexivity.
  - intros op. apply keeps_run_op.
  - intros w Hw. induction Hw as [emu|w op Hw IH|w emu' Hw IH|w ges' Hw IH Hsome].
    + reflexivity.
    + apply keeps_run_op, IH.
    + exact IH.
    + exact IH.
Qed.

End IsActive.

Lemma is_active_always_false_witness :
  fst (@run_op (sample_external sample_srs)
         (op_enable sample_rom (Some sample_bm) sample_ges) fresh_world) = Done tt
  /\ exec_hooks (emu_thread enabled_world) !! (0x3000 + 0x58) = Some cb_hook__breaking_point
  /\ is_active (self enabled_world) = false
  /\ fst (@run_op (sample_external sample_srs) op_disable enabled_world) = Done tt
  /\ exec_hooks (emu_thread disabled_world) = ∅
  /\ is_active (self disabled_world) = false.
Proof.
  destruct (@is_active_always_false (sample_external sample_srs))
    as (_ & _ & _ & _ & Hreach).
  split; [vm_compute; reflexivity|].
  split; [vm_compute; reflexivity|].
  split; [apply Hreach; unfold enabled_world; apply reach_call, reach_init|].
  split; [vm_compute; reflexivity|].
  split; [vm_compute; reflexivity|].
  apply Hreach. unfold disabled_world, enabled_world.
  apply reach_call, reach_call, reach_init.
Defined.

End DebuggerFacts.

(** ** Theorems: enabling and disabling the debugger *)

Module LifecycleFacts.
Import Debugger.
Import Samples.

Lemma hook_points_inv (rom : Pmd2Data) (pts : list (Z * Hook)) :
  hook_points rom = Some pts ->
  exists arm9 ov11 a1 a2 a3 a4,
    binaries rom !! "arm9.bin"%string = Some arm9
    /\ binaries rom !! "overlay/overlay_0011.bin"%string = Some ov11
    /\ functions ov11 !! "FuncThatCallsCommandParsing"%string = Some a1
    /\ functions arm9 !! "DebugPrint"%string = Some a2
    /\ functions arm9 !! "DebugPrint2"%string = Some a3
    /\ functions ov11 !! "ScriptCommandParsing"%string = Some a4
    /\ pts = [(a1 + 0x58, cb_hook__breaking_point);
              (a2, cb_hook__log_printfs 1);
              (a3, cb_hook__log_printfs 0);
              (a4 + 0x3C40, cb_hook__log_debug_print);
              (a4 + 0x15C8, cb_hook__debug_mode)].
Proof.
  unfold hook_points. intros Hp.
  destruct (binaries rom !! "arm9.bin"%string) as [arm9|] eqn:E1; [|discriminate].
  destruct (binaries rom !! "overlay/overlay_0011.bin"%string) as [ov11|] eqn:E2;
    [|discriminate].
  cbn in Hp.
  destruct (functions ov11 !! "FuncThatCallsCommandParsing"%string) as [a1|] eqn:E3;
    [|discriminate].
  cbn in Hp.
  destruct (functions arm9 !! "DebugPrint"%string) as [a2|] eqn:E4; [|discriminate].
  cbn in Hp.
  destruct (functions arm9 !! "DebugPrint2"%string) as [a3|] eqn:E5; [|discriminate].
  cbn in Hp.
  destruct (functions ov11 !! "ScriptCommandParsing"%string) as [a4|] eqn:E6;
    [|discriminate].
  cbn in Hp. inversion Hp; subst.
  exists arm9, ov11, a1, a2, a3, a4. repeat split; assumption.
Qed.

Lemma install_lookup_notin (pts : list (Z * Hook)) (m : gmap Z Hook) (a : Z) :
  ~ In a (List.map fst pts) -> install pts m !! a = m !! a.
Proof.
  revert m. induction pts as [|[a0 h0] rest IH]; intros m Hn; [reflexivity|].
  cbn in *. unfold install in *. cbn.
  rewrite IH by tauto. apply lookup_insert_ne. intros ->. tauto.
Qed.

Lemma install_lookup_in (pts : list (Z * Hook)) (m : gmap Z Hook) (a : Z) (h : Hook) :
  List.NoDup (List.map fst pts) -> In (a, h) pts -> install pts m !! a = Some h.
Proof.
  revert m. induction pts as [|[a0 h0] rest IH]; intros m Hnd Hin; [destruct Hin|].
  cbn in Hnd. inversion Hnd as [|? ? Hnotin Hnd']; subst.
  destruct Hin as [Heq|Hin].
  - inversion Heq; subst. unfold install. cbn.
    fold (install rest (<[a:=h]> m)).
    rewrite install_lookup_notin by assumption. apply lookup_insert_eq.
  - unfold install. cbn. fold (install rest (<[a0:=h0]> m)). now apply IH.
Qed.

Lemma uninstall_lookup_notin (pts : list (Z * Hook)) (m : gmap Z Hook) (a : Z) :
  ~ In a (List.map fst pts) -> uninstall pts m !! a = m !! a.
Proof.
  revert m. induction pts as [|[a0 h0] rest IH]; intros m Hn; [reflexivity|].
  cbn in *. unfold uninstall in *. cbn.
  rewrite IH by tauto. apply lookup_delete_ne. intros ->. tauto.
Qed.

Lemma uninstall_keeps_none (pts : list (Z * Hook)) (m : gmap Z Hook) (a : Z) :
  m !! a = None -> uninstall pts m !! a = None.
Proof.
  revert m. induction pts as [|[a0 h0] rest IH]; intros m Hm; [exact Hm|].
  unfold uninstall. cbn. fold (uninstall rest (delete a0 m)). apply IH.
  destruct (decide (a0 = a)) as [->|Hne].
  - apply lookup_delete_eq.
  - rewrite lookup_delete_ne by assumption. exact Hm.
Qed.

Lemma uninstall_lookup_in (pts : list (Z * Hook)) (m : gmap Z Hook) (a : Z) :
  In a (List.map fst pts) -> uninstall pts m !! a = None.
Proof.
  revert m. induction pts as [|[a0 h0] rest IH]; intros m Hin; [destruct Hin|].
  unfold uninstall. cbn. fold (uninstall rest (delete a0 m)).
  destruct (decide (a0 = a)) as [->|Hne].
  - apply uninstall_keeps_none, lookup_delete_eq.
  - apply IH. cbn in Hin. destruct Hin; [contradiction|assumption].
Qed.

(** Removing what was installed gives the table back when none of the
    addresses was hooked before. *)
Lemma uninstall_install (pts : list (Z * Hook)) (m : gmap Z Hook) :
  (forall a, In a (List.map fst pts) -> m !! a = None) ->
  uninstall pts (install pts m) = m.
Proof.
  intros Hfree. apply map_eq. intros k.
  destruct (in_dec Z.eq_dec k (List.map fst pts)) as [Hin|Hnotin].
  - rewrite uninstall_lookup_in by assumption. symmetry. now apply Hfree.
  - rewrite uninstall_lookup_notin, install_lookup_notin by assumption. reflexivity.
Qed.

Section Lifecycle.

(** What [enable] does on a ROM configuration that has every key. *)
Lemma enable_run (w : World) (rom : Pmd2Data) (bm : option BreakpointManager)
    (new_ges : GroundEngineState) (pts : list (Z * Hook)) :
  hook_points rom = Some pts ->
  enable rom bm new_ges w =
  (Done tt,
   mkWorld
     (set_ground_engine_state
        (Some (mkGes (_log_ground_engine_state (self w)) (unionall_load_addr new_ges)
                     (loaded_ssb_files new_ges)))
        (set_breakpoint_manager bm (set_rom_data (Some rom) (self w))))
     (with_exec_hooks (install pts (exec_hooks (emu_thread w))) (emu_thread w))
     (trace w ++ [EvWatch])).
Proof.
  intros Hp.
  destruct (hook_points_inv rom pts Hp)
    as (arm9 & ov11 & a1 & a2 & a3 & a4 & E1 & E2 & E3 & E4 & E5 & E6 & ->).
  unfold enable, bind, modify_self, modify_emu, register_exec, dict_get, emit, ret.
  cbn. rewrite E1. cbn. rewrite E2. cbn. rewrite E3. cbn. rewrite E4. cbn.
  rewrite E5. cbn. rewrite E6. cbn. reflexivity.
Qed.

(** What [disable] does on an enabled controller. *)
Lemma disable_run (w : World) (rom : Pmd2Data) (ges : GroundEngineState)
    (pts : list (Z * Hook)) :
  rom_data (self w) = Some rom ->
  hook_points rom = Some pts ->
  ground_engine_state (self w) = Some ges ->
  disable w =
  (Done tt,
   mkWorld
     (set_ground_engine_state None (set_rom_data None (set_is_active false (self w))))
     (with_exec_hooks (uninstall pts (exec_hooks (emu_thread w))) (emu_thread w))
     (trace w ++ [EvRemoveWatches])).
Proof.
  intros Hrom Hp Hges.
  destruct (hook_points_inv rom pts Hp)
    as (arm9 & ov11 & a1 & a2 & a3 & a4 & E1 & E2 & E3 & E4 & E5 & E6 & ->).
  unfold disable, bind, get_self, attr_of, modify_self, modify_emu, register_exec,
    dict_get, emit, ret.
  cbn. rewrite Hrom. cbn. rewrite E1. cbn. rewrite E2. cbn. rewrite E3. cbn.
  rewrite E4. cbn. rewrite E5. cbn. rewrite E6. cbn. rewrite Hges. cbn. reflexivity.
Qed.

End Lifecycle.

(** [enable] on a complete ROM configuration returns; it stores the ROM data
    and the breakpoint manager, attaches the new ground engine state with the
    controller's logging flag, and installs its five callbacks: when the five
    addresses differ, each address runs the callback registered for it, and
    no other address of the hook table changes. *)
Theorem enable_installs_hooks (w : World) (rom : Pmd2Data)
    (bm : option BreakpointManager) (new_ges : GroundEngineState)
    (pts : list (Z * Hook)) :
  hook_points rom = Some pts ->
  List.NoDup (List.map fst pts) ->
  exists w',
    enable rom bm new_ges w = (Done tt, w')
    /\ (forall a h, In (a, h) pts -> exec_hooks (emu_thread w') !! a = Some h)
    /\ (forall a, ~ In a (List.map fst pts) ->
                  exec_hooks (emu_thread w') !! a = exec_hooks (emu_thread w) !! a)
    /\ rom_data (self w') = Some rom
    /\ breakpoint_manager (self w') = bm
    /\ ground_engine_state (self w') =
       Some (mkGes (_log_ground_engine_state (self w)) (unionall_load_addr new_ges)
                   (loaded_ssb_files new_ges))
    /\ trace w' = trace w ++ [EvWatch].
Proof.
  intros Hp Hnd. eexists. split; [apply (enable_run w rom bm new_ges pts Hp)|].
  cbn. repeat split.
  - intros a h Hin. now apply install_lookup_in.
  - intros a Hn. now apply install_lookup_notin.
Qed.

Lemma sample_points_nodup : List.NoDup (List.map fst sample_points).
Proof.
  cbn. repeat constructor; cbn; intuition discriminate.
Defined.

Lemma enable_installs_hooks_witness :
  exists w',
    enable sample_rom (Some sample_bm) sample_ges fresh_world = (Done tt, w')
    /\ exec_hooks (emu_thread w') !! 0x3058 = Some cb_hook__breaking_point
    /\ exec_hooks (emu_thread w') !! 0x2000 = Some (cb_hook__log_printfs 1)
    /\ exec_hooks (emu_thread w') !! 0x2100 = Some (cb_hook__log_printfs 0)
    /\ exec_hooks (emu_thread w') !! 0x7C40 = Some cb_hook__log_debug_print
    /\ exec_hooks (emu_thread w') !! 0x55C8 = Some cb_hook__debug_mode
    /\ exec_hooks (emu_thread w') !! 0x1234 = None.
Proof.
  destruct (enable_installs_hooks fresh_world sample_rom (Some sample_bm) sample_ges
              sample_points eq_refl sample_points_nodup)
    as (w' & Hrun & Hin & Hout & _).
  exists w'. split; [exact Hrun|].
  repeat split; try (apply Hin; cbn; tauto).
  rewrite Hout; [reflexivity|]. cbn. intuition discriminate.
Defined.

(** [disable] on an enabled controller returns; none of the five addresses
    is hooked any more and no other address of the hook table changes; the ROM
    data and the ground engine state are dropped, [is_active] is [False], and
    the breakpoint manager stays attached. *)
Theorem disable_removes_hooks (w : World) (rom : Pmd2Data) (ges : GroundEngineState)
    (pts : list (Z * Hook)) :
  rom_data (self w) = Some rom ->
  hook_points rom = Some pts ->
  ground_engine_state (self w) = Some ges ->
  exists w',
    disable w = (Done tt, w')
    /\ (forall a, In a (List.map fst pts) -> exec_hooks (emu_thread w') !! a = None)
    /\ (forall a, ~ In a (List.map fst pts) ->
                  exec_hooks (emu_thread w') !! a = exec_hooks (emu_thread w) !! a)
    /\ rom_data (self w') = None
    /\ ground_engine_state (self w') = None
    /\ is_active (self w') = false
    /\ breakpoint_manager (self w') = breakpoint_manager (self w)
    /\ trace w' = trace w ++ [EvRemoveWatches].
Proof.
  intros Hrom Hp Hges. eexists. split; [apply (disable_run w rom ges pts Hrom Hp Hges)|].
  cbn. repeat split.
  - intros a Hin. now apply uninstall_lookup_in.
  - intros a Hn. now apply uninstall_lookup_notin.
Qed.

Lemma disable_removes_hooks_witness :
  exists w',
    disable enabled_world = (Done tt, w')
    /\ exec_hooks (emu_thread w') !! 0x3058 = None
    /\ breakpoint_manager (self w') = Some sample_bm
    /\ ground_engine_state (self w') = None.
Proof.
  destruct (disable_removes_hooks enabled_world sample_rom
              (mkGes false 0x8000 [Some (mkSsb "SCRIPT/D01P11A/enter.ssb")])
              sample_points eq_refl eq_refl eq_refl)
    as (w' & Hrun & Hin & _ & _ & Hges & _ & Hbm & _).
  exists w'. split; [exact Hrun|]. split; [apply Hin; cbn; tauto|].
  split; [rewrite Hbm; reflexivity | exact Hges].
Defined.

(** Enabling and then disabling gives the emulator its hook table back when
    none of the five addresses was hooked before, and leaves a controller
    without ROM data and ground engine state but with the breakpoint manager
    it was enabled with. *)
Theorem enable_then_disable (w : World) (rom : Pmd2Data)
    (bm : option BreakpointManager) (new_ges : GroundEngineState)
    (pts : list (Z * Hook)) :
  hook_points rom = Some pts ->
  (forall a, In a (List.map fst pts) -> exec_hooks (emu_thread w) !! a = None) ->
  exists w1 w2,
    enable rom bm new_ges w = (Done tt, w1)
    /\ disable w1 = (Done tt, w2)
    /\ emu_thread w2 = emu_thread w
    /\ rom_data (self w2) = None
    /\ ground_engine_state (self w2) = None
    /\ breakpoint_manager (self w2) = bm
    /\ trace w2 = trace w ++ [EvWatch; EvRemoveWatches].
Proof.
  intros Hp Hfree.
  eexists. eexists. split; [apply (enable_run w rom bm new_ges pts Hp)|].
  split; [eapply disable_run; [reflexivity | exact Hp | reflexivity]|].
  cbn. repeat split.
  - unfold with_exec_hooks. cbn. rewrite uninstall_install by assumption.
    destruct (emu_thread w); reflexivity.
  - now rewrite <- app_assoc.
Qed.

Lemma enable_then_disable_witness :
  exists w1 w2,
    enable sample_rom (Some sample_bm) sample_ges fresh_world = (Done tt, w1)
    /\ disable w1 = (Done tt, w2)
    /\ emu_thread w2 = sample_emu
    /\ breakpoint_manager (self w2) = Some sample_bm.
Proof.
  destruct (enable_then_disable fresh_world sample_rom (Some sample_bm) sample_ges
              sample_points eq_refl)
    as (w1 & w2 & H1 & H2 & Hemu & _ & _ & Hbm & _).
  - intros a _. reflexivity.
  - exists w1, w2. repeat split; assumption.
Defined.

(** A second [disable] in a row raises [AttributeError] (the ROM data is
    gone) and changes nothing. *)
Theorem disable_twice_raises (w : World) (rom : Pmd2Data) (ges : GroundEngineState)
    (pts : list (Z * Hook)) :
  rom_data (self w) = Some rom ->
  hook_points rom = Some pts ->
  ground_engine_state (self w) = Some ges ->
  exists w1,
    disable w = (Done tt, w1)
    /\ disable w1 = (Raised AttributeError, w1).
Proof.
  intros Hrom Hp Hges. eexists.
  split; [apply (disable_run w rom ges pts Hrom Hp Hges)|].
  reflexivity.
Qed.

Lemma disable_twice_raises_witness :
  exists w1,
    disable enabled_world = (Done tt, w1)
    /\ disable w1 = (Raised AttributeError, w1).
Proof.
  exact (disable_twice_raises enabled_world sample_rom
           (mkGes false 0x8000 [Some (mkSsb "SCRIPT/D01P11A/enter.ssb")])
           sample_points eq_refl eq_refl eq_refl).
Defined.

(** [enable] on a ROM configuration that lacks one of the binaries or
    functions raises [KeyError]. The ROM data and the breakpoint manager are
    stored all the same, but no ground engine state is attached or watched,
    and a [disable] called afterwards raises [KeyError] too. *)
Theorem enable_missing_key (w : World) (rom : Pmd2Data)
    (bm : option BreakpointManager) (new_ges : GroundEngineState) :
  hook_points rom = None ->
  exists w',
    enable rom bm new_ges w = (Raised KeyError, w')
    /\ rom_data (self w') = Some rom
    /\ breakpoint_manager (self w') = bm
    /\ ground_engine_state (self w') = ground_engine_state (self w)
    /\ trace w' = trace w
    /\ fst (disable w') = Raised KeyError.
Proof.
  intros Hp. unfold hook_points in Hp.
  unfold enable, disable, bind, get_self, attr_of, modify_self, modify_emu,
    register_exec, dict_get, emit, ret, raise.
  cbn.
  destruct (binaries rom !! "arm9.bin"%string) as [arm9|] eqn:E1; cbn in *;
    [|eexists; repeat split; cbn; rewrite ?E1; reflexivity].
  destruct (binaries rom !! "overlay/overlay_0011.bin"%string) as [ov11|] eqn:E2;
    cbn in *; [|eexists; repeat split; cbn; rewrite ?E1; cbn; rewrite ?E2; reflexivity].
  destruct (functions ov11 !! "FuncThatCallsCommandParsing"%string) as [a1|] eqn:E3;
    cbn in *;
    [|eexists; repeat split; cbn; rewrite ?E1; cbn; rewrite ?E2; cbn; rewrite ?E3;
      reflexivity].
  destruct (functions arm9 !! "DebugPrint"%string) as [a2|] eqn:E4; cbn in *;
    [|eexists; repeat split; cbn; rewrite ?E1; cbn; rewrite ?E2; cbn; rewrite ?E3;
      cbn; rewrite ?E4; reflexivity].
  destruct (functions arm9 !! "DebugPrint2"%string) as [a3|] eqn:E5; cbn in *;
    [|eexists; repeat split; cbn; rewrite ?E1; cbn; rewrite ?E2; cbn; rewrite ?E3;
      cbn; rewrite ?E4; cbn; rewrite ?E5; reflexivity].
  destruct (functions ov11 !! "ScriptCommandParsing"%string) as [a4|] eqn:E6; cbn in *;
    [discriminate|].
  eexists; repeat split; cbn; rewrite ?E1; cbn; rewrite ?E2; cbn; rewrite ?E3;
    cbn; rewrite ?E4; cbn; rewrite ?E5; cbn; rewrite ?E6; reflexivity.
Qed.

Lemma enable_missing_key_witness :
  exists w',
    enable sample_rom_no_overlay None sample_ges fresh_world = (Raised KeyError, w')
    /\ rom_data (self w') = Some sample_rom_no_overlay
    /\ ground_engine_state (self w') = None
    /\ fst (disable w') = Raised KeyError.
Proof.
  destruct (enable_missing_key fresh_world sample_rom_no_overlay None sample_ges eq_refl)
    as (w' & Hrun & Hrom & _ & Hges & _ & Hdis).
  exists w'. repeat split; assumption.
Defined.

(** [disable] removes the hooks of the ROM data the controller holds now:
    after enabling on one ROM, enabling again on another whose addresses
    differ, and disabling, the callbacks installed for the first ROM are
    still in the emulator's hook table while the controller has no ground
    engine state left. *)
Theorem reenable_leaves_hooks (w : World) (rom1 rom2 : Pmd2Data)
    (bm1 bm2 : option BreakpointManager) (ges1 ges2 : GroundEngineState)
    (pts1 pts2 : list (Z * Hook)) :
  hook_points rom1 = Some pts1 ->
  hook_points rom2 = Some pts2 ->
  List.NoDup (List.map fst pts1) ->
  exists w1 w2 w3,
    enable rom1 bm1 ges1 w = (Done tt, w1)
    /\ enable rom2 bm2 ges2 w1 = (Done tt, w2)
    /\ disable w2 = (Done tt, w3)
    /\ ground_engine_state (self w3) = None
    /\ (forall a h, In (a, h) pts1 -> ~ In a (List.map fst pts2) ->
                    exec_hooks (emu_thread w3) !! a = Some h).
Proof.
  intros Hp1 Hp2 Hnd.
  eexists. eexists. eexists.
  split; [apply (enable_run w rom1 bm1 ges1 pts1 Hp1)|].
  split; [apply (enable_run _ rom2 bm2 ges2 pts2 Hp2)|].
  split; [eapply disable_run; [reflexivity | exact Hp2 | reflexivity]|].
  cbn. split; [reflexivity|].
  intros a h Hin Hnotin.
  rewrite uninstall_lookup_notin, install_lookup_notin by assumption.
  now apply install_lookup_in.
Qed.

Lemma reenable_leaves_hooks_witness :
  exists w1 w2 w3,
    enable sample_rom None sample_ges fresh_world = (Done tt, w1)
    /\ enable sample_rom_eu None sample_ges w1 = (Done tt, w2)
    /\ disable w2 = (Done tt, w3)
    /\ ground_engine_state (self w3) = None
    /\ exec_hooks (emu_thread w3) !! 0x3058 = Some cb_hook__breaking_point.
Proof.
  destruct (reenable_leaves_hooks fresh_world sample_rom sample_rom_eu None None
              sample_ges sample_ges sample_points sample_points_eu
              eq_refl eq_refl sample_points_nodup)
    as (w1 & w2 & w3 & H1 & H2 & H3 & Hges & Hleft).
  exists w1, w2, w3. repeat split; try assumption.
  apply Hleft; cbn; [tauto | intuition discriminate].
Defined.

End LifecycleFacts.

(** ** Theorems: the breaking-point hook, case by case *)

Module BreakFacts.
Import Debugger.
Import Samples.

Section Break.
Context `{External}.

(** The hook on a controller with a ground engine state and a breakpoint
    manager, up to the point where the break is taken. *)
Lemma hook__breaking_point_cases (w : World) (ges : GroundEngineState)
    (bm : BreakpointManager) (polls : list Poll) :
  ground_engine_state (self w) = Some ges ->
  breakpoint_manager (self w) = Some bm ->
  let srs := ScriptRuntimeStruct_new arg_memory (emu_thread w) (rom_data (self w))
               (register_arm9 (emu_thread w) 6) (unionall_load_addr ges) in
  let w1 := mkWorld (set_breakpoints_disabled_for_tick (-1) (self w)) (emu_thread w)
              (trace w ++ hook_preamble (self w) srs ++ [EvLockRelease]) in
  hook__breaking_point polls w =
  if negb (_breakpoints_disabled (self w))
     && negb (_breakpoints_disabled_for_tick (self w) =? current_frame_id (emu_thread w))
  then
    match loaded_ssb_files ges !! hanger_ssb srs with
    | None => (Raised IndexError, w1)
    | Some None => (Done tt, w1)
    | Some (Some ssb) =>
        if _breakpoint_force (self w)
           || BreakpointManager_has bm (file_name ssb) (current_opcode_addr_relative srs)
                (is_in_unionall srs) (script_target_type srs) (script_target_slot_id srs)
        then break_at srs polls w1
        else (Done tt, w1)
    end
  else (Done tt, logged w (hook_preamble (self w) srs ++ [EvLockRelease])).
Proof.
  intros Hges Hbm srs w1.
  unfold hook__breaking_point.
  unfold bind at 1. unfold emit at 1.
  unfold bind at 1. unfold get_self at 1.
  unfold bind at 1. unfold get_emu at 1.
  unfold bind at 1. cbn [self emu_thread trace].
  rewrite Hges. cbn [attr_of]. unfold ret at 1.
  rewrite Hbm. fold srs.
  unfold bind at 1.
  assert (Hline :
    (if _log_operations (self w) then print_callback (operation_line srs) else ret tt)
      (mkWorld (self w) (emu_thread w) (trace w ++ [EvLockAcquire]))
    = (Done tt, mkWorld (self w) (emu_thread w) (trace w ++ hook_preamble (self w) srs))).
  { unfold hook_preamble. destruct (_log_operations (self w)).
    - unfold print_callback, emit. cbn. now rewrite <- app_assoc.
    - reflexivity. }
  rewrite Hline.
  destruct (negb (_breakpoints_disabled (self w))
            && negb (_breakpoints_disabled_for_tick (self w)
                     =? current_frame_id (emu_thread w))).
  - unfold bind at 1. unfold emit at 1.
    unfold bind at 1. unfold modify_self at 1.
    unfold bind at 1. unfold list_get at 1.
    cbn [self emu_thread trace].
    replace (mkWorld (set_breakpoints_disabled_for_tick (-1) (self w)) (emu_thread w)
               ((trace w ++ hook_preamble (self w) srs) ++ [EvLockRelease])) with w1
      by (unfold w1; now rewrite <- app_assoc).
    destruct (loaded_ssb_files ges !! hanger_ssb srs) as [[ssb|]|];
      unfold ret, raise; try reflexivity.
    destruct (_breakpoint_force (self w) || _); reflexivity.
  - unfold emit, logged. cbn. now rewrite <- app_assoc.
Qed.

(** A break that is answered: what is left in the controller. *)
Lemma break_at_resolved (w : World) (bm : BreakpointManager)
    (srs : ScriptRuntimeStruct) (k : nat) (p : Poll) (rest : list Poll)
    (s : BreakpointStateType) :
  breakpoint_manager (self w) = Some bm ->
  resolution p = Some s ->
  exists w',
    break_at srs (replicate k (Unsignaled STOPPED) ++ p :: rest) w = (Done tt, w')
    /\ breakpoint_manager (self w')
       = Some (mkBm (bm_persistent bm) (temporaries_after s srs))
    /\ _breakpoint_force (self w') = match s with STEP_NEXT => true | _ => false end
    /\ _breakpoints_disabled_for_tick (self w')
       = match s with
         | FAIL_HARD => current_frame_id (emu_thread w)
         | _ => _breakpoints_disabled_for_tick (self w)
         end
    /\ _breakpoints_disabled (self w') = _breakpoints_disabled (self w)
    /\ ground_engine_state (self w') = ground_engine_state (self w)
    /\ rom_data (self w') = rom_data (self w)
    /\ _log_operations (self w') = _log_operations (self w)
    /\ emu_thread w' = emu_thread w
    /\ trace w' = trace w ++ break_events srs k.
Proof.
  intros Hbm Hp.
  unfold break_at.
  unfold bind at 1. unfold with_breakpoint_manager at 1.
  unfold bind at 1. unfold get_self at 1. unfold bind at 1. rewrite Hbm.
  cbn [attr_of]. unfold ret at 1. unfold modify_self at 1.
  unfold bind at 1. unfold modify_self at 1.
  unfold bind at 1. unfold emit at 1.
  unfold bind at 1. unfold emit at 1.
  unfold bind at 1. unfold emit at 1.
  unfold bind at 1.
  rewrite (DebuggerFacts.wait_loop_resolves k p rest s _ Hp).
  unfold bind, emit, with_breakpoint_manager, get_self, get_emu, attr_of, modify_self,
    ret, logged, temporaries_after, step_over_temporaries, add_temporary,
    reset_temporary, break_events.
  cbn.
  destruct s; cbn; try destruct (has_call_stack srs); cbn;
    (eexists; split; [reflexivity|]); cbn;
    repeat split; rewrite <- ?app_assoc; reflexivity.
Qed.

Lemma wait_loop_stopped (k : nat) (w : World) :
  wait_loop (replicate k (Unsignaled STOPPED)) w
  = (Blocked, logged w (concat (replicate k [EvStateWait; EvRunOnePendingTask]))).
Proof.
  revert w. induction k as [|k IH]; intros w.
  - cbn. unfold blocked, logged. cbn. rewrite app_nil_r. destruct w; reflexivity.
  - cbn [replicate wait_loop]. unfold bind, emit. cbn.
    rewrite IH. unfold logged. cbn. now rewrite <- !app_assoc.
Qed.

(** A hit that is answered. With a breakpoint manager and a ground engine
    state attached, breaks enabled, a script loaded in the hanger slot and the
    break forced or matched, the hook returns as soon as a poll resolves the
    breakpoint state. The temporary breakpoints registered before the hit are
    gone and the manager holds exactly those of the answer: none for RESUME,
    FAIL_HARD, STEP_NEXT and a signal without a state change, one for any
    address of the script target for STEP_INTO, one at the call stack's
    address for STEP_OUT with a call stack and none without. The force flag is
    set for STEP_NEXT only and the tick marker is the current frame for
    FAIL_HARD only. *)
Theorem hit_resolution (w : World) (ges : GroundEngineState) (bm : BreakpointManager)
    (ssb : SsbLoadedFile) (k : nat) (p : Poll) (rest : list Poll)
    (s : BreakpointStateType) :
  ground_engine_state (self w) = Some ges ->
  breakpoint_manager (self w) = Some bm ->
  _breakpoints_disabled (self w) = false ->
  _breakpoints_disabled_for_tick (self w) <> current_frame_id (emu_thread w) ->
  let srs := ScriptRuntimeStruct_new arg_memory (emu_thread w) (rom_data (self w))
               (register_arm9 (emu_thread w) 6) (unionall_load_addr ges) in
  loaded_ssb_files ges !! hanger_ssb srs = Some (Some ssb) ->
  _breakpoint_force (self w)
  || BreakpointManager_has bm (file_name ssb) (current_opcode_addr_relative srs)
       (is_in_unionall srs) (script_target_type srs) (script_target_slot_id srs)
  = true ->
  resolution p = Some s ->
  exists w',
    hook__breaking_point (replicate k (Unsignaled STOPPED) ++ p :: rest) w = (Done tt, w')
    /\ breakpoint_manager (self w')
       = Some (mkBm (bm_persistent bm) (temporaries_after s srs))
    /\ _breakpoint_force (self w') = match s with STEP_NEXT => true | _ => false end
    /\ _breakpoints_disabled_for_tick (self w')
       = match s with FAIL_HARD => current_frame_id (emu_thread w) | _ => -1 end
    /\ emu_thread w' = emu_thread w
    /\ trace w' = trace w ++ hook_preamble (self w) srs ++ [EvLockRelease]
                  ++ break_events srs k.
Proof.
  intros Hges Hbm Hdis Htick srs Hssb Hhit Hp.
  apply Z.eqb_neq in Htick.
  rewrite (hook__breaking_point_cases w ges bm _ Hges Hbm).
  fold srs. rewrite Hdis, Htick, Hssb, Hhit. cbn [negb andb].
  match goal with
  | |- exists w', break_at _ _ ?w1 = _ /\ _ =>
      destruct (break_at_resolved w1 bm srs k p rest s Hbm Hp)
        as (w' & Hrun & Hbm' & Hforce & Htick' & _ & _ & _ & _ & Hemu & Htrace)
  end.
  exists w'. split; [exact Hrun|]. split; [exact Hbm'|]. split; [exact Hforce|].
  split; [|split].
  - rewrite Htick'. destruct s; reflexivity.
  - exact Hemu.
  - rewrite Htrace. cbn [trace]. now rewrite <- !app_assoc.
Qed.

(** On a controller with a ground engine state and a breakpoint manager
    attached, and with breaks disabled, for good or for the current frame,
    the hook returns at once: it prints the operation line if asked to, and
    neither the controller nor the breakpoint manager changes. *)
Theorem disabled_breaks_are_skipped (w : World) (ges : GroundEngineState)
    (bm : BreakpointManager) (polls : list Poll) :
  ground_engine_state (self w) = Some ges ->
  breakpoint_manager (self w) = Some bm ->
  _breakpoints_disabled (self w) = true
  \/ _breakpoints_disabled_for_tick (self w) = current_frame_id (emu_thread w) ->
  let srs := ScriptRuntimeStruct_new arg_memory (emu_thread w) (rom_data (self w))
               (register_arm9 (emu_thread w) 6) (unionall_load_addr ges) in
  hook__breaking_point polls w
  = (Done tt, logged w (hook_preamble (self w) srs ++ [EvLockRelease])).
Proof.
  intros Hges Hbm Hoff srs.
  rewrite (hook__breaking_point_cases w ges bm _ Hges Hbm). fold srs.
  destruct Hoff as [Hd|Ht].
  - rewrite Hd. reflexivity.
  - apply Z.eqb_eq in Ht. rewrite Ht. cbn [negb]. now rewrite andb_false_r.
Qed.

(** With breaks enabled but nothing to break at (no script loaded in the
    hanger slot, or no forced break and no matching breakpoint), the hook
    returns without a break; all it changes in the controller is the tick
    marker, reset to -1. A hanger slot beyond the loaded files raises
    [IndexError], after the lock has been released. *)
Theorem unmatched_hit_returns (w : World) (ges : GroundEngineState)
    (bm : BreakpointManager) (polls : list Poll) :
  ground_engine_state (self w) = Some ges ->
  breakpoint_manager (self w) = Some bm ->
  _breakpoints_disabled (self w) = false ->
  _breakpoints_disabled_for_tick (self w) <> current_frame_id (emu_thread w) ->
  let srs := ScriptRuntimeStruct_new arg_memory (emu_thread w) (rom_data (self w))
               (register_arm9 (emu_thread w) 6) (unionall_load_addr ges) in
  let w1 := mkWorld (set_breakpoints_disabled_for_tick (-1) (self w)) (emu_thread w)
              (trace w ++ hook_preamble (self w) srs ++ [EvLockRelease]) in
  (loaded_ssb_files ges !! hanger_ssb srs = Some None ->
   hook__breaking_point polls w = (Done tt, w1))
  /\ (forall ssb,
         loaded_ssb_files ges !! hanger_ssb srs = Some (Some ssb) ->
         _breakpoint_force (self w) = false ->
         BreakpointManager_has bm (file_name ssb) (current_opcode_addr_relative srs)
           (is_in_unionall srs) (script_target_type srs) (script_target_slot_id srs)
         = false ->
         hook__breaking_point polls w = (Done tt, w1))
  /\ (loaded_ssb_files ges !! hanger_ssb srs = None ->
      hook__breaking_point polls w = (Raised IndexError, w1)).
Proof.
  intros Hges Hbm Hdis Htick srs w1.
  apply Z.eqb_neq in Htick.
  rewrite (hook__breaking_point_cases w ges bm _ Hges Hbm). fold srs. fold w1.
  rewrite Hdis, Htick. cbn [negb andb].
  split; [|split].
  - intros ->. reflexivity.
  - intros ssb -> -> ->. reflexivity.
  - intros ->. reflexivity.
Qed.

(** A hit that is not answered. While every wait times out with the state
    still STOPPED, the hook does not return; the lock has been released
    before the break was announced, the old temporary breakpoints are gone,
    and each timed-out wait is followed by one pending task of the emulator
    thread. *)
Theorem unanswered_hit_blocks (w : World) (ges : GroundEngineState)
    (bm : BreakpointManager) (ssb : SsbLoadedFile) (k : nat) :
  ground_engine_state (self w) = Some ges ->
  breakpoint_manager (self w) = Some bm ->
  _breakpoints_disabled (self w) = false ->
  _breakpoints_disabled_for_tick (self w) <> current_frame_id (emu_thread w) ->
  let srs := ScriptRuntimeStruct_new arg_memory (emu_thread w) (rom_data (self w))
               (register_arm9 (emu_thread w) 6) (unionall_load_addr ges) in
  loaded_ssb_files ges !! hanger_ssb srs = Some (Some ssb) ->
  _breakpoint_force (self w)
  || BreakpointManager_has bm (file_name ssb) (current_opcode_addr_relative srs)
       (is_in_unionall srs) (script_target_type srs) (script_target_slot_id srs)
  = true ->
  exists w',
    hook__breaking_point (replicate k (Unsignaled STOPPED)) w = (Blocked, w')
    /\ breakpoint_manager (self w') = Some (mkBm (bm_persistent bm) [])
    /\ _breakpoint_force (self w') = false
    /\ trace w' = trace w ++ hook_preamble (self w) srs
                  ++ [EvLockRelease; EvBreakpointStateNew (hanger_ssb srs);
                      EvStateAcquire; EvBreakPulled (hanger_ssb srs) srs]
                  ++ concat (replicate k [EvStateWait; EvRunOnePendingTask]).
Proof.
  intros Hges Hbm Hdis Htick srs Hssb Hhit.
  apply Z.eqb_neq in Htick.
  rewrite (hook__breaking_point_cases w ges bm _ Hges Hbm).
  fold srs. rewrite Hdis, Htick, Hssb, Hhit. cbn [negb andb].
  unfold break_at.
  unfold bind at 1. unfold with_breakpoint_manager at 1.
  unfold bind at 1. unfold get_self at 1. unfold bind at 1.
  cbn [self emu_thread trace].
  replace (breakpoint_manager (set_breakpoints_disabled_for_tick (-1) (self w)))
    with (Some bm) by (symmetry; exact Hbm).
  cbn [attr_of]. unfold ret at 1. unfold modify_self at 1.
  unfold bind at 1. unfold modify_self at 1.
  unfold bind at 1. unfold emit at 1.
  unfold bind at 1. unfold emit at 1.
  unfold bind at 1. unfold emit at 1.
  unfold bind at 1.
  rewrite wait_loop_stopped.
  eexists. split; [reflexivity|].
  unfold logged, reset_temporary. cbn.
  repeat split.
  repeat (rewrite <- ?app_assoc; cbn [app]). reflexivity.
Qed.

(** FAIL_HARD mutes the hook for the rest of the frame: after a hit answered
    with FAIL_HARD, whatever the emulator does within the same frame, the
    next firing returns at once without a break, even on a matching
    breakpoint. *)
Theorem fail_hard_mutes_the_frame (w : World) (ges : GroundEngineState)
    (bm : BreakpointManager) (ssb : SsbLoadedFile) (k : nat) (p : Poll)
    (rest : list Poll) (emu' : EmulatorThread) (polls' : list Poll) :
  ground_engine_state (self w) = Some ges ->
  breakpoint_manager (self w) = Some bm ->
  _breakpoints_disabled (self w) = false ->
  _breakpoints_disabled_for_tick (self w) <> current_frame_id (emu_thread w) ->
  let srs := ScriptRuntimeStruct_new arg_memory (emu_thread w) (rom_data (self w))
               (register_arm9 (emu_thread w) 6) (unionall_load_addr ges) in
  loaded_ssb_files ges !! hanger_ssb srs = Some (Some ssb) ->
  _breakpoint_force (self w)
  || BreakpointManager_has bm (file_name ssb) (current_opcode_addr_relative srs)
       (is_in_unionall srs) (script_target_type srs) (script_target_slot_id srs)
  = true ->
  resolution p = Some FAIL_HARD ->
  current_frame_id emu' = current_frame_id (emu_thread w) ->
  exists w1,
    hook__breaking_point (replicate k (Unsignaled STOPPED) ++ p :: rest) w = (Done tt, w1)
    /\ let w1' := mkWorld (self w1) emu' (trace w1) in
       let srs' := ScriptRuntimeStruct_new arg_memory emu' (rom_data (self w1))
                     (register_arm9 emu' 6) (unionall_load_addr ges) in
       hook__breaking_point polls' w1'
       = (Done tt, logged w1' (hook_preamble (self w1) srs' ++ [EvLockRelease])).
Proof.
  intros Hges Hbm Hdis Htick srs Hssb Hhit Hp Hframe.
  apply Z.eqb_neq in Htick.
  rewrite (hook__breaking_point_cases w ges bm _ Hges Hbm).
  fold srs. rewrite Hdis, Htick, Hssb, Hhit. cbn [negb andb].
  match goal with
  | |- exists w1, break_at _ _ ?w0 = _ /\ _ =>
      destruct (break_at_resolved w0 bm srs k p rest FAIL_HARD Hbm Hp)
        as (w1 & Hrun & Hbm' & _ & Htick' & _ & Hges' & _ & _ & _ & _)
  end.
  exists w1. split; [exact Hrun|].
  cbn in Htick', Hges'.
  cbv zeta.
  set (w1' := mkWorld (self w1) emu' (trace w1)).
  assert (Hges1 : ground_engine_state (self w1') = Some ges)
    by (cbn; rewrite Hges'; exact Hges).
  rewrite (hook__breaking_point_cases w1' ges _ polls' Hges1 Hbm').
  unfold w1'. cbn [self emu_thread trace].
  rewrite Htick', Hframe, Z.eqb_refl. cbn [negb].
  rewrite andb_false_r. reflexivity.
Qed.

(** STEP_NEXT forces the next break: after a hit answered with STEP_NEXT,
    the next firing on a loaded script takes the break whether or not a
    breakpoint matches, and the force flag is used up unless that break is
    answered with STEP_NEXT again. *)
Theorem step_next_forces_next_break (w : World) (ges : GroundEngineState)
    (bm : BreakpointManager) (ssb : SsbLoadedFile) (k : nat) (p : Poll)
    (rest : list Poll) (emu' : EmulatorThread) (ssb' : SsbLoadedFile)
    (k' : nat) (p' : Poll) (rest' : list Poll) (s' : BreakpointStateType) :
  ground_engine_state (self w) = Some ges ->
  breakpoint_manager (self w) = Some bm ->
  _breakpoints_disabled (self w) = false ->
  _breakpoints_disabled_for_tick (self w) <> current_frame_id (emu_thread w) ->
  let srs := ScriptRuntimeStruct_new arg_memory (emu_thread w) (rom_data (self w))
               (register_arm9 (emu_thread w) 6) (unionall_load_addr ges) in
  loaded_ssb_files ges !! hanger_ssb srs = Some (Some ssb) ->
  _breakpoint_force (self w)
  || BreakpointManager_has bm (file_name ssb) (current_opcode_addr_relative srs)
       (is_in_unionall srs) (script_target_type srs) (script_target_slot_id srs)
  = true ->
  resolution p = Some STEP_NEXT ->
  current_frame_id emu' <> -1 ->
  let srs' := ScriptRuntimeStruct_new arg_memory emu' (rom_data (self w))
                (register_arm9 emu' 6) (unionall_load_addr ges) in
  loaded_ssb_files ges !! hanger_ssb srs' = Some (Some ssb') ->
  resolution p' = Some s' ->
  exists w1 w2,
    hook__breaking_point (replicate k (Unsignaled STOPPED) ++ p :: rest) w = (Done tt, w1)
    /\ hook__breaking_point (replicate k' (Unsignaled STOPPED) ++ p' :: rest')
         (mkWorld (self w1) emu' (trace w1)) = (Done tt, w2)
    /\ trace w2 = trace w1 ++ hook_preamble (self w1) srs' ++ [EvLockRelease]
                  ++ break_events srs' k'
    /\ _breakpoint_force (self w2) = match s' with STEP_NEXT => true | _ => false end.
Proof.
  intros Hges Hbm Hdis Htick srs Hssb Hhit Hp Hframe srs' Hssb' Hp'.
  apply Z.eqb_neq in Htick.
  rewrite (hook__breaking_point_cases w ges bm _ Hges Hbm).
  fold srs. rewrite Hdis, Htick, Hssb, Hhit. cbn [negb andb].
  match goal with
  | |- exists w1 w2, break_at _ _ ?w0 = _ /\ _ =>
      destruct (break_at_resolved w0 bm srs k p rest STEP_NEXT Hbm Hp)
        as (w1 & Hrun & Hbm' & Hforce & Htick' & Hdis' & Hges' & Hrom' & _ & _ & _)
  end.
  cbn in Htick', Hges', Hdis', Hrom'.
  set (w1' := mkWorld (self w1) emu' (trace w1)).
  assert (Hges1 : ground_engine_state (self w1') = Some ges)
    by (cbn; rewrite Hges'; exact Hges).
  pose proof (hook__breaking_point_cases w1' ges _
                (replicate k' (Unsignaled STOPPED) ++ p' :: rest') Hges1 Hbm') as Hcases.
  unfold w1' in Hcases. cbn [self emu_thread trace] in Hcases.
  rewrite Hrom' in Hcases. fold srs' in Hcases.
  rewrite Hdis', Hdis, Htick', Hforce, Hssb' in Hcases.
  assert (Hne : (-1 =? current_frame_id emu') = false) by (apply Z.eqb_neq; lia).
  rewrite Hne in Hcases. cbn [negb andb orb] in Hcases.
  match type of Hcases with
  | _ = break_at _ _ ?w0 =>
      destruct (break_at_resolved w0 _ srs' k' p' rest' s' Hbm' Hp')
        as (w2 & Hrun2 & _ & Hforce2 & _ & _ & _ & _ & Hlog2 & _ & Htrace2)
  end.
  exists w1, w2. split; [exact Hrun|].
  split; [rewrite Hcases; exact Hrun2|].
  split; [|exact Hforce2].
  rewrite Htrace2. cbn [trace]. now rewrite <- !app_assoc.
Qed.

(** How calls extend the trace. *)
Lemma emits_nothing {A : Type} (P : Event -> Prop) (m : M A) :
  (forall w, trace (snd (m w)) = trace w) -> emits_only P m.
Proof.
  intros Hm w. exists []. rewrite Hm, app_nil_r. split; [reflexivity|constructor].
Qed.

Lemma emits_emit (P : Event -> Prop) (ev : Event) : P ev -> emits_only P (emit ev).
Proof. intros Hev w. exists [ev]. split; [reflexivity|]. now repeat constructor. Qed.

Lemma emits_bind {A B : Type} (P : Event -> Prop) (m : M A) (k : A -> M B) :
  emits_only P m -> (forall a, emits_only P (k a)) -> emits_only P (bind m k).
Proof.
  intros Hm Hk w. unfold bind.
  destruct (Hm w) as (evs1 & Ht1 & Hf1).
  destruct (m w) as [[a|e|] w1]; cbn in *.
  - destruct (Hk a w1) as (evs2 & Ht2 & Hf2).
    exists (evs1 ++ evs2). rewrite Ht2, Ht1, <- app_assoc.
    split; [reflexivity|]. apply Forall_app; split; assumption.
  - exists evs1. split; assumption.
  - exists evs1. split; assumption.
Qed.

Lemma emits_with_breakpoint_manager (P : Event -> Prop)
    (f : BreakpointManager -> BreakpointManager) :
  emits_only P (with_breakpoint_manager f).
Proof.
  apply emits_nothing. intros w.
  unfold with_breakpoint_manager, bind, get_self, attr_of, modify_self, ret, raise.
  cbn. destruct (breakpoint_manager (self w)); reflexivity.
Qed.

Lemma emits_wait_loop (P : Event -> Prop) (polls : list Poll) :
  P EvStateWait -> P EvRunOnePendingTask -> emits_only P (wait_loop polls).
Proof.
  intros Hw Hr.
  induction polls as [|p rest IH]; cbn [wait_loop].
  - apply emits_nothing. reflexivity.
  - apply emits_bind; [now apply emits_emit|intros _].
    destruct p as [final|seen]; [apply emits_nothing; reflexivity|].
    destruct seen; try (apply emits_nothing; reflexivity).
    apply emits_bind; [now apply emits_emit|intros _; exact IH].
Qed.

Lemma emits_break_at (srs : ScriptRuntimeStruct) (polls : list Poll) :
  emits_only (fun ev => is_lock_event ev = false) (break_at srs polls).
Proof.
  unfold break_at.
  repeat (apply emits_bind;
          [first [ apply emits_with_breakpoint_manager
                 | apply emits_wait_loop; reflexivity
                 | apply emits_emit; reflexivity
                 | apply emits_nothing; reflexivity ]
          |intros ?]).
  match goal with
  | |- emits_only _ (match ?x with _ => _ end) => destruct x
  end;
    repeat first
      [ apply emits_with_breakpoint_manager
      | apply emits_nothing; reflexivity
      | apply emits_bind; [|intros ?]
      | match goal with
        | |- emits_only _ (if ?b then _ else _) => destruct b
        end ].
Qed.

(** The lock around a firing. On a controller with a ground engine state,
    however the hook ends (it returns, raises, or stays blocked in a break),
    the trace it adds starts with taking the lock, the operation line if
    asked for, and the release of the lock; nothing after that touches the
    lock. So the lock is taken and released exactly once and is never held
    while the user is asked. *)
Theorem lock_released_before_break (w : World) (ges : GroundEngineState)
    (polls : list Poll) :
  ground_engine_state (self w) = Some ges ->
  let srs := ScriptRuntimeStruct_new arg_memory (emu_thread w) (rom_data (self w))
               (register_arm9 (emu_thread w) 6) (unionall_load_addr ges) in
  exists rest,
    trace (snd (hook__breaking_point polls w))
    = trace w ++ hook_preamble (self w) srs ++ [EvLockRelease] ++ rest
    /\ Forall (fun ev => is_lock_event ev = false) rest.
Proof.
  intros Hges srs.
  destruct (breakpoint_manager (self w)) as [bm|] eqn:Hbm.
  - rewrite (hook__breaking_point_cases w ges bm polls Hges Hbm). fold srs.
    destruct (negb (_breakpoints_disabled (self w)) && _).
    + destruct (loaded_ssb_files ges !! hanger_ssb srs) as [[ssb|]|];
        try (exists []; cbn; rewrite ?app_nil_r; split; [reflexivity|constructor]).
      destruct (_breakpoint_force (self w) || _);
        [|exists []; cbn; rewrite ?app_nil_r; split; [reflexivity|constructor]].
      match goal with
      | |- context [break_at srs polls ?w1] =>
          destruct (emits_break_at srs polls w1) as (rest & Ht & Hf)
      end.
      exists rest. rewrite Ht. cbn [trace]. rewrite <- !app_assoc.
      split; [reflexivity|exact Hf].
    + exists []. unfold logged. cbn. rewrite ?app_nil_r. split; [reflexivity|constructor].
  - unfold hook__breaking_point, bind, get_self, get_emu, emit, attr_of, print_callback.
    cbn. rewrite Hges. cbn. rewrite Hbm. unfold hook_preamble.
    exists [].
    destruct (_log_operations (self w)); cbn; rewrite <- ?app_assoc; cbn;
      (split; [reflexivity|constructor]).
Qed.

End Break.

Lemma hit_resolution_witness :
  exists w',
    @hook__breaking_point (sample_external sample_srs)
      [Unsignaled STOPPED; Signaled STEP_INTO] (sample_world (Some sample_bm))
    = (Done tt, w')
    /\ breakpoint_manager (self w')
       = Some (mkBm [("SCRIPT/D01P11A/enter.ssb"%string, 100)] [mkTemp 2 5 None None])
    /\ _breakpoint_force (self w') = false
    /\ _breakpoints_disabled_for_tick (self w') = -1.
Proof.
  destruct (@hit_resolution (sample_external sample_srs)
              (sample_world (Some sample_bm)) sample_ges sample_bm
              (mkSsb "SCRIPT/D01P11A/enter.ssb") 1 (Signaled STEP_INTO) [] STEP_INTO
              eq_refl eq_refl eq_refl ltac:(discriminate) eq_refl eq_refl eq_refl)
    as (w' & Hrun & Hbm & Hforce & Htick & _).
  exists w'. repeat split; assumption.
Defined.

Lemma disabled_breaks_are_skipped_witness :
  @hook__breaking_point (sample_external sample_srs) [Signaled STEP_INTO] muted_world
  = (Done tt,
     logged muted_world
       [EvLockAcquire; EvPrint "> ACTOR(3): Wait @22ab3c"; EvLockRelease]).
Proof.
  exact (@disabled_breaks_are_skipped (sample_external sample_srs) muted_world
           sample_ges sample_bm [Signaled STEP_INTO] eq_refl eq_refl
           (or_introl eq_refl)).
Defined.

Lemma unmatched_hit_returns_witness :
  exists w1,
    @hook__breaking_point (sample_external sample_srs) [Signaled STEP_INTO]
      (sample_world (Some empty_bm)) = (Done tt, w1)
    /\ breakpoint_manager (self w1) = Some empty_bm
    /\ trace w1 = [EvLockAcquire; EvPrint "> ACTOR(3): Wait @22ab3c"; EvLockRelease].
Proof.
  destruct (@unmatched_hit_returns (sample_external sample_srs)
              (sample_world (Some empty_bm)) sample_ges empty_bm [Signaled STEP_INTO]
              eq_refl eq_refl eq_refl ltac:(discriminate))
    as (_ & Hnomatch & _).
  eexists. split.
  - apply (Hnomatch (mkSsb "SCRIPT/D01P11A/enter.ssb")); reflexivity.
  - split; reflexivity.
Defined.

Lemma unanswered_hit_blocks_witness :
  exists w',
    @hook__breaking_point (sample_external sample_srs)
      [Unsignaled STOPPED; Unsignaled STOPPED] (sample_world (Some sample_bm))
    = (Blocked, w')
    /\ breakpoint_manager (self w')
       = Some (mkBm [("SCRIPT/D01P11A/enter.ssb"%string, 100)] []).
Proof.
  destruct (@unanswered_hit_blocks (sample_external sample_srs)
              (sample_world (Some sample_bm)) sample_ges sample_bm
              (mkSsb "SCRIPT/D01P11A/enter.ssb") 2
              eq_refl eq_refl eq_refl ltac:(discriminate) eq_refl eq_refl)
    as (w' & Hrun & Hbm & _).
  exists w'. split; assumption.
Defined.

Lemma fail_hard_mutes_the_frame_witness :
  exists w1,
    @hook__breaking_point (sample_external sample_srs) [Signaled FAIL_HARD]
      (sample_world (Some sample_bm)) = (Done tt, w1)
    /\ @hook__breaking_point (sample_external sample_srs) [Signaled STEP_INTO]
         (mkWorld (self w1) sample_emu (trace w1))
       = (Done tt,
          logged (mkWorld (self w1) sample_emu (trace w1))
            [EvLockAcquire; EvPrint "> ACTOR(3): Wait @22ab3c"; EvLockRelease]).
Proof.
  destruct (@fail_hard_mutes_the_frame (sample_external sample_srs)
              (sample_world (Some sample_bm)) sample_ges sample_bm
              (mkSsb "SCRIPT/D01P11A/enter.ssb") 0 (Signaled FAIL_HARD) []
              sample_emu [Signaled STEP_INTO]
              eq_refl eq_refl eq_refl ltac:(discriminate) eq_refl eq_refl eq_refl eq_refl)
    as (w1 & Hrun & Hnext).
  exists w1. split; [exact Hrun|].
  cbv zeta in Hnext. rewrite Hnext.
  vm_compute in Hrun. inversion Hrun; subst. reflexivity.
Defined.

Lemma step_next_forces_next_break_witness :
  exists w1 w2,
    @hook__breaking_point (sample_external sample_srs) [Signaled STEP_NEXT]
      (sample_world (Some sample_bm)) = (Done tt, w1)
    /\ _breakpoint_force (self w1) = true
    /\ @hook__breaking_point (sample_external sample_srs) [Signaled RESUME]
         (mkWorld (self w1) sample_emu (trace w1)) = (Done tt, w2)
    /\ _breakpoint_force (self w2) = false.
Proof.
  destruct (@step_next_forces_next_break (sample_external sample_srs)
              (sample_world (Some sample_bm)) sample_ges sample_bm
              (mkSsb "SCRIPT/D01P11A/enter.ssb") 0 (Signaled STEP_NEXT) []
              sample_emu (mkSsb "SCRIPT/D01P11A/enter.ssb") 0 (Signaled RESUME) [] RESUME
              eq_refl eq_refl eq_refl ltac:(discriminate) eq_refl eq_refl eq_refl
              ltac:(discriminate) eq_refl eq_refl)
    as (w1 & w2 & Hrun1 & Hrun2 & _ & Hforce2).
  exists w1, w2. split; [exact Hrun1|]. split; [|split; assumption].
  vm_compute in Hrun1. inversion Hrun1; subst. reflexivity.
Defined.

Lemma lock_released_before_break_witness :
  exists rest,
    trace (snd (@hook__breaking_point (sample_external sample_srs)
                  [Unsignaled STOPPED] (sample_world (Some sample_bm))))
    = [EvLockAcquire; EvPrint "> ACTOR(3): Wait @22ab3c"; EvLockRelease] ++ rest
    /\ Forall (fun ev => is_lock_event ev = false) rest.
Proof.
  exact (@lock_released_before_break (sample_external sample_srs)
           (sample_world (Some sample_bm)) sample_ges [Unsignaled STOPPED] eq_refl).
Defined.

End BreakFacts.

(** ** Theorems: the logging hooks *)

Module HookFacts.
Import Debugger.
Import Samples.

(** *** Preprocessing of the format string *)

Lemma count_percent_replace (s : string) :
  PyStr.count_percent (PyStr.replace_pct_p s) = PyStr.count_percent s
  /\ forall c, PyStr.count_percent (PyStr.replace_pct_p (String c s))
               = PyStr.count_percent (String c s).
Proof.
  induction s as [|d rest [IH1 IH2]].
  - split; [reflexivity|]. intros c. reflexivity.
  - split; [apply IH2|]. intros c.
    cbn [PyStr.replace_pct_p].
    destruct (Ascii.eqb c PyStr.percent && Ascii.eqb d "p") eqn:E.
    + apply andb_prop in E. destruct E as [Ec Ed].
      apply Ascii.eqb_eq in Ec. apply Ascii.eqb_eq in Ed. subst c d.
      cbn. now rewrite IH1.
    + change (PyStr.count_percent (String c (PyStr.replace_pct_p (String d rest)))
              = PyStr.count_percent (String c (String d rest))).
      cbn [PyStr.count_percent]. rewrite IH2. reflexivity.
Qed.

Lemma newline_not_percent : Ascii.eqb PyStr.newline PyStr.percent = false.
Proof. reflexivity. Qed.

Lemma count_percent_rstrip (s : string) :
  PyStr.count_percent (PyStr.rstrip_newline s) = PyStr.count_percent s.
Proof.
  induction s as [|c rest IH]; [reflexivity|].
  cbn [PyStr.rstrip_newline].
  destruct (PyStr.rstrip_newline rest) as [|c' r'] eqn:E.
  - cbn [PyStr.count_percent] in *. rewrite <- IH.
    destruct (Ascii.eqb c PyStr.newline) eqn:Ec.
    + apply Ascii.eqb_eq in Ec. subst c. rewrite newline_not_percent. reflexivity.
    + cbn. destruct (Ascii.eqb c PyStr.percent); reflexivity.
  - simpl. rewrite <- IH. simpl. reflexivity.
Qed.

Lemma rstrip_no_trailing_newline (s : string) :
  PyStr.ends_with_newline (PyStr.rstrip_newline s) = false.
Proof.
  induction s as [|c rest IH]; [reflexivity|].
  cbn [PyStr.rstrip_newline].
  destruct (PyStr.rstrip_newline rest) as [|c' r'] eqn:E.
  - destruct (Ascii.eqb c PyStr.newline) eqn:Ec; [reflexivity|].
    cbn. exact Ec.
  - exact IH.
Qed.

Lemma rstrip_only_newlines (s : string) :
  exists k, s = PyStr.rstrip_newline s +:+ PyStr.newlines k.
Proof.
  induction s as [|c rest (k & IH)]; [exists O; reflexivity|].
  cbn [PyStr.rstrip_newline].
  destruct (PyStr.rstrip_newline rest) as [|c' r'] eqn:E.
  - destruct (Ascii.eqb c PyStr.newline) eqn:Ec.
    + apply Ascii.eqb_eq in Ec. subst c. exists (S k). rewrite IH. reflexivity.
    + exists k. rewrite IH at 1. reflexivity.
  - exists k. rewrite IH at 1. reflexivity.
Qed.

(** The format string a printf hook works with: it has as many [%] as the
    string read from memory (so the number of arguments is decided by the raw
    string), it does not end with a newline, and it is the raw string with
    every [%p] turned into [%x] minus trailing newlines only. *)
Theorem printf_format_preprocessing (emu : EmulatorThread) (register_offset : nat) :
  let raw := memory_strings emu (register_arm9 emu register_offset) in
  PyStr.count_percent (printf_format emu register_offset) = PyStr.count_percent raw
  /\ PyStr.ends_with_newline (printf_format emu register_offset) = false
  /\ exists k, PyStr.replace_pct_p raw
               = printf_format emu register_offset +:+ PyStr.newlines k.
Proof.
  intros raw. unfold printf_format. fold raw.
  split; [|split].
  - rewrite count_percent_rstrip. apply count_percent_replace.
  - apply rstrip_no_trailing_newline.
  - apply rstrip_only_newlines.
Qed.

(** *** The printf hooks *)

Lemma replace_without_percent (s : string) :
  PyStr.count_percent s = O -> PyStr.replace_pct_p s = s.
Proof.
  induction s as [|c rest IH]; [reflexivity|].
  intros Hc. cbn [PyStr.count_percent] in Hc.
  destruct (Ascii.eqb c PyStr.percent) eqn:Ec; [discriminate|].
  cbn [PyStr.replace_pct_p]. rewrite Ec. cbn [andb].
  destruct rest as [|d rest']; [reflexivity|].
  now rewrite (IH Hc).
Qed.

Lemma printf_format_count (emu : EmulatorThread) (register_offset : nat) :
  PyStr.count_percent (printf_format emu register_offset)
  = PyStr.count_percent (memory_strings emu (register_arm9 emu register_offset)).
Proof.
  unfold printf_format. rewrite count_percent_rstrip. apply count_percent_replace.
Qed.

Section Printf.
Context `{External}.

(** The printf hook, branch by branch. *)
Lemma hook__log_printfs_cases (w : World) (o : nat) :
  hook__log_printfs o w =
  if _log_printfs (self w) then
    match PyStr.count_percent (printf_format (emu_thread w) o) with
    | O => (Done tt, logged w [EvLockAcquire; EvPrint (printf_format (emu_thread w) o);
                               EvLockRelease])
    | S n =>
        match printf_args (emu_thread w) o (S n) with
        | Some args =>
            match str_percent (emu_thread w) (printf_format (emu_thread w) o) args with
            | Ok text => (Done tt, logged w [EvLockAcquire; EvPrint text; EvLockRelease])
            | Raise e => (Raised e, logged w [EvLockAcquire; EvLockRelease])
            end
        | None => (Done tt, logged w [EvLockAcquire; EvLockRelease])
        end
    end
  else (Done tt, logged w [EvLockAcquire; EvLockRelease]).
Proof.
  unfold hook__log_printfs, synchronized, bind, get_self, get_emu, emit, logged,
    print_callback, ret.
  cbn -[printf_args].
  destruct (_log_printfs (self w)); cbn -[printf_args]; [|now rewrite <- ?app_assoc].
  destruct (PyStr.count_percent (printf_format (emu_thread w) o)) as [|n];
    cbn -[printf_args]; [now rewrite <- ?app_assoc|].
  destruct (printf_args (emu_thread w) o (S n)) as [args|]; cbn;
    [|now rewrite <- ?app_assoc].
  destruct (str_percent (emu_thread w) (printf_format (emu_thread w) o) args)
    as [text|e]; cbn; now rewrite <- ?app_assoc.
Qed.

(** When a printf hook prints nothing or prints without formatting. With
    printf logging off the hook only takes and releases the lock. With it on,
    a string without [%] is printed as it is in memory, less its trailing
    newlines, and a string with ten or more [%] is dropped without a word. *)
Theorem printf_without_arguments (w : World) (o : nat) :
  let raw := memory_strings (emu_thread w) (register_arm9 (emu_thread w) o) in
  (_log_printfs (self w) = false ->
   hook__log_printfs o w = (Done tt, logged w [EvLockAcquire; EvLockRelease]))
  /\ (_log_printfs (self w) = true -> PyStr.count_percent raw = O ->
      hook__log_printfs o w
      = (Done tt, logged w [EvLockAcquire; EvPrint (PyStr.rstrip_newline raw);
                            EvLockRelease]))
  /\ (_log_printfs (self w) = true -> (10 <= PyStr.count_percent raw)%nat ->
      hook__log_printfs o w = (Done tt, logged w [EvLockAcquire; EvLockRelease])).
Proof.
  intros raw.
  pose proof (printf_format_count (emu_thread w) o) as Hcount. fold raw in Hcount.
  rewrite hook__log_printfs_cases.
  split; [|split].
  - intros ->. reflexivity.
  - intros -> Hraw. rewrite Hcount, Hraw.
    unfold printf_format. fold raw. now rewrite (replace_without_percent raw Hraw).
  - intros -> Hraw. rewrite Hcount. clear Hcount. revert Hraw.
    generalize (PyStr.count_percent raw) as c. intros c Hc.
    do 10 (destruct c as [|c]; [lia|]).
    reflexivity.
Qed.

(** The arguments of a formatted line. With printf logging on and [n]
    specifiers in the string, [n] from 1 to 9 other than 7, the arguments are
    the registers [offset + 1 .. offset + n] in this order; the line printed
    is the format applied to them, and when formatting raises the hook raises
    after releasing the lock, without printing. *)
Theorem printf_sequential_registers (w : World) (o n : nat) :
  _log_printfs (self w) = true ->
  (1 <= n <= 9)%nat -> n <> 7%nat ->
  PyStr.count_percent (memory_strings (emu_thread w) (register_arm9 (emu_thread w) o)) = n ->
  hook__log_printfs o w =
  match str_percent (emu_thread w) (printf_format (emu_thread w) o)
          (List.map (fun i => reg_pnt (emu_thread w) (o + i)) (seq 1 n)) with
  | Ok text => (Done tt, logged w [EvLockAcquire; EvPrint text; EvLockRelease])
  | Raise e => (Raised e, logged w [EvLockAcquire; EvLockRelease])
  end.
Proof.
  intros Hlog Hn H7 Hraw.
  rewrite hook__log_printfs_cases, Hlog, printf_format_count, Hraw.
  do 10 (destruct n as [|n]; [first [lia | reflexivity]|]).
  lia.
Qed.

(** Whatever a printf hook finds, it never blocks; it leaves the controller
    and the emulator as they are; it prints at most one line; and the lock it
    took is released at the end, also when formatting raises. *)
Theorem printf_hook_effects (w : World) (o : nat) :
  fst (hook__log_printfs o w) <> Blocked
  /\ exists printed,
       snd (hook__log_printfs o w)
       = logged w ([EvLockAcquire] ++ printed ++ [EvLockRelease])
       /\ (printed = [] \/ exists text, printed = [EvPrint text]).
Proof.
  rewrite hook__log_printfs_cases.
  destruct (_log_printfs (self w));
    [|split; [discriminate|exists []; split; [reflexivity|now left]]].
  destruct (PyStr.count_percent _) as [|n].
  { split; [discriminate|]. eexists [_]. split; [reflexivity|right; eauto]. }
  destruct (printf_args _ _ _) as [args|];
    [|split; [discriminate|exists []; split; [reflexivity|now left]]].
  destruct (str_percent _ _ args) as [text|e].
  - split; [discriminate|]. eexists [_]. split; [reflexivity|right; eauto].
  - split; [discriminate|]. exists []. split; [reflexivity|now left].
Qed.

End Printf.

Lemma printf_without_arguments_witness :
  @hook__log_printfs (sample_external sample_srs) 0 silent_world
  = (Done tt, logged silent_world [EvLockAcquire; EvLockRelease])
  /\ @hook__log_printfs (sample_external sample_srs) 0 plain_world
     = (Done tt, logged plain_world [EvLockAcquire; EvPrint "MainLoop start";
                                     EvLockRelease])
  /\ @hook__log_printfs (sample_external sample_srs) 1 plain_world
     = (Done tt, logged plain_world [EvLockAcquire; EvLockRelease]).
Proof.
  pose proof (@printf_without_arguments (sample_external sample_srs) silent_world 0)
    as [Hoff _].
  pose proof (@printf_without_arguments (sample_external sample_srs) plain_world 0)
    as (_ & Hplain & _).
  pose proof (@printf_without_arguments (sample_external sample_srs) plain_world 1)
    as (_ & _ & Hmany).
  split; [exact (Hoff eq_refl)|split].
  - rewrite (Hplain eq_refl eq_refl). reflexivity.
  - apply Hmany; [reflexivity|]. vm_compute. lia.
Defined.

Lemma printf_sequential_registers_witness :
  @hook__log_printfs (sample_external sample_srs) 0 shifted_world
  = (Done tt, logged shifted_world
       [EvLockAcquire; EvPrint "%s at %x 103 104"; EvLockRelease]).
Proof.
  rewrite (@printf_sequential_registers (sample_external sample_srs) shifted_world 0 2).
  - reflexivity.
  - reflexivity.
  - lia.
  - lia.
  - reflexivity.
Defined.

(** *** The debug-mode hook *)

Lemma hook__debug_mode_run (w : World) :
  hook__debug_mode w =
  (Done tt,
   mkWorld (self w)
     (if _debug_mode (self w)
      then mkEmulatorThread (memory_bytes (emu_thread w)) (memory_strings (emu_thread w))
             (fun i => match i with
                       | O => if register_arm9 (emu_thread w) 0 =? 0 then 1 else 0
                       | _ => register_arm9 (emu_thread w) i
                       end)
             (exec_hooks (emu_thread w)) (current_frame_id (emu_thread w))
      else emu_thread w)
     (trace w ++ [EvLockAcquire; EvLockRelease])).
Proof.
  unfold hook__debug_mode, synchronized, bind, get_self, modify_emu, emit, ret.
  cbn. destruct (_debug_mode (self w)); cbn; now rewrite <- app_assoc.
Qed.

(** One firing of the debug-mode hook. It always returns and touches only
    register r0 of the emulator: with debug mode on, r0 becomes 1 if it was 0
    and 0 otherwise (so it is 0 or 1 afterwards); with debug mode off, r0
    keeps its value. Memory, the other registers, the hook table, the frame
    counter and the controller stay as they are. *)
Theorem debug_mode_flips_r0 (w : World) :
  exists w',
    hook__debug_mode w = (Done tt, w')
    /\ self w' = self w
    /\ trace w' = trace w ++ [EvLockAcquire; EvLockRelease]
    /\ memory_bytes (emu_thread w') = memory_bytes (emu_thread w)
    /\ memory_strings (emu_thread w') = memory_strings (emu_thread w)
    /\ exec_hooks (emu_thread w') = exec_hooks (emu_thread w)
    /\ current_frame_id (emu_thread w') = current_frame_id (emu_thread w)
    /\ (forall i, i <> O -> register_arm9 (emu_thread w') i = register_arm9 (emu_thread w) i)
    /\ register_arm9 (emu_thread w') 0
       = (if _debug_mode (self w)
          then if register_arm9 (emu_thread w) 0 =? 0 then 1 else 0
          else register_arm9 (emu_thread w) 0).
Proof.
  eexists. split; [apply hook__debug_mode_run|]. cbn.
  destruct (_debug_mode (self w)); cbn; repeat split.
  intros [|i] Hi; [congruence|reflexivity].
Qed.

(** Two firings in a row, with debug mode on: r0 ends as 0 if it was 0 and
    as 1 otherwise. The pair of firings gives r0 back exactly when it held 0
    or 1. *)
Theorem debug_mode_twice (w : World) :
  _debug_mode (self w) = true ->
  exists w1 w2,
    hook__debug_mode w = (Done tt, w1)
    /\ hook__debug_mode w1 = (Done tt, w2)
    /\ register_arm9 (emu_thread w2) 0
       = (if register_arm9 (emu_thread w) 0 =? 0 then 0 else 1)
    /\ (register_arm9 (emu_thread w2) 0 = register_arm9 (emu_thread w) 0
        <-> register_arm9 (emu_thread w) 0 = 0 \/ register_arm9 (emu_thread w) 0 = 1).
Proof.
  intros Hon.
  eexists. eexists.
  split; [apply hook__debug_mode_run|].
  split; [apply hook__debug_mode_run|].
  cbn. rewrite Hon. cbn.
  destruct (register_arm9 (emu_thread w) 0 =? 0) eqn:E; cbn.
  - apply Z.eqb_eq in E. split; [reflexivity|]. rewrite E. tauto.
  - apply Z.eqb_neq in E. split; [reflexivity|]. lia.
Qed.

Lemma debug_mode_twice_witness :
  exists w1 w2,
    hook__debug_mode debug_mode_world = (Done tt, w1)
    /\ hook__debug_mode w1 = (Done tt, w2)
    /\ register_arm9 (emu_thread w1) 0 = 0
    /\ register_arm9 (emu_thread w2) 0 = 1.
Proof.
  destruct (debug_mode_twice debug_mode_world eq_refl)
    as (w1 & w2 & H1 & H2 & Hr & _).
  exists w1, w2. split; [exact H1|]. split; [exact H2|].
  split; [|exact Hr].
  injection H1 as <-. reflexivity.
Defined.

(** *** The debug-print opcode hook *)

Section DebugPrint.
Context `{External}.

(** When the debug-print hook prints nothing. With debug-print logging off
    it only takes and releases the lock, with or without a ground engine
    state. With logging on and no ground engine state attached it raises
    [AttributeError], the lock being released. With logging on and any
    opcode other than [0x6B], [0x6C] and [0x6D] in r6 it returns without a
    line and without reading a string or a variable. *)
Theorem debug_print_silent (w : World) :
  (_log_debug_print (self w) = false ->
   hook__log_debug_print w = (Done tt, logged w [EvLockAcquire; EvLockRelease]))
  /\ (_log_debug_print (self w) = true ->
      ground_engine_state (self w) = None ->
      hook__log_debug_print w
      = (Raised AttributeError, logged w [EvLockAcquire; EvLockRelease]))
  /\ (_log_debug_print (self w) = true ->
      is_Some (ground_engine_state (self w)) ->
      register_arm9 (emu_thread w) 6 <> 0x6B ->
      register_arm9 (emu_thread w) 6 <> 0x6C ->
      register_arm9 (emu_thread w) 6 <> 0x6D ->
      hook__log_debug_print w = (Done tt, logged w [EvLockAcquire; EvLockRelease])).
Proof.
  unfold hook__log_debug_print, synchronized, bind, get_self, get_emu, emit, logged,
    attr_of, print_callback, ret, raise.
  cbn. split; [|split].
  - intros ->. cbn. now rewrite <- app_assoc.
  - intros -> ->. cbn. now rewrite <- app_assoc.
  - intros -> [ges ->] H1 H2 H3. cbn.
    apply Z.eqb_neq in H1, H2, H3. rewrite H1, H2, H3. cbn.
    now rewrite <- app_assoc.
Qed.

(** The lines of [debug_Print] and [debug_PrintFlag]. With logging on and a
    ground engine state attached: for opcode [0x6B] the string whose index
    is the unsigned 16-bit value at [r5 + 2] is read from the script's string
    table and printed after [debug_Print: ]; for opcode [0x6C] the variable
    whose id is read at [r5 + 2] is resolved at sub-index 0, the string whose
    index is read at [r5 + 4] is read, and the line shows the string, the
    variable's name and its value. *)
Theorem debug_print_lines (w : World) (ges : GroundEngineState) :
  _log_debug_print (self w) = true ->
  ground_engine_state (self w) = Some ges ->
  let emu := emu_thread w in
  let srs := ScriptRuntimeStruct_new arg_emu_thread emu (rom_data (self w))
               (register_arm9 emu 4) (unionall_load_addr ges) in
  let table := start_addr_str_table srs in
  let at2 := read_short emu (register_arm9 emu 5 + 2) in
  let at4 := read_short emu (register_arm9 emu 5 + 4) in
  (register_arm9 emu 6 = 0x6B ->
   hook__log_debug_print w =
   (Done tt,
    logged w
      [EvLockAcquire;
       EvReadSsbStr table at2;
       EvPrint ("debug_Print: " +:+ read_ssb_str_mem emu table at2);
       EvLockRelease]))
  /\ (register_arm9 emu 6 = 0x6C ->
      hook__log_debug_print w =
      (Done tt,
       logged w
         [EvLockAcquire;
          EvGameVariableRead arg_memory arg_rom_data at2 0;
          EvReadSsbStr table at4;
          EvPrint ("debug_PrintFlag: " +:+ read_ssb_str_mem emu table at4 +:+ " - "
                   +:+ fst (GameVariable_read arg_memory arg_rom_data emu at2 0 srs)
                   +:+ " = "
                   +:+ PyStr.of_int
                         (snd (GameVariable_read arg_memory arg_rom_data emu at2 0 srs)));
          EvLockRelease])).
Proof.
  intros Hlog Hges emu srs table at2 at4.
  unfold hook__log_debug_print, synchronized, bind, get_self, get_emu, emit, logged,
    attr_of, print_callback.
  cbn. rewrite Hlog, Hges. cbn. unfold ret.
  subst at2 at4 table srs emu.
  split; intros Hop; rewrite Hop; cbn.
  - rewrite <- !app_assoc. reflexivity.
  - destruct (GameVariable_read arg_memory arg_rom_data _ _ 0 _) as [nm v0].
    cbn. rewrite <- !app_assoc. reflexivity.
Qed.

End DebugPrint.

Lemma debug_print_silent_witness :
  @hook__log_debug_print (sample_external sample_srs) silent_world
  = (Done tt, logged silent_world [EvLockAcquire; EvLockRelease])
  /\ @hook__log_debug_print (sample_external sample_srs)
       (mkWorld (set_log_debug_print true __init__) printf_emu [])
     = (Raised AttributeError,
        logged (mkWorld (set_log_debug_print true __init__) printf_emu [])
          [EvLockAcquire; EvLockRelease])
  /\ @hook__log_debug_print (sample_external sample_srs) (opcode_world 0x2A)
     = (Done tt, logged (opcode_world 0x2A) [EvLockAcquire; EvLockRelease]).
Proof.
  pose proof (@debug_print_silent (sample_external sample_srs) silent_world)
    as [Hoff _].
  pose proof (@debug_print_silent (sample_external sample_srs)
                (mkWorld (set_log_debug_print true __init__) printf_emu []))
    as (_ & Hnone & _).
  pose proof (@debug_print_silent (sample_external sample_srs) (opcode_world 0x2A))
    as (_ & _ & Hother).
  split; [exact (Hoff eq_refl)|]. split; [exact (Hnone eq_refl eq_refl)|].
  apply Hother; [reflexivity | eexists; reflexivity | | | ]; cbn; lia.
Defined.

Lemma debug_print_lines_witness :
  @hook__log_debug_print (sample_external sample_srs) (opcode_world 0x6B)
  = (Done tt,
     logged (opcode_world 0x6B)
       [EvLockAcquire; EvReadSsbStr 0x5000 9; EvPrint "debug_Print: str9";
        EvLockRelease])
  /\ @hook__log_debug_print (sample_external sample_srs) (opcode_world 0x6C)
     = (Done tt,
        logged (opcode_world 0x6C)
          [EvLockAcquire; EvGameVariableRead arg_memory arg_rom_data 9 0;
           EvReadSsbStr 0x5000 2;
           EvPrint "debug_PrintFlag: str2 - SCENARIO_MAIN = 9"; EvLockRelease]).
Proof.
  pose proof (@debug_print_lines (sample_external sample_srs) (opcode_world 0x6B)
                sample_ges eq_refl eq_refl) as [Hprint _].
  pose proof (@debug_print_lines (sample_external sample_srs) (opcode_world 0x6C)
                sample_ges eq_refl eq_refl) as [_ Hflag].
  split.
  - rewrite (Hprint eq_refl). reflexivity.
  - rewrite (Hflag eq_refl). reflexivity.
Defined.

(** *** Logging of the ground engine state *)

Lemma log_ground_engine_state_run (w : World) (value : bool) :
  log_ground_engine_state value w =
  (Done tt,
   mkWorld
     (match ground_engine_state (self w) with
      | Some ges =>
          set_ground_engine_state
            (Some (mkGes value (unionall_load_addr ges) (loaded_ssb_files ges)))
            (set_log_ground_engine_state value (self w))
      | None => set_log_ground_engine_state value (self w)
      end)
     (emu_thread w) (trace w ++ [EvLockAcquire; EvLockRelease])).
Proof.
  unfold log_ground_engine_state, synchronized, bind, modify_self, emit.
  cbn. rewrite <- app_assoc. reflexivity.
Qed.

(** The ground engine state logs exactly when the controller was last told
    so, whichever comes first. Setting the flag and then enabling, or
    enabling and then setting the flag, both end with a ground engine state
    whose [logging_enabled] is the value set; the setter changes nothing else
    of the ground engine state, and without one it only stores the flag. *)
Theorem ground_engine_logging_follows_setter (w : World) (value : bool)
    (rom : Pmd2Data) (bm : option BreakpointManager) (new_ges : GroundEngineState)
    (pts : list (Z * Hook)) :
  hook_points rom = Some pts ->
  let expected := Some (mkGes value (unionall_load_addr new_ges)
                              (loaded_ssb_files new_ges)) in
  (exists w1 w2,
      log_ground_engine_state value w = (Done tt, w1)
      /\ enable rom bm new_ges w1 = (Done tt, w2)
      /\ ground_engine_state (self w1)
         = (fun ges => mkGes value (unionall_load_addr ges) (loaded_ssb_files ges))
             <$> ground_engine_state (self w)
      /\ ground_engine_state (self w2) = expected)
  /\ (exists w1 w2,
         enable rom bm new_ges w = (Done tt, w1)
         /\ log_ground_engine_state value w1 = (Done tt, w2)
         /\ ground_engine_state (self w2) = expected
         /\ _log_ground_engine_state (self w2) = value
         /\ rom_data (self w2) = Some rom
         /\ breakpoint_manager (self w2) = bm
         /\ emu_thread w2 = emu_thread w1).
Proof.
  intros Hp expected. split.
  - eexists. eexists.
    split; [apply log_ground_engine_state_run|].
    split; [apply (LifecycleFacts.enable_run _ rom bm new_ges pts Hp)|].
    cbn. destruct (ground_engine_state (self w)) eqn:E; cbn; rewrite ?E; split; reflexivity.
  - eexists. eexists.
    split; [apply (LifecycleFacts.enable_run _ rom bm new_ges pts Hp)|].
    split; [apply log_ground_engine_state_run|].
    cbn. repeat split.
Qed.

Lemma ground_engine_logging_follows_setter_witness :
  exists w1 w2,
    log_ground_engine_state true fresh_world = (Done tt, w1)
    /\ enable sample_rom None sample_ges w1 = (Done tt, w2)
    /\ ground_engine_state (self w1) = None
    /\ (logging_enabled <$> ground_engine_state (self w2)) = Some true.
Proof.
  destruct (ground_engine_logging_follows_setter fresh_world true sample_rom None
              sample_ges sample_points eq_refl)
    as [(w1 & w2 & H1 & H2 & Hges1 & Hges2) _].
  exists w1, w2. split; [exact H1|]. split; [exact H2|]. split; [exact Hges1|].
  rewrite Hges2. reflexivity.
Defined.

(** *** [_get_next_opcode_addr] *)

(** [_get_next_opcode_addr] only reads: however it ends, the controller and
    the emulator are as before, and it never blocks. Without ROM data it
    raises [AttributeError]; on an opcode id that the opcode table does not
    have it raises [KeyError]. *)
Theorem get_next_opcode_addr_failures (w : World) (addr rel : Z) :
  snd (_get_next_opcode_addr addr rel w) = w
  /\ fst (_get_next_opcode_addr addr rel w) <> Blocked
  /\ (rom_data (self w) = None ->
      fst (_get_next_opcode_addr addr rel w) = Raised AttributeError)
  /\ (forall rom,
         rom_data (self w) = Some rom ->
         op_codes__by_id rom !! read_short (emu_thread w) addr = None ->
         fst (_get_next_opcode_addr addr rel w) = Raised KeyError).
Proof.
  unfold _get_next_opcode_addr, bind, get_self, get_emu, attr_of, dict_get, ret, raise.
  cbn.
  destruct (rom_data (self w)) as [rom|] eqn:Hrom; cbn.
  - destruct (op_codes__by_id rom !! read_short (emu_thread w) addr) as [op|] eqn:Hop;
      cbn.
    + repeat split; try discriminate.
      intros rom' [= <-]. rewrite Hop. discriminate.
    + repeat split; try discriminate.
  - repeat split; try discriminate.
Qed.

Lemma get_next_opcode_addr_failures_witness :
  _get_next_opcode_addr 0x1000 100 fresh_world = (Raised AttributeError, fresh_world)
  /\ _get_next_opcode_addr 0x1200 100 (sample_world None)
     = (Raised KeyError, sample_world None).
Proof.
  split.
  - apply injective_projections.
    + apply (get_next_opcode_addr_failures fresh_world 0x1000 100). reflexivity.
    + apply (get_next_opcode_addr_failures fresh_world 0x1000 100).
  - apply injective_projections.
    + apply (get_next_opcode_addr_failures (sample_world None) 0x1200 100)
        with (rom := sample_rom); reflexivity.
    + apply (get_next_opcode_addr_failures (sample_world None) 0x1200 100).
Defined.

(** The next opcode lies ahead. For an opcode of the table with a declared
    parameter count of -1 or at least 0, the call returns an address at least
    2 beyond the relative address it was given; for a variable-length opcode
    the distance is between 4 and 65539. The distance does not depend on the
    relative address: shifting the relative address shifts the result by the
    same amount. *)
Theorem get_next_opcode_addr_advances (w : World) (rom : Pmd2Data)
    (op : Pmd2ScriptOpCode) (addr rel : Z) :
  rom_data (self w) = Some rom ->
  op_codes__by_id rom !! read_short (emu_thread w) addr = Some op ->
  params op = -1 \/ 0 <= params op ->
  exists next,
    _get_next_opcode_addr addr rel w = (Done next, w)
    /\ rel + 2 <= next
    /\ (params op = -1 -> rel + 4 <= next <= rel + 65539)
    /\ (forall d, _get_next_opcode_addr addr (rel + d) w = (Done (next + d), w)).
Proof.
  intros Hrom Hop Hp.
  pose proof (DebuggerFacts.read_short_range (emu_thread w) (addr + 2)) as Hr.
  eexists. split; [apply (DebuggerFacts.get_next_opcode_addr_eq w rom op addr rel Hrom Hop)|].
  destruct (params op =? -1) eqn:E.
  - split; [lia|]. split; [lia|].
    intros d. rewrite (DebuggerFacts.get_next_opcode_addr_eq w rom op addr _ Hrom Hop), E.
    f_equal. f_equal. lia.
  - apply Z.eqb_neq in E. split; [lia|]. split; [lia|].
    intros d. rewrite (DebuggerFacts.get_next_opcode_addr_eq w rom op addr _ Hrom Hop).
    apply Z.eqb_neq in E. rewrite E. f_equal. f_equal. lia.
Qed.

Lemma get_next_opcode_addr_advances_witness :
  exists next,
    _get_next_opcode_addr 0x1100 200 (sample_world None) = (Done next, sample_world None)
    /\ 204 <= next <= 65739
    /\ _get_next_opcode_addr 0x1100 1200 (sample_world None)
       = (Done (next + 1000), sample_world None).
Proof.
  destruct (get_next_opcode_addr_advances (sample_world None) sample_rom
              (mkOpCode "Switch" (-1)) 0x1100 200 eq_refl eq_refl (or_introl eq_refl))
    as (next & Hrun & _ & Hvar & Hshift).
  exists next. split; [exact Hrun|]. split.
  - specialize (Hvar eq_refl). lia.
  - exact (Hshift 1000).
Defined.

End HookFacts.

(** ** Theorems: the refresh tick of the dungeon state controller *)

Module DungeonRefreshFacts.
Import DungeonStateController.
Import DungeonRefresh.

Section Refresh.
Context `{Toolkit}.
Variables (MAP_WIDTH MAP_HEIGHT : nat) (WONDER_TILE_value : Z).

(** *** The properties and the provider cache *)

Lemma dungeon_state_get_run (w : World) :
  dungeon_state_get w
  = (Ok (_dungeon_state (self w)), logged w [EvLockAcquire; EvLockRelease]).
Proof.
  unfold dungeon_state_get, synchronized, bind, get_self, emit, ret, logged.
  cbn. now rewrite <- app_assoc.
Qed.

Lemma asset_names :
  ("dungeon" +:+ PyStr.of_int 1 +:+ ".dpc" = "dungeon1.dpc")%string
  /\ ("dungeon" +:+ PyStr.of_int 1 +:+ ".dpci" = "dungeon1.dpci")%string
  /\ ("dungeon" +:+ PyStr.of_int 1 +:+ ".dpl" = "dungeon1.dpl")%string.
Proof. repeat split. Qed.

Lemma cache_check (c : Controller) :
  (if match _current_cached_tilemap_id c with
      | Some id => id =? 1
      | None => false
      end
   then _current_cached_full_map_provider c
   else None) = cached_provider c.
Proof.
  unfold cached_provider.
  destruct (_current_cached_tilemap_id c) as [id|]; reflexivity.
Qed.

(** What [_get_current_full_map_provider] returns and leaves behind. *)
Lemma provider_run (w : World) :
  _get_current_full_map_provider w
  = (current_provider (self w), mkWorld (after_provider (self w)) (trace w)).
Proof.
  destruct asset_names as (Ndpc & Ndpci & Ndpl).
  destruct w as [c tr].
  unfold _get_current_full_map_provider, current_provider, after_provider.
  unfold bind at 1. unfold get_self at 1. cbn [self trace].
  rewrite cache_check.
  destruct (cached_provider c) as [p|]; [reflexivity|].
  unfold built_provider, _get_dpc, _get_dpci, _get_dpl.
  rewrite Ndpc, Ndpci, Ndpl.
  unfold bind, get_self, modify_self, attr_of, lift, ret, raise, rbind.
  cbn.
  destruct (_dungeon_bin c) as [bin|] eqn:Ebin; cbn; [|reflexivity].
  destruct (DungeonBinPack_get bin "dungeon1.dpc") as [dpc|e]; cbn; [|reflexivity].
  rewrite Ebin. cbn.
  destruct (DungeonBinPack_get bin "dungeon1.dpci") as [dpci|e]; cbn; [|reflexivity].
  rewrite Ebin. cbn.
  destruct (DungeonBinPack_get bin "dungeon1.dpl") as [dpl|e]; cbn; [|reflexivity].
  destruct (chunks_to_pil dpc dpci dpl) as [img|e]; cbn; [|reflexivity].
  destruct (FullMapPixbufProvider_new img (_monster_bin c) (_monster_md c)) as [p|e];
    reflexivity.
Qed.

(** Looking the provider up changes the cache and nothing else. *)
Lemma after_provider_frame (c : Controller) :
  is_loaded (after_provider c) = is_loaded c
  /\ _rom_data (after_provider c) = _rom_data c
  /\ _dungeon_state (after_provider c) = _dungeon_state c
  /\ small_map_model (after_provider c) = small_map_model c
  /\ full_map_model (after_provider c) = full_map_model c
  /\ _dungeon_bin (after_provider c) = _dungeon_bin c
  /\ _monster_bin (after_provider c) = _monster_bin c
  /\ _monster_md (after_provider c) = _monster_md c.
Proof.
  unfold after_provider.
  destruct (cached_provider c); [repeat split|].
  destruct (built_provider c); repeat split.
Qed.

(** *** The loops of a tick *)

Lemma for_each_app {A : Type} (l1 l2 : list A) (body : A -> M unit) (w : World) :
  for_each (l1 ++ l2) body w = bind (for_each l1 body) (fun _ => for_each l2 body) w.
Proof.
  revert w. induction l1 as [|a l1 IH]; intros w; cbn [app for_each].
  - reflexivity.
  - unfold bind. destruct (body a w) as [[[]|e] w1]; [|reflexivity].
    rewrite IH. reflexivity.
Qed.

Lemma for_each_map {A B : Type} (f : A -> B) (l : list A) (body : B -> M unit)
    (w : World) :
  for_each (List.map f l) body w = for_each l (fun a => body (f a)) w.
Proof.
  revert w. induction l as [|a l IH]; intros w; cbn [List.map for_each]; [reflexivity|].
  unfold bind. destruct (body (f a) w) as [[[]|e] w1]; [apply IH|reflexivity].
Qed.

(** The two nested loops visit the fields of the floor in row-major order. *)
Lemma for_each_rows {A : Type} (g : nat -> nat -> A) (rows columns : list nat)
    (body : A -> M unit) (w : World) :
  for_each rows (fun y => for_each columns (fun x => body (g x y))) w
  = for_each (flat_map (fun y => List.map (fun x => g x y) columns) rows) body w.
Proof.
  revert w. induction rows as [|y rows IH]; intros w; cbn [flat_map for_each];
    [reflexivity|].
  rewrite for_each_app. unfold bind.
  rewrite for_each_map.
  destruct (for_each columns (fun x => body (g x y)) w) as [[[]|e] w1];
    [apply IH|reflexivity].
Qed.

(** One field. *)
Lemma render_field_run (provider : FullMapPixbufProvider) (map_field : DungeonField)
    (w : World) :
  render_field WONDER_TILE_value provider map_field w =
  match SmallMapPixbufProvider_get (terrain_type_of map_field)
          (floor_type_of WONDER_TILE_value map_field) (monster_type_of map_field) with
  | Raise e => (Raise e, w)
  | Ok pixbuf =>
      match FullMapPixbufProvider_get provider (texture_index map_field)
              (floor_type_of WONDER_TILE_value map_field) (monster_type_of map_field)
              (entity_on_floor map_field) (monster_on_tile map_field) with
      | Raise e =>
          (Raise e,
           mkWorld (with_models (small_map_model (self w) ++ [pixbuf])
                                (full_map_model (self w)) (self w)) (trace w))
      | Ok full_map_pixbuf =>
          (Ok tt,
           mkWorld (with_models (small_map_model (self w) ++ [pixbuf])
                                (full_map_model (self w) ++ [full_map_pixbuf]) (self w))
                   (trace w))
      end
  end.
Proof.
  unfold render_field, bind, lift, modify_self, ret, raise.
  destruct (SmallMapPixbufProvider_get _ _ _) as [pixbuf|e]; [|reflexivity].
  cbn.
  destruct (FullMapPixbufProvider_get _ _ _ _ _ _) as [full_map_pixbuf|e]; reflexivity.
Qed.

(** Any run of the loop: rows are appended to both list stores in step, the
    small map being at most one row ahead when the loop stops. *)
Lemma fields_loop (provider : FullMapPixbufProvider) (fields : list DungeonField) :
  forall w : World,
  exists r small full,
    for_each fields (render_field WONDER_TILE_value provider) w
    = (r, mkWorld (with_models (small_map_model (self w) ++ small)
                               (full_map_model (self w) ++ full) (self w)) (trace w))
    /\ (length full <= length small <= S (length full))%nat
    /\ (length small <= length fields)%nat
    /\ (r = Ok tt -> length full = length fields /\ length small = length fields).
Proof.
  induction fields as [|fld fields IH]; intros w.
  - exists (Ok tt), [], []. cbn. rewrite !app_nil_r.
    split; [destruct w as [[] ?]; reflexivity|]. repeat split; lia.
  - cbn [for_each]. unfold bind. rewrite render_field_run.
    destruct (SmallMapPixbufProvider_get _ _ _) as [pixbuf|e].
    + destruct (FullMapPixbufProvider_get _ _ _ _ _ _) as [full_map_pixbuf|e].
      * match goal with
        | |- context [for_each fields _ ?w1] =>
            destruct (IH w1) as (r & small & full & Hrun & Hlen & Hmax & Hok)
        end.
        exists r, (pixbuf :: small), (full_map_pixbuf :: full).
        rewrite Hrun. cbn. rewrite <- !app_assoc. cbn.
        split; [reflexivity|].
        split; [lia|]. split; [lia|].
        intros Hr. destruct (Hok Hr). lia.
      * exists (Raise e), [pixbuf], []. cbn. rewrite app_nil_r.
        split; [reflexivity|]. split; [lia|]. split; [lia|]. discriminate.
    + exists (Raise e), [], []. cbn. rewrite !app_nil_r.
      split; [destruct w as [[] ?]; reflexivity|].
      split; [lia|]. split; [lia|]. discriminate.
Qed.

(** A run of the loop in which every lookup succeeds. *)
Lemma fields_loop_ok (provider : FullMapPixbufProvider) (fields : list DungeonField) :
  Forall (fun fld =>
            (exists pixbuf,
                SmallMapPixbufProvider_get (terrain_type_of fld)
                  (floor_type_of WONDER_TILE_value fld) (monster_type_of fld) = Ok pixbuf)
            /\ (exists pixbuf,
                   FullMapPixbufProvider_get provider (texture_index fld)
                     (floor_type_of WONDER_TILE_value fld) (monster_type_of fld)
                     (entity_on_floor fld) (monster_on_tile fld) = Ok pixbuf)) fields ->
  forall w : World,
  exists small full,
    for_each fields (render_field WONDER_TILE_value provider) w
    = (Ok tt, mkWorld (with_models (small_map_model (self w) ++ small)
                                   (full_map_model (self w) ++ full) (self w)) (trace w))
    /\ Forall2 (fun fld pixbuf =>
                  SmallMapPixbufProvider_get (terrain_type_of fld)
                    (floor_type_of WONDER_TILE_value fld) (monster_type_of fld)
                  = Ok pixbuf) fields small
    /\ Forall2 (fun fld pixbuf =>
                  FullMapPixbufProvider_get provider (texture_index fld)
                    (floor_type_of WONDER_TILE_value fld) (monster_type_of fld)
                    (entity_on_floor fld) (monster_on_tile fld) = Ok pixbuf) fields full.
Proof.
  induction 1 as [|fld fields [[ps Hs] [pf Hf]] Hall IH]; intros w.
  - exists [], []. cbn. rewrite !app_nil_r.
    split; [destruct w as [[] ?]; reflexivity|]. split; constructor.
  - cbn [for_each]. unfold bind. rewrite render_field_run, Hs, Hf.
    match goal with
    | |- context [for_each fields _ ?w1] =>
        destruct (IH w1) as (small & full & Hrun & Hsmall & Hfull)
    end.
    exists (ps :: small), (pf :: full).
    rewrite Hrun. cbn. rewrite <- !app_assoc. cbn.
    split; [reflexivity|]. split; constructor; assumption.
Qed.

(** *** A tick, case by case *)

Lemma update_maps_run (seen : Snapshot) (w : World) :
  _update_maps MAP_WIDTH MAP_HEIGHT WONDER_TILE_value seen w =
  let c0 := with_models [] [] (self w) in
  if is_loaded (self w) then
    match _dungeon_state (self w) with
    | None =>
        (Raise AttributeError, mkWorld c0 (trace w ++ [EvLockAcquire; EvLockRelease]))
    | Some _ =>
        if valid seen then
          let locks := [EvLockAcquire; EvLockRelease; EvLockAcquire; EvLockRelease] in
          match load_map seen with
          | Raise ex =>
              (Ok tt, mkWorld c0 (trace w ++ locks ++ [EvWarning ex; EvTimeoutAdd]))
          | Ok map =>
              match current_provider c0 with
              | Raise ex =>
                  (Ok tt, mkWorld (after_provider c0)
                            (trace w ++ locks ++ [EvWarning ex; EvTimeoutAdd]))
              | Ok provider =>
                  match for_each (floor_fields MAP_WIDTH MAP_HEIGHT map)
                          (render_field WONDER_TILE_value provider)
                          (mkWorld (after_provider c0) (trace w ++ locks)) with
                  | (Ok _, w') => (Ok tt, logged w' [EvTimeoutAdd])
                  | (Raise ex, w') => (Ok tt, logged w' [EvWarning ex; EvTimeoutAdd])
                  end
              end
          end
        else (Ok tt, mkWorld c0 (trace w ++ [EvLockAcquire; EvLockRelease; EvTimeoutAdd]))
    end
  else (Ok tt, mkWorld c0 (trace w ++ [EvTimeoutAdd])).
Proof.
  destruct w as [c tr].
  unfold _update_maps.
  unfold bind at 1. unfold modify_self at 1. cbn [self trace].
  unfold bind at 1. unfold modify_self at 1. cbn [self trace].
  unfold bind at 1. unfold get_self at 1. cbn [self trace].
  fold (with_models [] [] c).
  change (is_loaded (with_models [] [] c)) with (is_loaded c).
  destruct (is_loaded c).
  - unfold bind at 1. unfold bind at 1. unfold bind at 1.
    rewrite dungeon_state_get_run. unfold logged. cbn [self trace].
    change (_dungeon_state (with_models [] [] c)) with (_dungeon_state c).
    destruct (_dungeon_state c) as [ds|] eqn:Eds; [|reflexivity].
    cbn [attr_of]. unfold ret at 1. unfold ret at 1.
    destruct (valid seen).
    + unfold bind at 1. unfold try_except_BaseException.
      unfold bind at 1. rewrite dungeon_state_get_run. unfold logged. cbn [self trace].
      change (_dungeon_state (with_models [] [] c)) with (_dungeon_state c).
      rewrite Eds.
      unfold bind at 1. cbn [attr_of]. unfold ret at 1.
      unfold bind at 1.
      rewrite <- app_assoc. cbn [app].
      destruct (load_map seen) as [map|ex]; cbn [lift].
      * unfold ret at 1. unfold bind at 1. rewrite provider_run. cbn [self trace].
        destruct (current_provider (with_models [] [] c)) as [provider|ex].
        -- rewrite for_each_rows.
           fold (floor_fields MAP_WIDTH MAP_HEIGHT map).
           destruct (for_each (floor_fields MAP_WIDTH MAP_HEIGHT map) _ _)
             as [[[]|ex] w'].
           ++ reflexivity.
           ++ unfold emit, logged. cbn. now rewrite <- app_assoc.
        -- unfold emit. cbn. now rewrite <- !app_assoc.
      * unfold raise at 1. unfold emit. cbn. now rewrite <- !app_assoc.
    + unfold bind, ret, emit. cbn. now rewrite <- !app_assoc.
  - unfold bind, ret, emit. cbn. reflexivity.
Qed.

(** *** [enable] and [disable] *)

Lemma dungeon_addresses_inv (rom_data : Pmd2Data) (block pointer : Z) :
  dungeon_addresses rom_data = Some (block, pointer) ->
  exists arm9,
    binaries rom_data !! "arm9.bin"%string = Some arm9
    /\ blocks arm9 !! "DungeonCurrentId"%string = Some block
    /\ pointers arm9 !! "DungeonData"%string = Some pointer.
Proof.
  unfold dungeon_addresses. intros Hd.
  destruct (binaries rom_data !! "arm9.bin"%string) as [arm9|] eqn:E1; [|discriminate].
  cbn in Hd.
  destruct (blocks arm9 !! "DungeonCurrentId"%string) as [b|] eqn:E2; [|discriminate].
  cbn in Hd.
  destruct (pointers arm9 !! "DungeonData"%string) as [p|] eqn:E3; [|discriminate].
  cbn in Hd. injection Hd as <- <-.
  exists arm9. repeat split; assumption.
Qed.

Lemma dungeon_enable_run (rom_data : Pmd2Data) (context : ControlContext) (w : World)
    (block pointer : Z) (dungeon_bin : DungeonBinPack) (monster_bin : BinPack)
    (monster_md : Md) :
  dungeon_addresses rom_data = Some (block, pointer) ->
  get_dungeon_bin context = Ok dungeon_bin ->
  get_monster_bin context = Ok monster_bin ->
  get_monster_md context = Ok monster_md ->
  enable rom_data context w =
  (Ok tt,
   mkWorld
     (mkController true (Some rom_data) (Some block) (Some pointer)
        (Some (mkDungeonState pointer block))
        (small_map_model (self w)) (full_map_model (self w))
        (_current_cached_tilemap_id (self w))
        (_current_cached_full_map_provider (self w))
        (Some dungeon_bin) (Some monster_bin) (Some monster_md))
     (trace w ++ [EvLockAcquire; EvLockRelease])).
Proof.
  intros Hd Hbin Hmb Hmd.
  destruct (dungeon_addresses_inv rom_data block pointer Hd) as (arm9 & E1 & E2 & E3).
  unfold enable, dungeon_state_set, synchronized, bind, modify_self, dict_get, emit,
    lift, ret.
  cbn. rewrite E1. cbn. rewrite E2. cbn. rewrite ?E1. cbn. rewrite E3. cbn.
  rewrite Hbin. cbn. rewrite Hmb. cbn. rewrite Hmd. cbn.
  now rewrite <- app_assoc.
Qed.

Lemma dungeon_disable_run (w : World) :
  disable w =
  (Ok tt,
   mkWorld (set_rom_data None (set_is_loaded false (self w)))
           (trace w ++ [EvLockAcquire; EvLockRelease])).
Proof.
  unfold disable, rom_data_set, synchronized, bind, modify_self, emit.
  cbn. now rewrite <- app_assoc.
Qed.

Lemma floor_fields_length (map : nat -> nat -> DungeonField) :
  length (floor_fields MAP_WIDTH MAP_HEIGHT map) = (MAP_HEIGHT * MAP_WIDTH)%nat.
Proof.
  unfold floor_fields.
  generalize 0%nat at 2. induction MAP_HEIGHT as [|h IH]; intros s; [reflexivity|].
  cbn [seq flat_map]. rewrite length_app, length_map, length_seq, IH. lia.
Qed.

Lemma update_maps_icons (map : nat -> nat -> DungeonField) :
  DungeonStateController._update_maps MAP_WIDTH MAP_HEIGHT WONDER_TILE_value true true map
  = List.map (small_map_icon WONDER_TILE_value) (floor_fields MAP_WIDTH MAP_HEIGHT map).
Proof.
  unfold DungeonStateController._update_maps, floor_fields. cbn [andb].
  generalize 0%nat at 2 4. induction MAP_HEIGHT as [|h IH]; intros s; [reflexivity|].
  cbn [seq flat_map]. rewrite map_app, IH. f_equal.
  rewrite List.map_map. reflexivity.
Qed.

Lemma cached_after_provider (c : Controller) (provider : FullMapPixbufProvider) :
  current_provider c = Ok provider ->
  cached_provider (after_provider c) = Some provider.
Proof.
  unfold current_provider, after_provider.
  destruct (cached_provider c) as [p|] eqn:Ec.
  - intros [= <-]. exact Ec.
  - intros ->. reflexivity.
Qed.

Lemma provider_hit (c : Controller) (tr : list Event) (provider : FullMapPixbufProvider) :
  cached_provider c = Some provider ->
  _get_current_full_map_provider (mkWorld c tr) = (Ok provider, mkWorld c tr).
Proof.
  intros Hc. rewrite provider_run. unfold current_provider, after_provider.
  cbn [self trace]. rewrite Hc. reflexivity.
Qed.

(** *** What a tick does *)

(** A tick that renders the whole floor. On a loaded controller with a
    dungeon state that is valid, whose map loads, with a full-map provider
    cached or buildable, and with a pixbuf for every field of the floor, the
    tick returns and re-arms the timer without a warning. The small map model
    then holds, in row-major order, the pixbuf of each icon of the
    classification, the full map model the tile of each field, both
    [MAP_WIDTH * MAP_HEIGHT] rows long whatever they held before, and the
    provider is cached. *)
Theorem tick_renders_the_floor (seen : Snapshot) (w : World) (ds : DungeonState)
    (map : nat -> nat -> DungeonField) (provider : FullMapPixbufProvider) :
  is_loaded (self w) = true ->
  _dungeon_state (self w) = Some ds ->
  valid seen = true ->
  load_map seen = Ok map ->
  current_provider (self w) = Ok provider ->
  (forall x y, (x < MAP_WIDTH)%nat -> (y < MAP_HEIGHT)%nat ->
     (exists pixbuf,
         SmallMapPixbufProvider_get (terrain_type_of (map x y))
           (floor_type_of WONDER_TILE_value (map x y)) (monster_type_of (map x y))
         = Ok pixbuf)
     /\ (exists pixbuf,
            FullMapPixbufProvider_get provider (texture_index (map x y))
              (floor_type_of WONDER_TILE_value (map x y)) (monster_type_of (map x y))
              (entity_on_floor (map x y)) (monster_on_tile (map x y)) = Ok pixbuf)) ->
  exists w',
    _update_maps MAP_WIDTH MAP_HEIGHT WONDER_TILE_value seen w = (Ok tt, w')
    /\ Forall2 (fun icon pixbuf =>
                  SmallMapPixbufProvider_get icon.1.1 icon.1.2 icon.2 = Ok pixbuf)
         (DungeonStateController._update_maps MAP_WIDTH MAP_HEIGHT WONDER_TILE_value
            true true map)
         (small_map_model (self w'))
    /\ Forall2 (fun fld pixbuf =>
                  FullMapPixbufProvider_get provider (texture_index fld)
                    (floor_type_of WONDER_TILE_value fld) (monster_type_of fld)
                    (entity_on_floor fld) (monster_on_tile fld) = Ok pixbuf)
         (floor_fields MAP_WIDTH MAP_HEIGHT map)
         (full_map_model (self w'))
    /\ length (small_map_model (self w')) = (MAP_HEIGHT * MAP_WIDTH)%nat
    /\ length (full_map_model (self w')) = (MAP_HEIGHT * MAP_WIDTH)%nat
    /\ cached_provider (self w') = Some provider
    /\ trace w' = trace w ++ [EvLockAcquire; EvLockRelease; EvLockAcquire; EvLockRelease;
                              EvTimeoutAdd].
Proof.
  intros Hloaded Hds Hvalid Hmap Hprov Hpix.
  rewrite update_maps_run, Hloaded, Hds, Hvalid, Hmap. cbv zeta.
  change (current_provider (with_models [] [] (self w))) with (current_provider (self w)).
  rewrite Hprov.
  assert (Hall : Forall (fun fld =>
            (exists pixbuf,
                SmallMapPixbufProvider_get (terrain_type_of fld)
                  (floor_type_of WONDER_TILE_value fld) (monster_type_of fld) = Ok pixbuf)
            /\ (exists pixbuf,
                   FullMapPixbufProvider_get provider (texture_index fld)
                     (floor_type_of WONDER_TILE_value fld) (monster_type_of fld)
                     (entity_on_floor fld) (monster_on_tile fld) = Ok pixbuf))
            (floor_fields MAP_WIDTH MAP_HEIGHT map)).
  { apply List.Forall_forall. intros fld Hin. unfold floor_fields in Hin.
    apply in_flat_map in Hin. destruct Hin as (y & Hy & Hin).
    apply in_map_iff in Hin. destruct Hin as (x & <- & Hx).
    apply in_seq in Hy. apply in_seq in Hx. apply Hpix; lia. }
  match goal with
  | |- context [for_each _ _ ?w1] =>
      destruct (fields_loop_ok provider _ Hall w1) as (small & full & Hrun & Hs & Hf)
  end.
  rewrite Hrun. eexists. split; [reflexivity|].
  cbn [logged self trace with_models small_map_model full_map_model
         set_small_map_model set_full_map_model].
  pose proof (after_provider_frame (with_models [] [] (self w)))
    as (_ & _ & _ & Hsm & Hfm & _).
  cbn in Hsm, Hfm. rewrite Hsm, Hfm. cbn [app].
  split; [|split; [exact Hf|]].
  { rewrite update_maps_icons. apply Forall2_fmap_l.
    eapply Forall2_impl; [exact Hs|]. intros fld pixbuf Hget. exact Hget. }
  split; [rewrite <- (Forall2_length _ _ _ Hs); apply floor_fields_length|].
  split; [rewrite <- (Forall2_length _ _ _ Hf); apply floor_fields_length|].
  split.
  - apply (cached_after_provider (with_models [] [] (self w)) provider Hprov).
  - now rewrite <- app_assoc.
Qed.

(** A tick that renders nothing. When the controller is not loaded, or its
    dungeon state is not valid, the tick empties both list stores, touches
    nothing else of the controller and re-arms the timer. [disable] brings
    this about: after it the next tick empties the maps although the dungeon
    state, the assets and the provider cache are all still there. *)
Theorem tick_without_rendering (seen : Snapshot) (w : World) :
  (is_loaded (self w) = false ->
   _update_maps MAP_WIDTH MAP_HEIGHT WONDER_TILE_value seen w
   = (Ok tt, mkWorld (with_models [] [] (self w)) (trace w ++ [EvTimeoutAdd])))
  /\ (is_loaded (self w) = true -> is_Some (_dungeon_state (self w)) ->
      valid seen = false ->
      _update_maps MAP_WIDTH MAP_HEIGHT WONDER_TILE_value seen w
      = (Ok tt, mkWorld (with_models [] [] (self w))
                  (trace w ++ [EvLockAcquire; EvLockRelease; EvTimeoutAdd])))
  /\ (exists w1 w2,
         disable w = (Ok tt, w1)
         /\ _update_maps MAP_WIDTH MAP_HEIGHT WONDER_TILE_value seen w1 = (Ok tt, w2)
         /\ small_map_model (self w2) = []
         /\ full_map_model (self w2) = []
         /\ is_loaded (self w2) = false
         /\ _rom_data (self w2) = None
         /\ _dungeon_state (self w2) = _dungeon_state (self w)
         /\ _dungeon_bin (self w2) = _dungeon_bin (self w)
         /\ cached_provider (self w2) = cached_provider (self w)).
Proof.
  split; [|split].
  - intros Hl. rewrite update_maps_run, Hl. reflexivity.
  - intros Hl [ds Hds] Hv. rewrite update_maps_run, Hl, Hds, Hv. reflexivity.
  - eexists. eexists. split; [apply dungeon_disable_run|].
    split; [rewrite update_maps_run; reflexivity|].
    cbn. repeat split.
Qed.

(** No tick fails on a controller that is unloaded or holds a dungeon
    state. Whatever goes wrong while rendering is swallowed: the tick
    returns, the timer is re-armed exactly once, and the two list stores stay
    in step up to one row, the small map being the one ahead, with at most
    [MAP_WIDTH * MAP_HEIGHT] rows. The condition itself is kept, so this holds
    tick after tick. *)
Theorem tick_swallows_failures (seen : Snapshot) (w : World) :
  (is_loaded (self w) = true -> is_Some (_dungeon_state (self w))) ->
  exists w' evs,
    _update_maps MAP_WIDTH MAP_HEIGHT WONDER_TILE_value seen w = (Ok tt, w')
    /\ (length (full_map_model (self w')) <= length (small_map_model (self w'))
        <= S (length (full_map_model (self w'))))%nat
    /\ (length (small_map_model (self w')) <= MAP_HEIGHT * MAP_WIDTH)%nat
    /\ trace w' = trace w ++ evs ++ [EvTimeoutAdd]
    /\ ~ In EvTimeoutAdd evs
    /\ is_loaded (self w') = is_loaded (self w)
    /\ _dungeon_state (self w') = _dungeon_state (self w).
Proof.
  intros Hds.
  rewrite update_maps_run. cbv zeta.
  destruct (is_loaded (self w)) eqn:Hl.
  - destruct (Hds eq_refl) as [ds Eds]. rewrite Eds.
    destruct (valid seen).
    + destruct (load_map seen) as [map|ex].
      * pose proof (after_provider_frame (with_models [] [] (self w)))
          as (Hl' & _ & Hds' & Hsm & Hfm & _).
        cbn in Hl', Hds', Hsm, Hfm.
        destruct (current_provider (with_models [] [] (self w))) as [provider|ex].
        -- match goal with
           | |- context [for_each _ _ ?w1] =>
               destruct (fields_loop provider (floor_fields MAP_WIDTH MAP_HEIGHT map) w1)
                 as (r & small & full & Hrun & Hlen & Hmax & _)
           end.
           rewrite Hrun. cbn [self trace] in *. rewrite Hsm, Hfm. cbn [app].
           rewrite floor_fields_length in Hmax.
           destruct r as [[]|ex].
           ++ eexists.
              exists [EvLockAcquire; EvLockRelease; EvLockAcquire; EvLockRelease].
              split; [reflexivity|]. cbn.
              split; [exact Hlen|]. split; [exact Hmax|].
              split; [now rewrite <- app_assoc|].
              split; [intuition discriminate|].
              split; [rewrite Hl'; exact Hl|rewrite Hds'; exact Eds].
           ++ eexists.
              exists [EvLockAcquire; EvLockRelease; EvLockAcquire; EvLockRelease;
                      EvWarning ex].
              split; [reflexivity|]. cbn.
              split; [exact Hlen|]. split; [exact Hmax|].
              split; [now rewrite <- app_assoc|].
              split; [intuition discriminate|].
              split; [rewrite Hl'; exact Hl|rewrite Hds'; exact Eds].
        -- eexists.
           exists [EvLockAcquire; EvLockRelease; EvLockAcquire; EvLockRelease;
                   EvWarning ex].
           split; [reflexivity|]. cbn. rewrite Hsm, Hfm. cbn.
           split; [lia|]. split; [lia|]. split; [reflexivity|].
           split; [intuition discriminate|].
           split; [rewrite Hl'; exact Hl|rewrite Hds'; exact Eds].
      * eexists.
        exists [EvLockAcquire; EvLockRelease; EvLockAcquire; EvLockRelease; EvWarning ex].
        split; [reflexivity|]. cbn.
        split; [lia|]. split; [lia|]. split; [reflexivity|].
        split; [intuition discriminate|]. split; [exact Hl|exact Eds].
    + eexists. exists [EvLockAcquire; EvLockRelease].
      split; [reflexivity|]. cbn.
      split; [lia|]. split; [lia|]. split; [reflexivity|].
      split; [intuition discriminate|]. split; [exact Hl|exact Eds].
  - eexists. exists [].
    split; [reflexivity|]. cbn.
    split; [lia|]. split; [lia|]. split; [reflexivity|].
    split; [tauto|]. split; [exact Hl|reflexivity].
Qed.

(** A failed [enable] stops the refresh for good. [enable] marks the
    controller loaded before it resolves the addresses; on a ROM
    configuration that lacks the binary, the block or the pointer it raises
    [KeyError] without having built a dungeon state. If there was none
    before, the next tick raises [AttributeError] after emptying the maps,
    and the timer is not re-armed. *)
Theorem tick_after_failed_enable (seen : Snapshot) (w : World) (rom_data : Pmd2Data)
    (context : ControlContext) :
  dungeon_addresses rom_data = None ->
  _dungeon_state (self w) = None ->
  exists w1 w2,
    enable rom_data context w = (Raise KeyError, w1)
    /\ is_loaded (self w1) = true
    /\ _rom_data (self w1) = Some rom_data
    /\ trace w1 = trace w
    /\ _update_maps MAP_WIDTH MAP_HEIGHT WONDER_TILE_value seen w1
       = (Raise AttributeError, w2)
    /\ trace w2 = trace w ++ [EvLockAcquire; EvLockRelease]
    /\ small_map_model (self w2) = []
    /\ full_map_model (self w2) = [].
Proof.
  intros Hd Hds.
  assert (Henable : exists w1,
             enable rom_data context w = (Raise KeyError, w1)
             /\ is_loaded (self w1) = true
             /\ _rom_data (self w1) = Some rom_data
             /\ _dungeon_state (self w1) = None
             /\ trace w1 = trace w).
  { unfold dungeon_addresses in Hd.
    unfold enable, bind, modify_self, dict_get, ret, raise. cbn.
    destruct (binaries rom_data !! "arm9.bin"%string) as [arm9|] eqn:E1; cbn in *;
      [|eexists; split; [reflexivity|]; cbn; auto].
    destruct (blocks arm9 !! "DungeonCurrentId"%string) as [block|] eqn:E2; cbn in *;
      [|eexists; split; [reflexivity|]; cbn; auto].
    rewrite ?E1. cbn.
    destruct (pointers arm9 !! "DungeonData"%string) as [pointer|] eqn:E3; cbn in *;
      [discriminate|].
    eexists; split; [reflexivity|]; cbn; auto. }
  destruct Henable as (w1 & Hrun & Hl & Hrom & Hds1 & Htr).
  exists w1. eexists. split; [exact Hrun|]. split; [exact Hl|]. split; [exact Hrom|].
  split; [exact Htr|].
  rewrite update_maps_run, Hl, Hds1. cbv zeta.
  split; [reflexivity|]. cbn. rewrite Htr. repeat split.
Qed.

(** The provider cache. Once a provider was returned, every later call
    returns the same provider and changes nothing, even after [disable] and
    an [enable] that replaced the assets it was built from. A first build
    that fails leaves the tileset id cached but no provider, so a later call
    builds again, from the assets held then. *)
Theorem provider_cache (w : World) :
  (forall provider rom_data context block pointer dungeon_bin monster_bin monster_md,
      current_provider (self w) = Ok provider ->
      dungeon_addresses rom_data = Some (block, pointer) ->
      get_dungeon_bin context = Ok dungeon_bin ->
      get_monster_bin context = Ok monster_bin ->
      get_monster_md context = Ok monster_md ->
      exists w1 w2 w3,
        _get_current_full_map_provider w = (Ok provider, w1)
        /\ _get_current_full_map_provider w1 = (Ok provider, w1)
        /\ disable w1 = (Ok tt, w2)
        /\ enable rom_data context w2 = (Ok tt, w3)
        /\ _dungeon_bin (self w3) = Some dungeon_bin
        /\ _get_current_full_map_provider w3 = (Ok provider, w3))
  /\ (forall ex,
         _current_cached_full_map_provider (self w) = None ->
         built_provider (self w) = Raise ex ->
         exists w1,
           _get_current_full_map_provider w = (Raise ex, w1)
           /\ _current_cached_tilemap_id (self w1) = Some 1
           /\ _current_cached_full_map_provider (self w1) = None
           /\ forall dungeon_bin,
                fst (_get_current_full_map_provider
                       (mkWorld (set_dungeon_bin dungeon_bin (self w1)) (trace w1)))
                = built_provider (set_dungeon_bin dungeon_bin (self w1))).
Proof.
  split.
  - intros provider rom_data context block pointer dungeon_bin monster_bin monster_md
      Hprov Hd Hbin Hmb Hmd.
    pose proof (cached_after_provider (self w) provider Hprov) as Hcached.
    eexists. eexists. eexists.
    split; [rewrite provider_run, Hprov; reflexivity|].
    split; [apply provider_hit; exact Hcached|].
    split; [apply dungeon_disable_run|].
    split; [apply (dungeon_enable_run rom_data context _ block pointer dungeon_bin monster_bin
                     monster_md Hd Hbin Hmb Hmd)|].
    split; [reflexivity|].
    apply provider_hit. exact Hcached.
  - intros ex Hnone Hbuilt.
    assert (Hc : cached_provider (self w) = None).
    { unfold cached_provider. rewrite Hnone.
      destruct (_current_cached_tilemap_id (self w)) as [id|]; [|reflexivity].
      destruct (id =? 1); reflexivity. }
    eexists. split.
    { rewrite provider_run. unfold current_provider, after_provider.
      rewrite Hc, Hbuilt. reflexivity. }
    cbn [self trace].
    split; [reflexivity|]. split; [exact Hnone|].
    intros dungeon_bin. rewrite provider_run. cbn [fst self].
    unfold current_provider, cached_provider. cbn. rewrite Hnone. reflexivity.
Qed.

End Refresh.

Import Samples.

Lemma tick_renders_the_floor_witness :
  exists w',
    @_update_maps sample_toolkit 2 2 17 sample_snapshot dungeon_enabled = (Ok tt, w')
    /\ small_map_model (self w')
       = [sample_icon (BASE_TERRAIN 0) FLOOR_NONE MONSTER_NONE;
          sample_icon JUNCTION FLOOR_NONE ENEMY;
          sample_icon (BASE_TERRAIN 1) FLOOR_NONE ALLY_ENEMY;
          sample_icon (BASE_TERRAIN 0) FLOOR_NONE MONSTER_NONE]
    /\ full_map_model (self w')
       = [sample_tile 7 0; sample_tile 7 3; sample_tile 7 0; sample_tile 7 0]
    /\ @cached_provider sample_toolkit (self w') = Some 7.
Proof.
  destruct (@tick_renders_the_floor sample_toolkit 2 2 17 sample_snapshot dungeon_enabled
              (mkDungeonState 0x2353538 0x22AB0) sample_map 7
              eq_refl eq_refl eq_refl eq_refl eq_refl)
    as (w' & Hrun & _ & _ & _ & _ & Hcached & _).
  - intros x y Hx Hy.
    destruct x as [|[|x]]; destruct y as [|[|y]]; try lia;
      (split; eexists; reflexivity).
  - assert (Hw : w' = snd (@_update_maps sample_toolkit 2 2 17 sample_snapshot
                                dungeon_enabled))
      by (rewrite Hrun; reflexivity).
    exists w'. split; [exact Hrun|]. rewrite Hw.
    split; [vm_compute; reflexivity|]. split; vm_compute; reflexivity.
Defined.

Lemma tick_without_rendering_witness :
  exists w1 w2,
    @disable sample_toolkit dungeon_enabled = (Ok tt, w1)
    /\ @_update_maps sample_toolkit 2 2 17 sample_snapshot w1 = (Ok tt, w2)
    /\ small_map_model (self w2) = []
    /\ full_map_model (self w2) = []
    /\ _dungeon_state (self w2) = Some (mkDungeonState 0x2353538 0x22AB0).
Proof.
  destruct (@tick_without_rendering sample_toolkit 2 2 17 sample_snapshot dungeon_enabled)
    as (_ & _ & w1 & w2 & H1 & H2 & Hs & Hf & _ & _ & Hds & _).
  exists w1, w2. split; [exact H1|]. split; [exact H2|].
  split; [exact Hs|]. split; [exact Hf|]. rewrite Hds. reflexivity.
Defined.

Lemma tick_swallows_failures_witness :
  exists w',
    @_update_maps sample_toolkit 2 2 17 torn_snapshot dungeon_enabled = (Ok tt, w')
    /\ length (small_map_model (self w')) = 2%nat
    /\ length (full_map_model (self w')) = 1%nat
    /\ trace w'
       = trace dungeon_enabled
         ++ [EvLockAcquire; EvLockRelease; EvLockAcquire; EvLockRelease;
             EvWarning KeyError; EvTimeoutAdd].
Proof.
  destruct (@tick_swallows_failures sample_toolkit 2 2 17 torn_snapshot dungeon_enabled)
    as (w' & evs & Hrun & _).
  - intros _. eexists. reflexivity.
  - assert (Hw : w' = snd (@_update_maps sample_toolkit 2 2 17 torn_snapshot
                                dungeon_enabled))
      by (rewrite Hrun; reflexivity).
    exists w'. split; [exact Hrun|]. rewrite Hw.
    split; [vm_compute; reflexivity|]. split; vm_compute; reflexivity.
Defined.

Lemma tick_after_failed_enable_witness :
  exists w1 w2,
    @enable sample_toolkit dungeon_rom_no_block dungeon_context dungeon_fresh
    = (Raise KeyError, w1)
    /\ is_loaded (self w1) = true
    /\ @_update_maps sample_toolkit 2 2 17 sample_snapshot w1 = (Raise AttributeError, w2)
    /\ trace w2 = [EvTimeoutAdd; EvLockAcquire; EvLockRelease].
Proof.
  destruct (@tick_after_failed_enable sample_toolkit 2 2 17 sample_snapshot dungeon_fresh
              dungeon_rom_no_block dungeon_context eq_refl eq_refl)
    as (w1 & w2 & H1 & Hl & _ & _ & H2 & Htr & _).
  exists w1, w2. split; [exact H1|]. split; [exact Hl|]. split; [exact H2|].
  rewrite Htr. reflexivity.
Defined.

Lemma provider_cache_witness :
  (exists w1 w2 w3,
      @_get_current_full_map_provider sample_toolkit dungeon_enabled = (Ok 7, w1)
      /\ @disable sample_toolkit w1 = (Ok tt, w2)
      /\ @enable sample_toolkit dungeon_rom other_context w2 = (Ok tt, w3)
      /\ @built_provider sample_toolkit (self w3) = Ok 70
      /\ @_get_current_full_map_provider sample_toolkit w3 = (Ok 7, w3))
  /\ (exists w1,
         @_get_current_full_map_provider sample_toolkit dungeon_broken
         = (Raise KeyError, w1)
         /\ _current_cached_tilemap_id (self w1) = Some 1
         /\ _current_cached_full_map_provider (self w1) = None).
Proof.
  pose proof (@provider_cache sample_toolkit dungeon_enabled) as [Hhit _].
  pose proof (@provider_cache sample_toolkit dungeon_broken) as [_ Hmiss].
  split.
  - destruct (Hhit 7 dungeon_rom other_context 0x22AB0 0x2353538
                ({[ "dungeon1.dpc"%string := 10; "dungeon1.dpci"%string := 20;
                    "dungeon1.dpl"%string := 40 ]} : gmap string Z) tt tt
                eq_refl eq_refl eq_refl eq_refl eq_refl)
      as (w1 & w2 & w3 & H1 & _ & H2 & H3 & _ & H4).
    exists w1, w2, w3. split; [exact H1|]. split; [exact H2|]. split; [exact H3|].
    split; [|exact H4].
    assert (Hw1 : w1 = snd (@_get_current_full_map_provider sample_toolkit dungeon_enabled))
      by (rewrite H1; reflexivity).
    assert (Hw2 : w2 = snd (@disable sample_toolkit w1)) by (rewrite H2; reflexivity).
    assert (Hw3 : w3 = snd (@enable sample_toolkit dungeon_rom other_context w2))
      by (rewrite H3; reflexivity).
    rewrite Hw3, Hw2, Hw1. vm_compute. reflexivity.
  - destruct (Hmiss KeyError eq_refl eq_refl) as (w1 & H1 & Hid & Hp & _).
    exists w1. split; [exact H1|]. split; [exact Hid|exact Hp].
Defined.

(** *** The floor marker *)

(** The floor marker of the icon at [(x, y)]. Whatever lies on the floor
    hides the stairs: the marker is the item marker exactly for an item, the
    wonder-tile marker exactly for another entity whose trap id is the wonder
    tile's, the other-trap marker exactly for another entity with any other
    trap id, the stairs marker exactly for stairs with nothing on them, and
    no marker exactly when there is neither. *)
Theorem floor_classification (MAP_WIDTH MAP_HEIGHT : nat) (wonder : Z)
    (map : nat -> nat -> DungeonField) (x y : nat) :
  (x < MAP_WIDTH)%nat -> (y < MAP_HEIGHT)%nat ->
  let field := map x y in
  let floor := floor_type_of wonder field in
  (exists terrain monster,
      nth_error (DungeonStateController._update_maps MAP_WIDTH MAP_HEIGHT wonder true true map)
        (y * MAP_WIDTH + x) = Some (terrain, floor, monster))
  /\ (floor = ITEM
      <-> exists entity, entity_on_floor field = Some entity
                         /\ entity_type entity = ENTITY_ITEM)
  /\ (floor = WONDER_TILE
      <-> exists entity, entity_on_floor field = Some entity
                         /\ entity_type entity = ENTITY_OTHER
                         /\ trap_id entity = wonder)
  /\ (floor = OTHER_TRAP
      <-> exists entity, entity_on_floor field = Some entity
                         /\ entity_type entity = ENTITY_OTHER
                         /\ trap_id entity <> wonder)
  /\ (floor = STAIRS
      <-> entity_on_floor field = None /\ stair_type field <> STAIR_NONE)
  /\ (floor = FLOOR_NONE
      <-> entity_on_floor field = None /\ stair_type field = STAIR_NONE).
Proof.
  intros Hx Hy field floor.
  split.
  { exists (terrain_type_of field), (monster_type_of field).
    unfold DungeonStateController._update_maps. cbn [andb].
    rewrite (DungeonFacts.nth_error_rows (fun y' x' => small_map_icon wonder (map x' y')))
      by assumption.
    reflexivity. }
  subst floor. unfold floor_type_of.
  destruct (entity_on_floor field) as [entity|].
  - destruct (entity_type entity) eqn:Et.
    + (split; [|split; [|split; [|split]]]); (split; intros Hc); try discriminate;
        try (apply proj1 in Hc; discriminate Hc);
        try (destruct Hc as (e & [= <-] & Hc); intuition congruence).
      exists entity. split; [reflexivity|exact Et].
    + destruct (trap_id entity =? wonder) eqn:Ew;
        [apply Z.eqb_eq in Ew|apply Z.eqb_neq in Ew];
        ((split; [|split; [|split; [|split]]]); (split; intros Hc); try discriminate;
         try (apply proj1 in Hc; discriminate Hc);
         try (destruct Hc as (e & [= <-] & Hc); intuition congruence);
         exists entity; repeat split; assumption).
  - destruct (stair_type field) as [|v] eqn:Es;
      (split; [|split; [|split; [|split]]]); (split; intros Hc); try discriminate;
      try (destruct Hc as (e & Hsome & Hc); discriminate Hsome);
      try (apply proj2 in Hc; congruence);
      (split; [reflexivity|]); try reflexivity; discriminate.
Qed.

Lemma floor_classification_witness :
  (exists terrain monster,
      nth_error (DungeonStateController._update_maps 2 2 17 true true littered_map) 0
      = Some (terrain, ITEM, monster))
  /\ (exists terrain monster,
         nth_error (DungeonStateController._update_maps 2 2 17 true true littered_map) 1
         = Some (terrain, WONDER_TILE, monster))
  /\ floor_type_of 17 (littered_map 0 1) = OTHER_TRAP
  /\ floor_type_of 17 (littered_map 1 1) = STAIRS.
Proof.
  pose proof (floor_classification 2 2 17 littered_map 0 0 ltac:(lia) ltac:(lia))
    as (H00 & _).
  pose proof (floor_classification 2 2 17 littered_map 1 0 ltac:(lia) ltac:(lia))
    as (H10 & _).
  pose proof (floor_classification 2 2 17 littered_map 0 1 ltac:(lia) ltac:(lia))
    as (_ & _ & _ & H01 & _).
  pose proof (floor_classification 2 2 17 littered_map 1 1 ltac:(lia) ltac:(lia))
    as (_ & _ & _ & _ & H11 & _).
  split; [exact H00|]. split; [exact H10|]. split.
  - apply H01. eexists. repeat split. discriminate.
  - apply H11. split; [reflexivity|discriminate].
Defined.

End DungeonRefreshFacts.
